(** * EPG generator (main.py): a shallow embedding and its properties

    The script fetches channel metadata and three per-day schedule bundles,
    and assembles an XMLTV tree.  The embedding follows main.py function by
    function.  Python values are the values a JSON payload decodes to;
    exceptions are explicit ([result]); the two mutable objects of the main
    script (the [processed_channels] set and the [tv] element) are threaded
    as a [state] record.  What the network, the clock and the time-zone
    table answer is an input of the model.  The builtins and library calls
    the script makes (int, dict and set operations, datetime, strftime,
    requests, ElementTree) are modelled as CPython on 64-bit Linux runs
    them. *)

From Stdlib Require Import ZArith List String Ascii Bool Lia.
From Stdlib Require Import Sorted Permutation SpecFloat.
Import ListNotations.

Set Warnings "-register-all".

Local Open Scope string_scope.
Local Open Scope list_scope.
Local Open Scope Z_scope.

(** ** Exceptions and results *)

(** The exception classes the script can meet.  [RequestException] stands
    for requests.exceptions.RequestException and its subclasses (connection
    errors, HTTPError, requests' JSONDecodeError); a plain [OSError] is not
    one of them. *)
Inductive exn : Type :=
| ValueError
| TypeError
| OverflowError
| OSError
| KeyError
| AttributeError
| RequestException.

Inductive result (A : Type) : Type :=
| Ok (a : A)
| Raise (e : exn).

Arguments Ok {A} a.
Arguments Raise {A} e.

Definition bind {A B : Type} (m : result A) (k : A -> result B) : result B :=
  match m with
  | Ok a => k a
  | Raise e => Raise e
  end.

Declare Scope py_scope.
Delimit Scope py_scope with py.
Notation "x <- m ;; k" := (bind m (fun x => k))
  (at level 61, m at next level, right associativity) : py_scope.
Local Open Scope py_scope.

(** [try: body / except E: handler] for a single exception class. *)
Definition catch {A : Type} (cls : exn -> bool) (body : result A)
    (handler : result A) : result A :=
  match body with
  | Ok a => Ok a
  | Raise e => if cls e then handler else Raise e
  end.

Definition is_ValueError (e : exn) : bool :=
  match e with ValueError => true | _ => false end.

Definition is_RequestException (e : exn) : bool :=
  match e with RequestException => true | _ => false end.

Fixpoint mapM {A B : Type} (f : A -> result B) (l : list A) : result (list B) :=
  match l with
  | [] => Ok []
  | a :: r => b <- f a ;; bs <- mapM f r ;; Ok (b :: bs)
  end.

(** ** Python values *)

(** What json decoding yields.  A float is an IEEE-754 value
    ([SpecFloat.spec_float]); a dict keeps its items in insertion order and
    lookup takes the first item with the key. *)
Inductive pyval : Type :=
| PNone
| PBool (b : bool)
| PInt (z : Z)
| PFloat (f : spec_float)
| PStr (s : string)
| PList (l : list pyval)
| PDict (d : list (string * pyval)).

Fixpoint dict_get (d : list (string * pyval)) (k : string) (default : pyval)
    : pyval :=
  match d with
  | [] => default
  | (k', v) :: r => if String.eqb k' k then v else dict_get r k default
  end.

Fixpoint has_key (d : list (string * pyval)) (k : string) : bool :=
  match d with
  | [] => false
  | (k', _) :: r => String.eqb k' k || has_key r k
  end.

(** [obj.get(k, default)]: only a dict has the method. *)
Definition py_get (obj : pyval) (k : string) (default : pyval) : result pyval :=
  match obj with
  | PDict d => Ok (dict_get d k default)
  | _ => Raise AttributeError
  end.

(** [obj[k]] with a string key. *)
Definition py_getitem (obj : pyval) (k : string) : result pyval :=
  match obj with
  | PDict d => if has_key d k then Ok (dict_get d k PNone) else Raise KeyError
  | _ => Raise TypeError
  end.

(** *** Characters *)

(** A str is held as its UTF-8 encoding, byte by byte (a str with a lone
    surrogate, which UTF-8 does not encode, is outside the model). *)

(** The code of a byte, and the byte of a code. *)
Definition ord (c : ascii) : Z := Z.of_N (N_of_ascii c).

Definition chr (n : Z) : ascii := ascii_of_N (Z.to_N n).

(** A byte that continues a character: 10xxxxxx. *)
Definition continuation (c : ascii) : bool :=
  (128 <=? ord c) && (ord c <? 192).

(** The characters of a str, each with all its bytes. *)
Fixpoint characters (l : list ascii) : list (list ascii) :=
  match l with
  | [] => []
  | c :: r =>
      match characters r with
      | (c' :: g) :: gs =>
          if continuation c' then (c :: c' :: g) :: gs
          else [c] :: (c' :: g) :: gs
      | gs => [c] :: gs
      end
  end.

(** The code point a character's bytes encode; -1 for bytes that encode
    none. *)
Definition code_point (g : list ascii) : Z :=
  match map ord g with
  | [b0] => if b0 <? 128 then b0 else -1
  | [b0; b1] =>
      if (192 <=? b0) && (b0 <? 224) then (b0 - 192) * 64 + (b1 - 128) else -1
  | [b0; b1; b2] =>
      if (224 <=? b0) && (b0 <? 240)
      then ((b0 - 224) * 64 + (b1 - 128)) * 64 + (b2 - 128) else -1
  | [b0; b1; b2; b3] =>
      if (240 <=? b0) && (b0 <? 248)
      then (((b0 - 240) * 64 + (b1 - 128)) * 64 + (b2 - 128)) * 64 + (b3 - 128)
      else -1
  | _ => -1
  end.

(** [for x in obj]: a list yields its items, a dict its keys, a string its
    characters; nothing else is iterable. *)
Definition py_iter (obj : pyval) : result (list pyval) :=
  match obj with
  | PList l => Ok l
  | PDict d => Ok (map (fun kv => PStr (fst kv)) d)
  | PStr s =>
      Ok (map (fun g => PStr (string_of_list_ascii g))
              (characters (list_ascii_of_string s)))
  | _ => Raise TypeError
  end.

(** *** int() *)

(** The whitespace int() drops around a literal. *)
Definition is_space (c : ascii) : bool :=
  let n := ord c in
  ((9 <=? n) && (n <=? 13)) || (n =? 32).

Definition digit_of (c : ascii) : option Z :=
  let n := ord c in
  if (48 <=? n) && (n <=? 57) then Some (n - 48) else None.

Fixpoint lstrip (l : list ascii) : list ascii :=
  match l with
  | c :: r => if is_space c then lstrip r else l
  | [] => []
  end.

Definition strip (l : list ascii) : list ascii :=
  rev (lstrip (rev (lstrip l))).

(** Digits with single underscores between them; [sep] tells that the
    previous character was an underscore. *)
Fixpoint digits (acc : Z) (sep : bool) (l : list ascii) : option Z :=
  match l with
  | [] => if sep then None else Some acc
  | c :: r =>
      match digit_of c with
      | Some d => digits (10 * acc + d) false r
      | None =>
          if Ascii.eqb c "_"%char
          then (if sep then None else digits acc true r)
          else None
      end
  end.

Definition unsigned_literal (l : list ascii) : option Z :=
  match l with
  | c :: r =>
      match digit_of c with
      | Some d => digits d false r
      | None => None
      end
  | [] => None
  end.

(** The white space of Unicode past ASCII, and the zero of every run of
    ten decimal digits past ASCII (Unicode 14.0, as CPython 3.11 has it). *)
Definition unicode_spaces : list Z :=
  [133; 160; 5760; 8192; 8193; 8194; 8195; 8196; 8197; 8198; 8199; 8200; 8201;
   8202; 8232; 8233; 8239; 8287; 12288].

Definition decimal_zeros : list Z :=
  [1632; 1776; 1984; 2406; 2534; 2662; 2790; 2918; 3046; 3174; 3302; 3430;
   3558; 3664; 3792; 3872; 4160; 4240; 6112; 6160; 6470; 6608; 6784; 6800;
   6992; 7088; 7232; 7248; 42528; 43216; 43264; 43472; 43504; 43600; 44016;
   65296; 66720; 68912; 69734; 69872; 69942; 70096; 70384; 70736; 70864;
   71248; 71360; 71472; 71904; 72016; 72784; 73040; 73120; 92768; 92864;
   93008; 120782; 120792; 120802; 120812; 120822; 123200; 123632; 125264;
   130032].

(** What int() makes of a character of a str that is not all ASCII before
    it reads the literal: a character below 127 stays, white space becomes a
    blank, a decimal digit of any script its ASCII digit, anything else a
    question mark. *)
Definition to_ascii (g : list ascii) : ascii :=
  let cp := code_point g in
  if (0 <=? cp) && (cp <? 127) then chr cp
  else if existsb (Z.eqb cp) unicode_spaces then " "%char
  else
    match find (fun z => (z <=? cp) && (cp <? z + 10)) decimal_zeros with
    | Some z => chr (48 + (cp - z))
    | None => "?"%char
    end.

Definition decimal_and_space_to_ascii (l : list ascii) : list ascii :=
  if forallb (fun c => ord c <? 128) l then l
  else map to_ascii (characters l).

(** The most digits int() reads from a string (sys.int_info's
    default_max_str_digits). *)
Definition max_str_digits : nat := 4300.

Definition count_digits (l : list ascii) : nat :=
  List.length
    (filter (fun c => match digit_of c with Some _ => true | None => false end)
       l).

(** [int(s)] for a string, base 10: surrounding whitespace is dropped, one
    sign is allowed, digits of every script are read, and a literal of more
    than 4300 digits is refused.  [None] is Python's ValueError. *)
Definition parse_int (s : string) : option Z :=
  let l := strip (decimal_and_space_to_ascii (list_ascii_of_string s)) in
  if (max_str_digits <? count_digits l)%nat then None
  else
    match l with
    | c :: r =>
        if Ascii.eqb c "-"%char then option_map Z.opp (unsigned_literal r)
        else if Ascii.eqb c "+"%char then unsigned_literal r
        else unsigned_literal (c :: r)
    | [] => None
    end.

(** [int(f)] for a float: truncation toward zero; an infinity is an
    OverflowError, a NaN a ValueError. *)
Definition int_of_float (f : spec_float) : result Z :=
  match f with
  | S754_zero _ => Ok 0
  | S754_infinity _ => Raise OverflowError
  | S754_nan => Raise ValueError
  | S754_finite s m e =>
      let mag := if 0 <=? e then Z.pos m * 2 ^ e else Z.pos m / 2 ^ (- e) in
      Ok (if s then - mag else mag)
  end.

(** The builtin [int(x)]. *)
Definition py_int (x : pyval) : result Z :=
  match x with
  | PInt z => Ok z
  | PBool b => Ok (if b then 1 else 0)
  | PFloat f => int_of_float f
  | PStr s =>
      match parse_int s with
      | Some z => Ok z
      | None => Raise ValueError
      end
  | PNone | PList _ | PDict _ => Raise TypeError
  end.

(** *** Hashing and equality of keys *)

(** [f == z] for a float and an int: Python compares the exact values. *)
Definition float_eq_int (f : spec_float) (z : Z) : bool :=
  match f with
  | S754_zero _ => z =? 0
  | S754_finite s m e =>
      let sm := if s then Z.neg m else Z.pos m in
      if 0 <=? e then sm * 2 ^ e =? z else sm =? z * 2 ^ (- e)
  | _ => false
  end.

Definition float_eq (f g : spec_float) : bool :=
  match f, g with
  | S754_nan, S754_nan => true
  | _, _ => SFeqb f g
  end.

Definition int_of_bool (b : bool) : Z := if b then 1 else 0.

(** Equality as a set or dict sees it ([is] or [==]) on hashable values:
    bools, ints and floats compare by numeric value; a decoded NaN is the
    json module's one constant, so it is found again by identity. *)
Definition key_eq (a b : pyval) : bool :=
  match a, b with
  | PNone, PNone => true
  | PStr s, PStr t => String.eqb s t
  | PBool x, PBool y => Bool.eqb x y
  | PBool x, PInt z | PInt z, PBool x => int_of_bool x =? z
  | PInt x, PInt y => x =? y
  | PBool x, PFloat f | PFloat f, PBool x => float_eq_int f (int_of_bool x)
  | PInt z, PFloat f | PFloat f, PInt z => float_eq_int f z
  | PFloat f, PFloat g => float_eq f g
  | _, _ => false
  end.

Definition hashable (v : pyval) : bool :=
  match v with
  | PList _ | PDict _ => false
  | _ => true
  end.

(** [x in s] for a set held as the list of its members. *)
Definition set_contains (s : list pyval) (x : pyval) : result bool :=
  if hashable x then Ok (existsb (key_eq x) s) else Raise TypeError.

(** ** Calendar arithmetic *)

(** The proleptic Gregorian date (year, month, day) of a day number counted
    from 1970-01-01, as [datetime] computes it. *)
Definition civil_from_days (z : Z) : Z * Z * Z :=
  let z := z + 719468 in
  let era := z / 146097 in
  let doe := z - era * 146097 in
  let yoe := (doe - doe / 1460 + doe / 36524 - doe / 146096) / 365 in
  let doy := doe - (365 * yoe + yoe / 4 - yoe / 100) in
  let mp := (5 * doy + 2) / 153 in
  let d := doy - (153 * mp + 2) / 5 + 1 in
  let m := if mp <? 10 then mp + 3 else mp - 9 in
  let y := yoe + era * 400 + (if m <=? 2 then 1 else 0) in
  (y, m, d).

(** The day number of a date: the inverse direction. *)
Definition days_from_civil (y m d : Z) : Z :=
  let y := if m <=? 2 then y - 1 else y in
  let era := y / 400 in
  let yoe := y - era * 400 in
  let doy := (153 * (if 2 <? m then m - 3 else m + 9) + 2) / 5 + d - 1 in
  let doe := yoe * 365 + yoe / 4 - yoe / 100 + doy in
  era * 146097 + doe - 719468.

Definition digit_char (n : Z) : ascii := chr (48 + n mod 10).

(** [w] decimal digits of [n], most significant first: the zero-padded
    fields of strftime ([%d], [%m], [%H], [%M], [%S], and [%Y] for a year
    of four digits). *)
Fixpoint zero_padded (w : nat) (n : Z) : string :=
  match w with
  | O => EmptyString
  | S w' => zero_padded w' (n / 10) ++ String (digit_char n) EmptyString
  end.

(** A naive date-time as the seconds it lies from 1970-01-01 00:00:00 on
    its own wall clock. *)
Definition strftime_YmdHMS (wall : Z) : string :=
  let '(y, m, d) := civil_from_days (wall / 86400) in
  let s := wall mod 86400 in
  zero_padded 4 y ++ zero_padded 2 m ++ zero_padded 2 d ++
  zero_padded 2 (s / 3600) ++ zero_padded 2 (s mod 3600 / 60) ++
  zero_padded 2 (s mod 60).

(** [date.strftime("%d-%m-%Y")] of a day number. *)
Definition strftime_dmY (day : Z) : string :=
  let '(y, m, d) := civil_from_days day in
  zero_padded 2 d ++ "-" ++ zero_padded 2 m ++ "-" ++ zero_padded 4 y.

(** 0001-01-01 00:00:00 and 9999-12-31 23:59:59 in Unix seconds, and the
    same two dates as day numbers: the range of [datetime]. *)
Definition min_timestamp : Z := -62135596800.
Definition max_timestamp : Z := 253402300799.
Definition min_day : Z := -719162.
Definition max_day : Z := 2932896.

(** 1000-01-01, as a day number and in Unix seconds.  From this day on
    strftime's [%Y] has four digits on every platform; for an earlier year
    the C library decides the padding, and the statements about formatted
    dates stay from year 1000 on.  No time the script formats is that early:
    a program's times are positive, and the clock reads the present. *)
Definition year_1000_day : Z := -354285.
Definition year_1000_timestamp : Z := -30610224000.

(** The first and the last second whose year fits the [tm_year] field of
    gmtime (glibc, 64-bit time_t). *)
Definition gmtime_min : Z := -67768040609740800.
Definition gmtime_max : Z := 67768036191676799.

(** [datetime.fromtimestamp(t, pytz.utc)] for an int (CPython, 64-bit
    Linux): a value that does not fit time_t is an OverflowError; one gmtime
    cannot break down is an OSError; a year outside 1..9999 is a ValueError.
    An aware datetime in UTC is held as its Unix time. *)
Definition fromtimestamp_utc (t : Z) : result Z :=
  if (t <? - 2 ^ 63) || (2 ^ 63 <=? t) then Raise OverflowError
  else if (t <? gmtime_min) || (gmtime_max <? t) then Raise OSError
  else if (t <? min_timestamp) || (max_timestamp <? t) then Raise ValueError
  else Ok t.

(** A pytz time zone, as far as the script uses one: the offset from UTC,
    in seconds, in force at a UTC instant. *)
Class tzinfo : Type := utcoffset : Z -> Z.

(** UTC+6 at every instant: Asia/Dhaka as the script's literal suffix
    takes it. *)
Definition fixed_plus6 : tzinfo := fun _ => 21600.

(** Asia/Dhaka with the daylight-saving months of 2009 (UTC+7 from
    2009-06-19 17:00 UTC to 2009-12-31 17:00 UTC), for instants after 1951. *)
Definition dhaka_2009 : tzinfo :=
  fun t => if (1245430800 <=? t) && (t <? 1262278800) then 25200 else 21600.

Section Script.

Context {Asia_Dhaka : tzinfo}.

(** [dt.astimezone(bangladesh_tz)]: the wall clock of the zone; a wall
    clock outside the datetime range is an OverflowError. *)
Definition astimezone (t : Z) : result Z :=
  let wall := t + utcoffset t in
  if (wall <? min_timestamp) || (max_timestamp <? wall) then Raise OverflowError
  else Ok wall.

(** main.py, lines 8-16. *)
Definition format_timestamp (timestamp : pyval) : result string :=
  catch is_ValueError
    (t <- py_int timestamp ;;
     dt <- fromtimestamp_utc t ;;
     local_time <- astimezone dt ;;
     Ok (strftime_YmdHMS local_time ++ " +0600")%string)
    (Ok EmptyString).

(** main.py, lines 19-26. *)
Definition validate_program_times (start end_ : pyval) : result bool :=
  catch is_ValueError
    (start_time <- py_int start ;;
     end_time <- py_int end_ ;;
     Ok ((0 <? start_time) && (start_time <? end_time)))
    (Ok false).

(** *** The URL generator *)

Definition base_url_prefix : string :=
  "https://cloudtv.akamaized.net/AynaOTT/BDcontent/channels/epg/652fcf82a2649538da6fc6e3_".
Definition base_url_suffix : string := "_minified_bundle.json".

(** [base_url.format(formatted_date)]. *)
Definition base_url_format (formatted_date : string) : string :=
  (base_url_prefix ++ formatted_date ++ base_url_suffix)%string.

(** [datetime.now() + timedelta(days=i)], as a day number: the clock is
    read again at every call; [clock i] is the local date the i-th reading
    shows.  A sum past 9999-12-31 is an OverflowError; a reading that is no
    date of [datetime] is refused before. *)
Definition now_plus_days (clock : nat -> Z) (i : nat) : result Z :=
  let today := clock i in
  if (today <? min_day) || (max_day <? today) then Raise ValueError
  else if max_day <? today + Z.of_nat i then Raise OverflowError
  else Ok (today + Z.of_nat i).

(** main.py, lines 29-39. *)
Definition get_api_urls (clock : nat -> Z) : result (list string) :=
  mapM (fun i =>
          date <- now_plus_days clock i ;;
          Ok (base_url_format (strftime_dmY date)))
       (seq 0 3).

(** *** HTTP *)

(** What a GET comes back with: no response at all (connection error,
    timeout, too many redirects), or a response with its status code and its
    body as [response.json()] decodes it ([None]: the body is not JSON). *)
Inductive http_reply : Type :=
| NoResponse
| Response (status_code : Z) (json : option pyval).

(** [response.raise_for_status()]: an HTTPError for a 4xx or 5xx status. *)
Definition raise_for_status (status_code : Z) : result unit :=
  if (400 <=? status_code) && (status_code <? 600) then Raise RequestException
  else Ok tt.

(** [requests.get(url)], [raise_for_status()], [response.json()]: each
    raises a RequestException when it fails (for a body that is not JSON,
    requests' own JSONDecodeError). *)
Definition fetch_json (reply : http_reply) : result pyval :=
  match reply with
  | NoResponse => Raise RequestException
  | Response status_code json =>
      _ <- raise_for_status status_code ;;
      match json with
      | Some data => Ok data
      | None => Raise RequestException
      end
  end.

(** What the script prints. *)
Inductive message : Type :=
| FailedChannelInfo (e : exn)
| FailedFetch (api_url : string) (e : exn)
| Saved.

(** *** The channel index *)

Record channel_entry : Type := {
  name : pyval;
  category : pyval;
  logo : pyval
}.

(** The dict [channels_dict], from channel id to entry. *)
Definition channel_index : Type := list (pyval * channel_entry).

(** [channels_dict[k] = v]. *)
Fixpoint index_set (d : channel_index) (k : pyval) (v : channel_entry)
    : channel_index :=
  match d with
  | [] => [(k, v)]
  | (k', v') :: r =>
      if key_eq k' k then (k', v) :: r else (k', v') :: index_set r k v
  end.

Fixpoint index_lookup (d : channel_index) (k : pyval) : option channel_entry :=
  match d with
  | [] => None
  | (k', v) :: r => if key_eq k' k then Some v else index_lookup r k
  end.

(** One turn of the loop of lines 51-56. *)
Definition add_channel (channels_dict : channel_index) (channel : pyval)
    : result channel_index :=
  n <- py_getitem channel "name" ;;
  c <- py_getitem channel "categoryName" ;;
  l <- py_getitem channel "logo" ;;
  id <- py_getitem channel "id" ;;
  if hashable id
  then Ok (index_set channels_dict id {| name := n; category := c; logo := l |})
  else Raise TypeError.

Fixpoint add_channels (channels_dict : channel_index) (l : list pyval)
    : result channel_index :=
  match l with
  | [] => Ok channels_dict
  | channel :: r =>
      d <- add_channel channels_dict channel ;;
      add_channels d r
  end.

(** The body of the [try] of lines 45-57. *)
Definition channel_info_body (reply : http_reply) : result channel_index :=
  data <- fetch_json reply ;;
  channels <- py_get data "channels" (PList []) ;;
  l <- py_iter channels ;;
  add_channels [] l.

(** main.py, lines 42-60: whatever the body raises is printed and answered
    with an empty dict. *)
Definition get_channel_info (reply : http_reply) : channel_index * list message :=
  match channel_info_body reply with
  | Ok channels_dict => (channels_dict, [])
  | Raise e => ([], [FailedChannelInfo e])
  end.

(** ** The XML tree *)

(** An xml.etree element: tag, attributes, text, children.  Attribute
    values and texts are whatever Python object the script stored. *)
Inductive element : Type :=
| Element (tag : string) (attrib : list (string * pyval)) (text : pyval)
    (children : list element).

Definition tag_of (e : element) : string :=
  match e with Element t _ _ _ => t end.

Definition attrib_of (e : element) : list (string * pyval) :=
  match e with Element _ a _ _ => a end.

Definition children_of (e : element) : list element :=
  match e with Element _ _ _ c => c end.

(** [elem.get(k)]. *)
Definition attr (e : element) (k : string) : pyval :=
  dict_get (attrib_of e) k PNone.

(** Lines 88-101: the channel node, from the index when the id is in it,
    else with the name the schedule gives. *)
Definition channel_element (channel_info : channel_index)
    (channel_id channel_name : pyval) : element :=
  match index_lookup channel_info channel_id with
  | Some info =>
      Element "channel" [("id", channel_id)] PNone
        [ Element "display-name" [] (name info) [];
          Element "category" [] (category info) [];
          Element "icon" [("src", logo info)] PNone [] ]
  | None =>
      Element "channel" [("id", channel_id)] PNone
        [ Element "display-name" [] channel_name [] ]
  end.

(** Lines 124-135. *)
Definition programme_element (channel_id : pyval) (start_time end_time : string)
    (program_name program_desc : pyval) : element :=
  Element "programme"
    [("start", PStr start_time); ("stop", PStr end_time); ("channel", channel_id)]
    PNone
    [ Element "title" [("lang", PStr "bn")] program_name [];
      Element "desc" [("lang", PStr "bn")] program_desc [] ].

(** ** The assembler *)

(** Stable insertion by key: [x] goes before the first item whose key is
    not smaller. *)
Fixpoint insert_by_key (x : Z * pyval) (l : list (Z * pyval)) : list (Z * pyval) :=
  match l with
  | [] => [x]
  | y :: r => if fst x <=? fst y then x :: y :: r else y :: insert_by_key x r
  end.

Fixpoint stable_sort (l : list (Z * pyval)) : list (Z * pyval) :=
  match l with
  | [] => []
  | x :: r => insert_by_key x (stable_sort r)
  end.

(** The sort key of line 107: [int(x.get("s", 0))]. *)
Definition sort_key (x : pyval) : result Z :=
  s <- py_get x "s" (PInt 0) ;;
  py_int s.

(** [programs.sort(key=...)]: list.sort calls the key function on every
    item first, then sorts stably by the keys; only a list has the method. *)
Definition sort_programs (programs : pyval) : result (list pyval) :=
  match programs with
  | PList l =>
      keyed <- mapM (fun x => k <- sort_key x ;; Ok (k, x)) l ;;
      Ok (map snd (stable_sort keyed))
  | _ => Raise AttributeError
  end.

Definition nonempty (s : string) : bool :=
  match s with EmptyString => false | _ => true end.

(** One turn of the loop of lines 110-135: the nodes appended to [tv]. *)
Definition emit_program (channel_id program : pyval) : result (list element) :=
  program_start <- py_get program "s" (PInt 0) ;;
  program_end <- py_get program "e" (PInt 0) ;;
  valid <- validate_program_times program_start program_end ;;
  if negb valid then Ok []
  else
    program_name <- py_get program "n" (PStr "Unknown Program") ;;
    program_desc <- py_get program "d" (PStr "No description available") ;;
    start_time <- format_timestamp program_start ;;
    end_time <- format_timestamp program_end ;;
    if nonempty start_time && nonempty end_time
    then Ok [programme_element channel_id start_time end_time
               program_name program_desc]
    else Ok [].

Fixpoint emit_programs (channel_id : pyval) (programs : list pyval)
    : result (list element) :=
  match programs with
  | [] => Ok []
  | program :: r =>
      nodes <- emit_program channel_id program ;;
      rest <- emit_programs channel_id r ;;
      Ok (nodes ++ rest)
  end.

(** The mutable objects of the main script: the set of channel ids seen,
    the children of [tv] in document order, and what was printed. *)
Record state : Type := {
  processed_channels : list pyval;
  tv : list element;
  printed : list message
}.

Definition initial_state (printed0 : list message) : state :=
  {| processed_channels := []; tv := []; printed := printed0 |}.

(** Lines 83-135: one channel entry of a bundle. *)
Definition process_channel (channel_info : channel_index) (st : state)
    (channel : pyval) : result state :=
  channel_id <- py_get channel "i" (PStr "unknown_id") ;;
  channel_name <- py_get channel "n" (PStr "unknown_name") ;;
  seen <- set_contains (processed_channels st) channel_id ;;
  let st1 :=
    if seen then st
    else {| processed_channels := processed_channels st ++ [channel_id];
            tv := tv st ++ [channel_element channel_info channel_id channel_name];
            printed := printed st |} in
  programs <- py_get channel "epg" (PList []) ;;
  sorted <- sort_programs programs ;;
  nodes <- emit_programs channel_id sorted ;;
  Ok {| processed_channels := processed_channels st1;
        tv := tv st1 ++ nodes;
        printed := printed st1 |}.

Fixpoint process_channels (channel_info : channel_index) (st : state)
    (data : list pyval) : result state :=
  match data with
  | [] => Ok st
  | channel :: r =>
      st1 <- process_channel channel_info st channel ;;
      process_channels channel_info st1 r
  end.

(** Lines 77-139: one day.  A RequestException can only come from the three
    request lines, before [tv] is touched; it is printed and the loop goes
    on.  Any other exception leaves the loop. *)
Definition process_day (channel_info : channel_index) (st : state)
    (api_url : string) (reply : http_reply) : result state :=
  catch is_RequestException
    (data <- fetch_json reply ;;
     channels <- py_iter data ;;
     process_channels channel_info st channels)
    (Ok {| processed_channels := processed_channels st;
           tv := tv st;
           printed := printed st ++ [FailedFetch api_url RequestException] |}).

(** The loop of line 76 over the URLs, each with what its GET came back
    with. *)
Fixpoint process_days (channel_info : channel_index) (st : state)
    (days : list (string * http_reply)) : result state :=
  match days with
  | [] => Ok st
  | (api_url, reply) :: r =>
      st1 <- process_day channel_info st api_url reply ;;
      process_days channel_info st1 r
  end.

(** *** Serialisation *)

Definition is_str (v : pyval) : bool :=
  match v with PStr _ => true | _ => false end.

(** Python truth value. *)
Definition truthy (v : pyval) : bool :=
  match v with
  | PNone => false
  | PBool b => b
  | PInt z => negb (z =? 0)
  | PFloat (S754_zero _) => false
  | PFloat _ => true
  | PStr s => nonempty s
  | PList l => match l with [] => false | _ => true end
  | PDict d => match d with [] => false | _ => true end
  end.

(** The strings ElementTree's [_escape_attrib] looks for in an attribute
    value: [&], [<], [>], the double quote, CR, LF and TAB. *)
Definition escaped_in_attributes : list string :=
  ["&"; "<"; ">"; String (chr 34) EmptyString; String (chr 13) EmptyString;
   String (chr 10) EmptyString; String (chr 9) EmptyString].

(** An attribute value [_escape_attrib] returns: a str; or a list or a
    dict in which none of those strings is found by [in] (an item of the
    list, a key of the dict), which is then written as its repr.  For any
    other object, and for a list or dict in which one is found, [in] or
    [replace] fails and the serialiser raises a TypeError. *)
Definition attribute_writable (v : pyval) : bool :=
  match v with
  | PStr _ => true
  | PList l =>
      negb (existsb (fun s => existsb (key_eq (PStr s)) l) escaped_in_attributes)
  | PDict d => negb (existsb (has_key d) escaped_in_attributes)
  | _ => false
  end.

(** What [tostring] accepts: every attribute value is one
    [_escape_attrib] returns, and a text that is not falsy is a str (any
    other truthy text fails in [_escape_cdata] or in the stream's write). *)
Fixpoint serializable (e : element) : bool :=
  match e with
  | Element _ attrib text children =>
      forallb (fun kv => attribute_writable (snd kv)) attrib
      && (negb (truthy text) || is_str text)
      && forallb serializable children
  end.

(** [tostring(tv)]: a TypeError on the first object it cannot write.  The
    characters written are not modelled, and so neither is the check
    [minidom.parseString] makes of them: where the model writes the file, the
    script does so unless a string holds a character XML forbids or the repr
    of a list or dict breaks the attribute it is written in, in which case
    the script ends in the outer handler. *)
Definition tostring (root : element) : result element :=
  if serializable root then Ok root else Raise TypeError.

Definition tv_element (children : list element) : element :=
  Element "tv"
    [("generator-info-name", PStr "Bangladesh EPG Generator");
     ("generator-info-url", PStr "")]
    PNone children.

(** ** The main script *)

(** How a run ends: epg.xml written with the tree, or the top-level handler
    reached (it prints the exception; no file is written). *)
Inductive outcome : Type :=
| Written (root : element) (out : list message)
| Aborted (e : exn).

(** The body of the outer [try], with the channel index given. *)
Definition assemble (channel_info : channel_index) (printed0 : list message)
    (days : list (string * http_reply)) : result (element * list message) :=
  st <- process_days channel_info (initial_state printed0) days ;;
  root <- tostring (tv_element (tv st)) ;;
  Ok (root, printed st ++ [Saved]).

Definition outcome_of (r : result (element * list message)) : outcome :=
  match r with
  | Ok (root, out) => Written root out
  | Raise e => Aborted e
  end.

(** main.py, lines 63-153.  [meta] is what the metadata GET comes back
    with, [replies i] what the GET of the i-th generated URL comes back
    with. *)
Definition main (clock : nat -> Z) (meta : http_reply)
    (replies : nat -> http_reply) : outcome :=
  let '(channel_info, printed0) := get_channel_info meta in
  outcome_of
    (urls <- get_api_urls clock ;;
     assemble channel_info printed0 (combine urls (map replies (seq 0 3)))).

End Script.

(** ** Vocabulary of the statements *)

(** The number a string of decimal digits writes. *)
Fixpoint decimal_acc (acc : Z) (s : string) : Z :=
  match s with
  | EmptyString => acc
  | String c r => decimal_acc (10 * acc + (ord c - 48)) r
  end.

Definition decimal_value (s : string) : Z := decimal_acc 0 s.

Fixpoint all_digits (s : string) : bool :=
  match s with
  | EmptyString => true
  | String c r =>
      match digit_of c with Some _ => all_digits r | None => false end
  end.

(** The Gregorian leap years and the lengths of the months. *)
Definition is_leap (y : Z) : bool :=
  (y mod 4 =? 0) && (negb (y mod 100 =? 0) || (y mod 400 =? 0)).

Definition days_in_month (y m : Z) : Z :=
  if m =? 2 then (if is_leap y then 29 else 28)
  else if (m =? 4) || (m =? 6) || (m =? 9) || (m =? 11) then 30
  else 31.

(** [s] is a field of exactly [w] decimal digits that writes [n]. *)
Definition field (w : nat) (n : Z) (s : string) : Prop :=
  String.length s = w /\ all_digits s = true /\ decimal_value s = n.

(** [s] writes the date of day number [day] as DD-MM-YYYY. *)
Definition is_dmY_of (day : Z) (s : string) : Prop :=
  exists (y m d : Z) (dd mm yyyy : string),
    s = (dd ++ "-" ++ mm ++ "-" ++ yyyy)%string /\
    field 2 d dd /\ field 2 m mm /\ field 4 y yyyy /\
    1 <= m <= 12 /\ 1 <= d <= days_in_month y m /\
    days_from_civil y m d = day.

(** [s] writes the wall-clock second [wall] as YYYYMMDDhhmmss. *)
Definition is_YmdHMS_of (wall : Z) (s : string) : Prop :=
  exists (y m d hh mi ss : Z) (f1 f2 f3 f4 f5 f6 : string),
    s = (f1 ++ f2 ++ f3 ++ f4 ++ f5 ++ f6)%string /\
    field 4 y f1 /\ field 2 m f2 /\ field 2 d f3 /\
    field 2 hh f4 /\ field 2 mi f5 /\ field 2 ss f6 /\
    1 <= m <= 12 /\ 1 <= d <= days_in_month y m /\
    0 <= hh < 24 /\ 0 <= mi < 60 /\ 0 <= ss < 60 /\
    days_from_civil y m d * 86400 + hh * 3600 + mi * 60 + ss = wall.

(** The channel entries of the bundles that were fetched, in the order the
    loops meet them. *)
Definition fetched_entries (replies : list http_reply) : list pyval :=
  flat_map
    (fun reply =>
       match fetch_json reply with
       | Ok data => match py_iter data with Ok l => l | Raise _ => [] end
       | Raise _ => []
       end)
    replies.

(** The id and the name line 83 and 84 read from an entry. *)
Definition channel_id_of (channel : pyval) : pyval :=
  match channel with
  | PDict d => dict_get d "i" (PStr "unknown_id")
  | _ => PNone
  end.

Definition channel_name_of (channel : pyval) : pyval :=
  match channel with
  | PDict d => dict_get d "n" (PStr "unknown_name")
  | _ => PNone
  end.

Definition programs_of (channel : pyval) : list pyval :=
  match channel with
  | PDict d => match dict_get d "epg" (PList []) with PList l => l | _ => [] end
  | _ => []
  end.

Definition lacks_key (channel : pyval) (k : string) : Prop :=
  exists d, channel = PDict d /\ has_key d k = false.

Definition is_channel (e : element) : bool := String.eqb (tag_of e) "channel".
Definition is_programme (e : element) : bool := String.eqb (tag_of e) "programme".

(** The channel nodes of the document whose id is the string [c]. *)
Definition channel_nodes_with_id (c : string) (root : element) : list element :=
  filter (fun e => is_channel e && key_eq (PStr c) (attr e "id"))
         (children_of root).

(** The raw start and end of a program record, and their integer values
    where int() gives one. *)
Definition start_raw (program : pyval) : pyval :=
  match program with PDict d => dict_get d "s" (PInt 0) | _ => PNone end.

Definition end_raw (program : pyval) : pyval :=
  match program with PDict d => dict_get d "e" (PInt 0) | _ => PNone end.

Definition int_or_zero (v : pyval) : Z :=
  match py_int v with Ok z => z | Raise _ => 0 end.

Definition start_of (program : pyval) : Z := int_or_zero (start_raw program).
Definition end_of (program : pyval) : Z := int_or_zero (end_raw program).

(** Both times convert, [0 < start < end]. *)
Definition valid_times (program : pyval) : Prop :=
  exists s e, py_int (start_raw program) = Ok s /\
              py_int (end_raw program) = Ok e /\ 0 < s /\ s < e.

(** The same, and the end is a time [datetime] can hold (year 9999 at
    most): the programs the loop of line 110 turns into nodes. *)
Definition well_timed (program : pyval) : bool :=
  match py_int (start_raw program), py_int (end_raw program) with
  | Ok s, Ok e => (0 <? s) && (s <? e) && (e <=? max_timestamp)
  | _, _ => false
  end.

Section Vocabulary.

Context {Asia_Dhaka : tzinfo}.

(** The timestamp attribute of a Unix time [t] inside the formatter's
    range. *)
Definition timestamp_attr (t : Z) : string :=
  (strftime_YmdHMS (t + utcoffset t) ++ " +0600")%string.

(** The programme node of a program record. *)
Definition programme_of (channel_id program : pyval) : element :=
  match program with
  | PDict d =>
      programme_element channel_id
        (timestamp_attr (start_of program)) (timestamp_attr (end_of program))
        (dict_get d "n" (PStr "Unknown Program"))
        (dict_get d "d" (PStr "No description available"))
  | _ => Element "programme" [] PNone []
  end.

(** A program may be emitted: its times are valid and its end is a time
    [datetime] can hold. *)
Definition emitted_condition (program : pyval) : Prop :=
  valid_times program /\ end_of program <= max_timestamp.

Definition start_le (p q : pyval) : Prop := start_of p <= start_of q.

(** The programme nodes one entry contributes, given its programs as
    sorted. *)
Definition programme_nodes (channel : pyval) (sorted : list pyval) : list element :=
  map (programme_of (channel_id_of channel)) (filter well_timed sorted).

(** The channel node of an entry when the index does not know its id. *)
Definition fallback_channel_element (channel : pyval) : element :=
  Element "channel" [("id", channel_id_of channel)] PNone
    [ Element "display-name" [] (channel_name_of channel) [] ].

(** What one entry does to the document: with the ids [seen] before it,
    it appends [nodes] and leaves the ids [seen'].  [sorted] is the entry's
    program list after the sort. *)
Inductive entry_step (channel_info : channel_index) (seen : list pyval)
    (channel : pyval) : list element -> list pyval -> Prop :=
| step_seen (sorted : list pyval) :
    Permutation sorted (programs_of channel) ->
    StronglySorted start_le sorted ->
    hashable (channel_id_of channel) = true ->
    existsb (key_eq (channel_id_of channel)) seen = true ->
    entry_step channel_info seen channel (programme_nodes channel sorted) seen
| step_new (sorted : list pyval) :
    Permutation sorted (programs_of channel) ->
    StronglySorted start_le sorted ->
    hashable (channel_id_of channel) = true ->
    existsb (key_eq (channel_id_of channel)) seen = false ->
    entry_step channel_info seen channel
      (channel_element channel_info (channel_id_of channel)
         (channel_name_of channel) :: programme_nodes channel sorted)
      (seen ++ [channel_id_of channel]).

Inductive entries_steps (channel_info : channel_index)
    : list pyval -> list pyval -> list element -> list pyval -> Prop :=
| steps_nil (seen : list pyval) : entries_steps channel_info seen [] [] seen
| steps_cons (seen seen1 seen2 : list pyval) (channel : pyval)
    (channels : list pyval) (nodes rest : list element) :
    entry_step channel_info seen channel nodes seen1 ->
    entries_steps channel_info seen1 channels rest seen2 ->
    entries_steps channel_info seen (channel :: channels) (nodes ++ rest) seen2.

End Vocabulary.

(** What the loop of line 76 prints for a list of days. *)
Definition day_messages (days : list (string * http_reply)) : list message :=
  flat_map
    (fun day =>
       match fetch_json (snd day) with
       | Ok _ => []
       | Raise _ => [FailedFetch (fst day) RequestException]
       end)
    days.

Definition with_printed (p : list message) (st : state) : state :=
  {| processed_channels := processed_channels st; tv := tv st; printed := p |}.

(** A metadata record line 52 to 56 can store. *)
Definition well_formed_record (channel : pyval) : bool :=
  match channel with
  | PDict d =>
      has_key d "name" && has_key d "categoryName" && has_key d "logo"
      && has_key d "id" && hashable (dict_get d "id" PNone)
  | _ => false
  end.

(** The ways the metadata fetch fails: no response, an error status, a
    body that is not JSON, a document of the wrong shape, a record with a
    field missing. *)
Inductive metadata_failure : http_reply -> Prop :=
| network_error : metadata_failure NoResponse
| error_status (status_code : Z) (json : option pyval) :
    400 <= status_code < 600 ->
    metadata_failure (Response status_code json)
| malformed_json (status_code : Z) :
    metadata_failure (Response status_code None)
| not_an_object (status_code : Z) (data : pyval) :
    (forall d, data <> PDict d) ->
    metadata_failure (Response status_code (Some data))
| channels_not_iterable (status_code : Z) (d : list (string * pyval)) (e : exn) :
    py_iter (dict_get d "channels" (PList [])) = Raise e ->
    metadata_failure (Response status_code (Some (PDict d)))
| missing_fields (status_code : Z) (d : list (string * pyval))
    (l : list pyval) (channel : pyval) :
    py_iter (dict_get d "channels" (PList [])) = Ok l ->
    In channel l -> well_formed_record channel = false ->
    metadata_failure (Response status_code (Some (PDict d))).

(** A day's fetch fails: no response, or an error status. *)
Inductive fetch_failure : http_reply -> Prop :=
| fetch_no_response : fetch_failure NoResponse
| fetch_error_status (status_code : Z) (json : option pyval) :
    400 <= status_code < 600 ->
    fetch_failure (Response status_code json).

(** A computation that does not end in a RequestException. *)
Definition plain {A : Type} (m : result A) : Prop := m <> Raise RequestException.

(** The order of the sort on keyed items. *)
Definition key_le (a b : Z * pyval) : Prop := fst a <= fst b.

(** The ids of the channel nodes among [nodes], in document order. *)
Definition channel_ids (nodes : list element) : list pyval :=
  map (fun e => attr e "id") (filter is_channel nodes).

(** How often the string [c] occurs in a list of ids. *)
Definition occurrences (c : string) (ids : list pyval) : nat :=
  List.length (filter (key_eq (PStr c)) ids).

(** Two results that differ at most in what was printed. *)
Definition same_document (r1 r2 : result state) : Prop :=
  match r1, r2 with
  | Ok s1, Ok s2 =>
      processed_channels s1 = processed_channels s2 /\ tv s1 = tv s2
  | Raise e1, Raise e2 => e1 = e2
  | _, _ => False
  end.

Definition rmap {A B : Type} (f : A -> B) (r : result A) : result B :=
  match r with
  | Ok a => Ok (f a)
  | Raise e => Raise e
  end.

(** *** Reading the formatted dates back *)

(** The ten characters a generated URL has in the place of the braces. *)
Definition date_of_url (url : string) : string :=
  substring (String.length base_url_prefix) 10 url.

(** The day number a DD-MM-YYYY string writes. *)
Definition parse_dmY (s : string) : Z :=
  days_from_civil (decimal_value (substring 6 4 s))
                  (decimal_value (substring 3 2 s))
                  (decimal_value (substring 0 2 s)).

(** The wall-clock second the first fourteen characters of a timestamp
    attribute write. *)
Definition parse_YmdHMS (s : string) : Z :=
  days_from_civil (decimal_value (substring 0 4 s))
                  (decimal_value (substring 4 2 s))
                  (decimal_value (substring 6 2 s)) * 86400
  + decimal_value (substring 8 2 s) * 3600
  + decimal_value (substring 10 2 s) * 60
  + decimal_value (substring 12 2 s).

(** *** The metadata records *)

(** The id a metadata record is stored under, and the entry lines 52-56
    store for it. *)
Definition record_id (channel : pyval) : pyval :=
  match channel with PDict d => dict_get d "id" PNone | _ => PNone end.

Definition record_entry (channel : pyval) : channel_entry :=
  match channel with
  | PDict d =>
      {| name := dict_get d "name" PNone;
         category := dict_get d "categoryName" PNone;
         logo := dict_get d "logo" PNone |}
  | _ => {| name := PNone; category := PNone; logo := PNone |}
  end.

(** The entry of the last record of [l] whose id is the string [c]. *)
Fixpoint last_record (c : string) (l : list pyval) : option channel_entry :=
  match l with
  | [] => None
  | channel :: r =>
      match last_record c r with
      | Some info => Some info
      | None =>
          if key_eq (record_id channel) (PStr c)
          then Some (record_entry channel) else None
      end
  end.

(** The channel node of an id the index knows. *)
Definition enriched_channel_element (c : string) (info : channel_entry) : element :=
  Element "channel" [("id", PStr c)] PNone
    [ Element "display-name" [] (name info) [];
      Element "category" [] (category info) [];
      Element "icon" [("src", logo info)] PNone [] ].

(** *** What a run that writes the file needs of its input *)

(** A program record the loops of lines 107 and 110 get past: an object
    whose start converts and whose end converts or is a malformed string. *)
Definition passable_program (program : pyval) : Prop :=
  (exists d, program = PDict d)
  /\ (exists s, py_int (start_raw program) = Ok s)
  /\ ((exists e, py_int (end_raw program) = Ok e)
      \/ py_int (end_raw program) = Raise ValueError).

(** A channel entry the loop of line 82 gets past. *)
Definition passable_entry (channel : pyval) : Prop :=
  exists d l,
    channel = PDict d
    /\ hashable (channel_id_of channel) = true
    /\ dict_get d "epg" (PList []) = PList l
    /\ Forall passable_program l.

(** A text ElementTree can write: a str, or a falsy object (left out). *)
Definition writable_text (v : pyval) : bool := negb (truthy v) || is_str v.

Section Walls.

Context {Asia_Dhaka : tzinfo}.

(** The wall clock of the zone at the Unix time [t] is a time [datetime]
    can hold. *)
Definition wall_in_range (t : Z) : Prop :=
  min_timestamp <= t + utcoffset t <= max_timestamp.

(** What the loop of line 110 has checked of a program it got past. *)
Definition program_facts (p : pyval) : Prop :=
  passable_program p
  /\ (well_timed p = true ->
      wall_in_range (start_of p) /\ wall_in_range (end_of p)).

Definition entry_facts (ch : pyval) : Prop :=
  passable_entry ch /\ Forall program_facts (programs_of ch).

End Walls.

(** ** Sample inputs *)

(** 2024-01-01 on every reading of the clock. *)
Definition sample_clock : nat -> Z := fun _ => 19723.

(** A clock that passes midnight between the first reading and the second. *)
Definition midnight_clock : nat -> Z :=
  fun i => match i with O => 19723 | _ => 19724 end.

Definition program (s e : pyval) (title : string) : pyval :=
  PDict [("s", s); ("e", e); ("n", PStr title); ("d", PStr "about")].

Definition bundle (entries : list pyval) : http_reply :=
  Response 200 (Some (PList entries)).

Definition entry (id : string) (programs : list pyval) : pyval :=
  PDict [("i", PStr id); ("n", PStr "Channel"); ("epg", PList programs)].

Definition anonymous_entry (programs : list pyval) : pyval :=
  PDict [("n", PStr "Nameless"); ("epg", PList programs)].

Definition sample_channels : pyval :=
  PDict [("channels", PList
    [PDict [("id", PStr "c1"); ("name", PStr "Channel One");
            ("categoryName", PStr "News"); ("logo", PStr "http://logo/c1.png")]])].

Definition sample_metadata : http_reply := Response 200 (Some sample_channels).

Definition three_days (d0 d1 d2 : http_reply) : nat -> http_reply :=
  fun i => match i with O => d0 | S O => d1 | S (S O) => d2 | _ => NoResponse end.

Definition news : pyval := program (PInt 1700000000) (PInt 1700003600) "News".
Definition film : pyval := program (PStr "1700007200") (PInt 1700010800) "Film".
Definition backwards : pyval :=
  program (PInt 1700003600) (PInt 1700000000) "Backwards".

(** Times in milliseconds: valid for the validator, past year 9999 for the
    formatter. *)
Definition milliseconds : pyval :=
  program (PInt 1700000000000) (PInt 1700003600000) "Millis".

Definition late : pyval := program (PInt 2000) (PInt 3000) "Late".
Definition early : pyval := program (PInt 1000) (PInt 1500) "Early".

(** A start that is no number. *)
Definition malformed_start : pyval := program (PStr "abc") (PInt 100) "Broken".

Definition day_one : http_reply :=
  bundle [entry "c1" [film; backwards; news]; anonymous_entry [news]].
Definition day_three : http_reply :=
  bundle [entry "c1" []; anonymous_entry []; entry "c2" [news]].

(** Three days, the second of which does not answer. *)
Definition sample_replies : nat -> http_reply :=
  three_days day_one NoResponse day_three.

(** 300 Multiple Choices: a status that is not 2xx, that requests hands to
    the caller (it follows 301, 302, 303, 307 and 308 only) and that
    raise_for_status lets through. *)
Definition multiple_choices (data : pyval) : http_reply := Response 300 (Some data).

Definition sample_url (formatted_date : string) : string :=
  ("https://cloudtv.akamaized.net/AynaOTT/BDcontent/channels/epg/"
   ++ "652fcf82a2649538da6fc6e3_" ++ formatted_date ++ "_minified_bundle.json")%string.

Definition c1_node : element :=
  Element "channel" [("id", PStr "c1")] PNone
    [ Element "display-name" [] (PStr "Channel One") [];
      Element "category" [] (PStr "News") [];
      Element "icon" [("src", PStr "http://logo/c1.png")] PNone [] ].

Definition plain_node (id display_name : string) : element :=
  Element "channel" [("id", PStr id)] PNone
    [ Element "display-name" [] (PStr display_name) [] ].

Definition news_node (id : string) : element :=
  programme_element (PStr id) "20231115041320 +0600" "20231115051320 +0600"
    (PStr "News") (PStr "about").

Definition film_node (id : string) : element :=
  programme_element (PStr id) "20231115061320 +0600" "20231115071320 +0600"
    (PStr "Film") (PStr "about").

(** The document of the sample run. *)
Definition sample_document : element :=
  tv_element
    [ c1_node; news_node "c1"; film_node "c1";
      plain_node "unknown_id" "Nameless"; news_node "unknown_id";
      plain_node "c2" "Channel"; news_node "c2" ].

Definition sample_printed : list message :=
  [FailedFetch (sample_url "02-01-2024") RequestException; Saved].

(** A program without title and description, one without an end, and a
    run over a bundle with the two. *)
Definition untitled : pyval :=
  PDict [("s", PInt 1700000000); ("e", PInt 1700003600)].

Definition endless : pyval := PDict [("s", PInt 1700000000); ("n", PStr "Endless")].

Definition untitled_replies : nat -> http_reply :=
  three_days (bundle [entry "c2" [untitled; endless]]) NoResponse NoResponse.

Definition untitled_document : element :=
  tv_element
    [ plain_node "c2" "Channel";
      programme_element (PStr "c2") "20231115041320 +0600" "20231115051320 +0600"
        (PStr "Unknown Program") (PStr "No description available") ].

Definition untitled_printed : list message :=
  [FailedFetch (sample_url "02-01-2024") RequestException;
   FailedFetch (sample_url "03-01-2024") RequestException; Saved].

(** No day answers. *)
Definition silent : nat -> http_reply := fun _ => NoResponse.

(** The URLs of the three days from 2024-01-01. *)
Definition sample_urls : list string :=
  [sample_url "01-01-2024"; sample_url "02-01-2024"; sample_url "03-01-2024"].

(** The record of [sample_channels]. *)
Definition sample_record : pyval :=
  PDict [("id", PStr "c1"); ("name", PStr "Channel One");
         ("categoryName", PStr "News"); ("logo", PStr "http://logo/c1.png")].

(** A second program that starts with the news, and a run over a bundle
    with both. *)
Definition news_again : pyval :=
  program (PInt 1700000000) (PInt 1700001800) "Again".

Definition ties_replies : nat -> http_reply :=
  three_days (bundle [entry "c2" [film; news_again; backwards; news]])
    NoResponse NoResponse.

Definition ties_document : element :=
  tv_element
    [ plain_node "c2" "Channel";
      programme_element (PStr "c2") "20231115041320 +0600" "20231115044320 +0600"
        (PStr "Again") (PStr "about");
      news_node "c2"; film_node "c2" ].

(** Metadata with two records for one id. *)
Definition sample_old_record : pyval :=
  PDict [("id", PStr "c1"); ("name", PStr "Old name");
         ("categoryName", PStr "Sport"); ("logo", PStr "http://logo/old.png")].

Definition repeated_metadata : http_reply :=
  Response 200
    (Some (PDict [("channels", PList [sample_old_record; sample_record])])).

(** The state the loop of line 76 leaves in the sample run. *)
Definition sample_state : state :=
  {| processed_channels := [PStr "c1"; PStr "unknown_id"; PStr "c2"];
     tv := children_of sample_document;
     printed := [FailedFetch (sample_url "02-01-2024") RequestException] |}.

(** * Properties *)

(** ** The result monad *)

Lemma bind_Ok {A B : Type} (m : result A) (k : A -> result B) (b : B) :
  bind m k = Ok b -> exists a, m = Ok a /\ k a = Ok b.
Proof.
  destruct m as [a | e]; simpl; intros H.
  - exists a. split; [reflexivity | exact H].
  - discriminate H.
Qed.

Lemma bind_Raise {A B : Type} (m : result A) (k : A -> result B) (x : exn) :
  bind m k = Raise x -> m = Raise x \/ exists a, m = Ok a /\ k a = Raise x.
Proof.
  destruct m as [a | e]; simpl; intros H.
  - right. exists a. split; [reflexivity | exact H].
  - left. now injection H as ->.
Qed.

Ltac inv_bind H :=
  let a := fresh "a" in
  let Ha := fresh "Hbind" in
  apply bind_Ok in H; destruct H as [a [Ha H]].

(** ** Calendar arithmetic *)

(** The two directions of the date conversion agree, and months and days
    are in their ranges. *)
Lemma civil_round_trip (z y m d : Z) :
  civil_from_days z = (y, m, d) ->
  days_from_civil y m d = z /\ 1 <= m <= 12 /\ 1 <= d <= 31.
Proof.
  unfold civil_from_days, days_from_civil.
  cbv zeta.
  set (z' := z + 719468).
  set (era := z' / 146097).
  set (doe := z' - era * 146097).
  assert (Hdoe : 0 <= doe < 146097).
  { subst doe era. pose proof (Z.mod_pos_bound z' 146097 ltac:(lia)) as H.
    rewrite Z.mod_eq in H by lia. lia. }
  assert (Hz : z = era * 146097 + doe - 719468) by (subst doe z'; lia).
  clearbody doe era. clear z'.
  set (yoe := (doe - doe / 1460 + doe / 36524 - doe / 146096) / 365).
  assert (Hyoe : 0 <= yoe <= 399) by (subst yoe; Z.div_mod_to_equations; lia).
  set (doy := doe - (365 * yoe + yoe / 4 - yoe / 100)).
  assert (Hdoy : 0 <= doy <= 365) by (subst doy yoe; Z.div_mod_to_equations; lia).
  assert (Hd : doe = yoe * 365 + yoe / 4 - yoe / 100 + doy) by (subst doy; lia).
  clearbody doy yoe.
  set (mp := (5 * doy + 2) / 153).
  assert (Hmp : 0 <= mp <= 11) by (subst mp; Z.div_mod_to_equations; lia).
  set (dd := doy - (153 * mp + 2) / 5 + 1).
  assert (Hdd : 1 <= dd <= 31) by (subst dd mp; Z.div_mod_to_equations; lia).
  assert (Hdoy' : doy = (153 * mp + 2) / 5 + dd - 1) by (subst dd; lia).
  clearbody dd mp.
  intros H.
  destruct (mp <? 10) eqn:E; [apply Z.ltb_lt in E | apply Z.ltb_ge in E].
  - replace (mp + 3 <=? 2) with false in H by (symmetry; apply Z.leb_gt; lia).
    injection H as <- <- <-.
    replace (mp + 3 <=? 2) with false by (symmetry; apply Z.leb_gt; lia).
    replace (2 <? mp + 3) with true by (symmetry; apply Z.ltb_lt; lia).
    replace (mp + 3 - 3) with mp by lia.
    replace (yoe + era * 400 + 0) with (yoe + era * 400) by lia.
    replace ((yoe + era * 400) / 400) with era by (Z.div_mod_to_equations; lia).
    replace (yoe + era * 400 - era * 400) with yoe by lia.
    split; [lia | split; lia].
  - replace (mp - 9 <=? 2) with true in H by (symmetry; apply Z.leb_le; lia).
    injection H as <- <- <-.
    replace (mp - 9 <=? 2) with true by (symmetry; apply Z.leb_le; lia).
    replace (2 <? mp - 9) with false by (symmetry; apply Z.ltb_ge; lia).
    replace (mp - 9 + 9) with mp by lia.
    replace (yoe + era * 400 + 1 - 1) with (yoe + era * 400) by lia.
    replace ((yoe + era * 400) / 400) with era by (Z.div_mod_to_equations; lia).
    replace (yoe + era * 400 - era * 400) with yoe by lia.
    split; [lia | split; lia].
Qed.

(** The day of the date is a day its month has. *)
Lemma civil_valid (z y m d : Z) :
  civil_from_days z = (y, m, d) -> 1 <= d <= days_in_month y m.
Proof.
  unfold civil_from_days. cbv zeta.
  set (z' := z + 719468).
  set (era := z' / 146097).
  set (doe := z' - era * 146097).
  assert (Hdoe : 0 <= doe < 146097).
  { subst doe era. pose proof (Z.mod_pos_bound z' 146097 ltac:(lia)) as H.
    rewrite Z.mod_eq in H by lia. lia. }
  clearbody doe era. clear z'.
  set (yoe := (doe - doe / 1460 + doe / 36524 - doe / 146096) / 365).
  set (doy := doe - (365 * yoe + yoe / 4 - yoe / 100)).
  assert (Hyoe : 0 <= yoe <= 399) by (subst yoe; Z.div_mod_to_equations; lia).
  assert (Hdoy : 0 <= doy <= 365)
    by (subst doy yoe; Z.div_mod_to_equations; lia).
  assert (Hleap : doy = 365 ->
                  (yoe + 1) mod 4 = 0 /\ ((yoe + 1) mod 100 <> 0 \/ yoe = 399))
    by (subst doy yoe; Z.div_mod_to_equations; lia).
  clearbody doy yoe. clear doe Hdoe.
  set (mp := (5 * doy + 2) / 153).
  assert (Hmp : 0 <= mp <= 11) by (subst mp; Z.div_mod_to_equations; lia).
  set (dd := doy - (153 * mp + 2) / 5 + 1).
  assert (Hdd : 1 <= dd) by (subst dd mp; Z.div_mod_to_equations; lia).
  assert (Hlen : dd <= (153 * (mp + 1) + 2) / 5 - (153 * mp + 2) / 5)
    by (subst dd mp; Z.div_mod_to_equations; lia).
  assert (Hfeb : mp = 11 -> dd = doy - 336)
    by (subst dd mp; Z.div_mod_to_equations; lia).
  clearbody dd mp.
  intros H. split; [injection H as _ _ <-; exact Hdd |].
  destruct (Z.eq_dec mp 11) as [-> | Hfebruary].
  2:{ injection H as Hy Hm Hd'.
      assert (Hm' : m <> 2).
      { rewrite <- Hm. destruct (mp <? 10) eqn:E;
          [apply Z.ltb_lt in E | apply Z.ltb_ge in E]; lia. }
      assert (Hlong : (153 * (mp + 1) + 2) / 5 - (153 * mp + 2) / 5
                      <= days_in_month y m).
      { unfold days_in_month. rewrite <- Hm.
        destruct (mp <? 10) eqn:E;
          [apply Z.ltb_lt in E | apply Z.ltb_ge in E];
          repeat match goal with
                 | |- context [?a =? ?b] =>
                     destruct (Z.eqb_spec a b)
                 end; cbn [orb]; Z.div_mod_to_equations; lia. }
      rewrite <- Hd'. lia. }
  cbn in H. injection H as <- <- <-.
  unfold days_in_month. change (2 =? 2) with true. cbv iota.
  specialize (Hfeb eq_refl).
  destruct (is_leap (yoe + era * 400 + 1)) eqn:El; [lia |].
  assert (doy <> 365); [| lia]. intros E. destruct (Hleap E) as [H4 H100].
  unfold is_leap in El.
  replace ((yoe + era * 400 + 1) mod 4) with 0 in El
    by (Z.div_mod_to_equations; lia).
  cbn [Z.eqb andb] in El.
  apply orb_false_iff in El as [E1 E2].
  apply negb_false_iff, Z.eqb_eq in E1. apply Z.eqb_neq in E2.
  destruct H100 as [H100 | ->].
  - apply H100. Z.div_mod_to_equations. lia.
  - apply E2. Z.div_mod_to_equations. lia.
Qed.

(** A day a datetime can hold has a year from 1 to 9999. *)
Lemma civil_year_range (z y m d : Z) :
  days_from_civil y m d = z -> 1 <= m <= 12 -> 1 <= d <= 31 ->
  min_day <= z <= max_day -> 1 <= y <= 9999.
Proof.
  unfold days_from_civil, min_day, max_day. cbv zeta.
  intros Hr Hm Hd Hz.
  set (y' := if m <=? 2 then y - 1 else y) in *.
  set (mp := if 2 <? m then m - 3 else m + 9) in *.
  assert (Hy' : (m <= 2 /\ y' = y - 1 /\ mp = m + 9) \/
                (2 < m /\ y' = y /\ mp = m - 3)).
  { subst y' mp. destruct (m <=? 2) eqn:E1; destruct (2 <? m) eqn:E2;
      try (apply Z.leb_le in E1); try (apply Z.leb_gt in E1);
      try (apply Z.ltb_lt in E2); try (apply Z.ltb_ge in E2); lia. }
  clearbody y' mp.
  set (era := y' / 400) in *.
  set (yoe := y' - era * 400) in *.
  assert (Hyoe : 0 <= yoe < 400).
  { subst yoe era. pose proof (Z.mod_pos_bound y' 400 ltac:(lia)) as H.
    rewrite Z.mod_eq in H by lia. lia. }
  assert (Hy : y' = era * 400 + yoe) by (subst yoe; lia).
  clearbody yoe era.
  set (doy := (153 * mp + 2) / 5 + d - 1) in *.
  assert (Hdoy : (153 * mp + 2) / 5 <= doy <= (153 * mp + 2) / 5 + 30)
    by (subst doy; lia).
  clearbody doy.
  set (q := (153 * mp + 2) / 5) in *.
  assert (Hq : 153 * mp - 2 <= 5 * q <= 153 * mp + 2)
    by (subst q; Z.div_mod_to_equations; lia).
  clearbody q.
  set (a := yoe / 4) in *. set (b := yoe / 100) in *.
  assert (Ha : 4 * a <= yoe < 4 * a + 4) by (subst a; Z.div_mod_to_equations; lia).
  assert (Hb : 100 * b <= yoe < 100 * b + 100)
    by (subst b; Z.div_mod_to_equations; lia).
  clearbody a b.
  lia.
Qed.

(** The named dates and times are what their names say. *)
Lemma calendar_constants :
  days_from_civil 1 1 1 = min_day
  /\ days_from_civil 9999 12 31 = max_day
  /\ days_from_civil 1000 1 1 = year_1000_day
  /\ days_from_civil 1970 1 1 = 0
  /\ min_timestamp = min_day * 86400
  /\ max_timestamp = (max_day + 1) * 86400 - 1
  /\ year_1000_timestamp = year_1000_day * 86400.
Proof. repeat split; vm_compute; reflexivity. Qed.

(** ** Zero-padded fields *)

Lemma length_append (s t : string) :
  String.length (s ++ t) = (String.length s + String.length t)%nat.
Proof.
  induction s as [| c s IH]; simpl; [reflexivity | now rewrite IH].
Qed.

Lemma decimal_acc_append (s t : string) (acc : Z) :
  decimal_acc acc (s ++ t) = decimal_acc (decimal_acc acc s) t.
Proof.
  revert acc. induction s as [| c s IH]; intros acc; simpl;
    [reflexivity | apply IH].
Qed.

Lemma all_digits_append (s t : string) :
  all_digits (s ++ t) = all_digits s && all_digits t.
Proof.
  induction s as [| c s IH]; simpl; [reflexivity |].
  destruct (digit_of c); [exact IH | reflexivity].
Qed.

Lemma ord_digit_char (n : Z) : ord (digit_char n) = 48 + n mod 10.
Proof.
  unfold ord, digit_char, chr.
  pose proof (Z.mod_pos_bound n 10 ltac:(lia)) as Hb.
  rewrite N_ascii_embedding by lia. lia.
Qed.

Lemma digit_of_digit_char (n : Z) : digit_of (digit_char n) = Some (n mod 10).
Proof.
  unfold digit_of. rewrite ord_digit_char.
  pose proof (Z.mod_pos_bound n 10 ltac:(lia)) as Hb.
  destruct (48 <=? 48 + n mod 10) eqn:E1; [| apply Z.leb_gt in E1; lia].
  destruct (48 + n mod 10 <=? 57) eqn:E2; [| apply Z.leb_gt in E2; lia].
  cbn [andb]. f_equal. lia.
Qed.

Lemma zero_padded_length (w : nat) (n : Z) : String.length (zero_padded w n) = w.
Proof.
  revert n. induction w as [| w IH]; intros n; simpl; [reflexivity |].
  rewrite length_append, IH. simpl. lia.
Qed.

Lemma zero_padded_digits (w : nat) (n : Z) : all_digits (zero_padded w n) = true.
Proof.
  revert n. induction w as [| w IH]; intros n; simpl; [reflexivity |].
  rewrite all_digits_append, IH. simpl. now rewrite digit_of_digit_char.
Qed.

Lemma zero_padded_value (w : nat) (n : Z) :
  decimal_value (zero_padded w n) = n mod 10 ^ Z.of_nat w.
Proof.
  unfold decimal_value. revert n.
  induction w as [| w IH]; intros n.
  - simpl. now rewrite Z.mod_1_r.
  - cbn [zero_padded]. rewrite decimal_acc_append, IH. cbn [decimal_acc].
    rewrite ord_digit_char.
    replace (48 + n mod 10 - 48) with (n mod 10) by lia.
    rewrite Nat2Z.inj_succ, Z.pow_succ_r by lia.
    rewrite (Z.rem_mul_r n 10 (10 ^ Z.of_nat w)) by lia.
    lia.
Qed.

(** A number below [10 ^ w] is written exactly by its [w]-digit field. *)
Lemma zero_padded_field (w : nat) (n : Z) :
  0 <= n < 10 ^ Z.of_nat w -> field w n (zero_padded w n).
Proof.
  intros Hn. unfold field.
  rewrite zero_padded_length, zero_padded_digits, zero_padded_value.
  rewrite Z.mod_small by exact Hn. auto.
Qed.

Lemma zero_padded_field2 (n : Z) : 0 <= n < 100 -> field 2 n (zero_padded 2 n).
Proof. intros Hn. apply zero_padded_field. exact Hn. Qed.

Lemma zero_padded_field4 (n : Z) : 0 <= n < 10000 -> field 4 n (zero_padded 4 n).
Proof. intros Hn. apply zero_padded_field. exact Hn. Qed.

Lemma strftime_dmY_encodes (day : Z) :
  min_day <= day <= max_day -> is_dmY_of day (strftime_dmY day).
Proof.
  intros Hday. unfold strftime_dmY.
  destruct (civil_from_days day) as [[y m] d] eqn:E.
  destruct (civil_round_trip _ _ _ _ E) as [Hr [Hm Hd]].
  pose proof (civil_year_range _ _ _ _ Hr Hm Hd Hday) as Hy.
  pose proof (civil_valid _ _ _ _ E) as Hv.
  exists y, m, d, (zero_padded 2 d), (zero_padded 2 m), (zero_padded 4 y).
  split; [reflexivity |].
  split; [apply zero_padded_field2; lia |].
  split; [apply zero_padded_field2; lia |].
  split; [apply zero_padded_field4; lia |].
  auto.
Qed.

Lemma strftime_YmdHMS_encodes (wall : Z) :
  min_timestamp <= wall <= max_timestamp ->
  is_YmdHMS_of wall (strftime_YmdHMS wall).
Proof.
  intros Hw. unfold strftime_YmdHMS.
  destruct (civil_from_days (wall / 86400)) as [[y m] d] eqn:E.
  destruct (civil_round_trip _ _ _ _ E) as [Hr [Hm Hd]].
  assert (Hday : min_day <= wall / 86400 <= max_day).
  { unfold min_day, max_day, min_timestamp, max_timestamp in *.
    Z.div_mod_to_equations. lia. }
  pose proof (civil_year_range _ _ _ _ Hr Hm Hd Hday) as Hy.
  pose proof (civil_valid _ _ _ _ E) as Hv.
  pose proof (Z.mod_pos_bound wall 86400 ltac:(lia)) as Hs.
  pose proof (Z.div_mod wall 86400 ltac:(lia)) as Hdm.
  set (s := wall mod 86400) in *. clearbody s.
  assert (H1 : 0 <= s / 3600 < 24) by (Z.div_mod_to_equations; lia).
  assert (H2 : 0 <= s mod 3600 / 60 < 60) by (Z.div_mod_to_equations; lia).
  assert (H3 : 0 <= s mod 60 < 60) by (Z.div_mod_to_equations; lia).
  assert (H4 : s / 3600 * 3600 + s mod 3600 / 60 * 60 + s mod 60 = s)
    by (Z.div_mod_to_equations; lia).
  exists y, m, d, (s / 3600), (s mod 3600 / 60), (s mod 60).
  exists (zero_padded 4 y), (zero_padded 2 m), (zero_padded 2 d),
    (zero_padded 2 (s / 3600)), (zero_padded 2 (s mod 3600 / 60)),
    (zero_padded 2 (s mod 60)).
  split; [reflexivity |].
  split; [apply zero_padded_field4; lia |].
  do 5 (split; [apply zero_padded_field2; lia |]).
  do 5 (split; [assumption |]).
  rewrite Hr. lia.
Qed.

(** ** int() *)

(** The exceptions [int] can raise, and the values that raise them. *)
Lemma py_int_raises (v : pyval) (x : exn) :
  py_int v = Raise x ->
  (x = TypeError /\ (v = PNone \/ (exists l, v = PList l) \/ exists d, v = PDict d))
  \/ (x = ValueError /\
      ((exists s, v = PStr s /\ parse_int s = None) \/ v = PFloat S754_nan))
  \/ (x = OverflowError /\ exists sign, v = PFloat (S754_infinity sign)).
Proof.
  destruct v as [| b | z | f | s | l | d]; simpl; intros H; try discriminate H.
  - injection H as <-. left. auto.
  - destruct f as [sg | sg | | sg m e]; simpl in H; try discriminate H;
      injection H as <-.
    + right. right. split; [reflexivity | now exists sg].
    + right. left. auto.
  - destruct (parse_int s) eqn:E; [discriminate H |]. injection H as <-.
    right. left. split; [reflexivity |]. left. now exists s.
  - injection H as <-. left. split; [reflexivity |]. right. left. now exists l.
  - injection H as <-. left. split; [reflexivity |]. right. right. now exists d.
Qed.

(** ** The validator *)

(** C3 (amended).  The validator returns true exactly when both values
    convert with int(), the start is positive and the end is greater than the
    start.  It returns false exactly when a conversion it reaches raises
    ValueError (a non-numeric string, a NaN) or the order is violated.  Any
    other exception of a conversion it reaches (TypeError for null, a list or
    an object; OverflowError for an infinite float) is not caught: the
    validator raises it. *)
Theorem validate_program_times_spec (start end_ : pyval) :
  (validate_program_times start end_ = Ok true <->
     exists s e, py_int start = Ok s /\ py_int end_ = Ok e /\ 0 < s /\ s < e)
  /\ (validate_program_times start end_ = Ok false <->
        py_int start = Raise ValueError
        \/ (exists s, py_int start = Ok s /\ py_int end_ = Raise ValueError)
        \/ (exists s e, py_int start = Ok s /\ py_int end_ = Ok e /\
                        ~ (0 < s /\ s < e)))
  /\ (forall x, validate_program_times start end_ = Raise x <->
        x <> ValueError /\
        (py_int start = Raise x
         \/ exists s, py_int start = Ok s /\ py_int end_ = Raise x)).
Proof.
  unfold validate_program_times, catch, bind.
  destruct (py_int start) as [s | xs]; [destruct (py_int end_) as [e | xe] |].
  - (* both convert *)
    assert (Hb : (0 <? s) && (s <? e) = true <-> 0 < s /\ s < e)
      by (rewrite andb_true_iff, !Z.ltb_lt; tauto).
    split; [| split].
    + split.
      * intros H. injection H as H. exists s, e. tauto.
      * intros (s' & e' & Hs & He & H). injection Hs as <-. injection He as <-.
        f_equal. tauto.
    + split.
      * intros H. injection H as H. right. right. exists s, e.
        repeat split; try reflexivity. rewrite <- Hb, H. discriminate.
      * intros [H | [(s' & _ & H) | (s' & e' & Hs & He & H)]];
          try discriminate H.
        injection Hs as <-. injection He as <-. f_equal.
        rewrite <- Hb in H. now destruct ((0 <? s) && (s <? e)).
    + intros x. split; [discriminate |].
      intros [_ [H | (s' & _ & H)]]; discriminate H.
  - (* the end does not convert *)
    split; [| split].
    + split.
      * destruct xe; simpl; discriminate.
      * intros (s' & e' & _ & He & _). discriminate He.
    + split.
      * destruct xe; simpl; intros H; try discriminate H.
        right. left. now exists s.
      * intros [H | [(s' & _ & H) | (s' & e' & _ & He & _)]];
          try discriminate.
        now injection H as ->.
    + intros x. split.
      * destruct xe; simpl; intros H; try discriminate H; injection H as <-;
          (split; [discriminate | right; now exists s]).
      * intros [Hx [H | (s' & _ & H)]]; [discriminate H |].
        injection H as ->. destruct x; simpl; try reflexivity. now elim Hx.
  - (* the start does not convert *)
    split; [| split].
    + split.
      * destruct xs; simpl; discriminate.
      * intros (s' & e' & Hs & _). discriminate Hs.
    + split.
      * destruct xs; simpl; intros H; try discriminate H. now left.
      * intros [H | [(s' & Hs & _) | (s' & e' & Hs & _)]]; try discriminate.
        now injection H as ->.
    + intros x. split.
      * destruct xs; simpl; intros H; try discriminate H; injection H as <-;
          (split; [discriminate | now left]).
      * intros [Hx [H | (s' & Hs & _)]]; [| discriminate Hs].
        injection H as ->. destruct x; simpl; try reflexivity. now elim Hx.
Qed.

(** ** The URL generator *)

(** A URL of the generator: the text of line 31 with a date in the place of
    the braces. *)
Lemma base_url_format_template (formatted_date : string) :
  base_url_format formatted_date
  = ("https://cloudtv.akamaized.net/AynaOTT/BDcontent/channels/epg/652fcf82a2649538da6fc6e3_"
     ++ formatted_date ++ "_minified_bundle.json")%string.
Proof. reflexivity. Qed.

(** When the three readings of the clock show the same date D (from year
    1000 on, with two more days before 9999-12-31), the generator returns
    three URLs, in order: the text of line 31 with the dates D, D+1 and D+2
    written DD-MM-YYYY in the place of the braces. *)
Lemma get_api_urls_three_days (clock : nat -> Z) (D : Z) :
  clock 0%nat = D -> clock 1%nat = D -> clock 2%nat = D ->
  year_1000_day <= D -> D + 2 <= max_day ->
  exists s0 s1 s2,
    get_api_urls clock =
      Ok [("https://cloudtv.akamaized.net/AynaOTT/BDcontent/channels/epg/652fcf82a2649538da6fc6e3_"
           ++ s0 ++ "_minified_bundle.json")%string;
          ("https://cloudtv.akamaized.net/AynaOTT/BDcontent/channels/epg/652fcf82a2649538da6fc6e3_"
           ++ s1 ++ "_minified_bundle.json")%string;
          ("https://cloudtv.akamaized.net/AynaOTT/BDcontent/channels/epg/652fcf82a2649538da6fc6e3_"
           ++ s2 ++ "_minified_bundle.json")%string]
    /\ is_dmY_of D s0 /\ is_dmY_of (D + 1) s1 /\ is_dmY_of (D + 2) s2.
Proof.
  intros H0 H1 H2 Hlo Hhi.
  unfold year_1000_day in Hlo. unfold min_day, max_day in *.
  assert (Hnow : forall i, (i < 3)%nat ->
            now_plus_days clock i = Ok (D + Z.of_nat i)).
  { intros i Hi. unfold now_plus_days.
    assert (Hc : clock i = D)
      by (destruct i as [| [| [| i]]]; [assumption .. | lia]).
    rewrite Hc.
    unfold min_day, max_day.
    destruct (D <? -719162) eqn:E1; [apply Z.ltb_lt in E1; lia |].
    destruct (2932896 <? D) eqn:E2; [apply Z.ltb_lt in E2; lia |].
    destruct (2932896 <? D + Z.of_nat i) eqn:E3; [apply Z.ltb_lt in E3; lia |].
    reflexivity. }
  exists (strftime_dmY D), (strftime_dmY (D + 1)), (strftime_dmY (D + 2)).
  split.
  - rewrite <- !base_url_format_template. unfold get_api_urls. cbn [seq mapM].
    rewrite (Hnow 0%nat), (Hnow 1%nat), (Hnow 2%nat) by lia.
    cbn [bind]. now rewrite Z.add_0_r.
  - repeat split; apply strftime_dmY_encodes; unfold min_day, max_day; lia.
Qed.

(** ** Reading dates back *)

(** Skipping a known prefix, and taking it. *)
Lemma substring_skip (a b : string) (k m : nat) :
  substring (String.length a + k) m (a ++ b) = substring k m b.
Proof. induction a as [| c a IH]; [reflexivity | exact IH]. Qed.

Lemma substring_prefix (a b : string) :
  substring 0 (String.length a) (a ++ b) = a.
Proof.
  induction a as [| c a IH]; simpl.
  - now destruct b.
  - now rewrite IH.
Qed.

(** A field of two or four digits, character by character. *)
Lemma field2_chars (n : Z) (f : string) :
  field 2 n f -> exists c1 c2, f = String c1 (String c2 EmptyString).
Proof.
  intros (L & _ & _).
  destruct f as [| c1 [| c2 [| c3 f]]]; try discriminate. now exists c1, c2.
Qed.

Lemma field4_chars (n : Z) (f : string) :
  field 4 n f ->
  exists c1 c2 c3 c4,
    f = String c1 (String c2 (String c3 (String c4 EmptyString))).
Proof.
  intros (L & _ & _).
  destruct f as [| c1 [| c2 [| c3 [| c4 [| c5 f]]]]]; try discriminate.
  now exists c1, c2, c3, c4.
Qed.

Lemma field_value (w : nat) (n : Z) (f : string) : field w n f -> decimal_value f = n.
Proof. now intros (_ & _ & H). Qed.

(** What [is_dmY_of] and [is_YmdHMS_of] say of a string is what the
    readers find in it, whatever follows. *)
Lemma parse_dmY_of (day : Z) (s rest : string) :
  is_dmY_of day s -> parse_dmY (s ++ rest) = day.
Proof.
  intros (y & m & d & dd & mm & yyyy & -> & Hd & Hm & Hy & _ & _ & <-).
  pose proof (field_value _ _ _ Hd) as Vd.
  pose proof (field_value _ _ _ Hm) as Vm.
  pose proof (field_value _ _ _ Hy) as Vy.
  destruct (field2_chars _ _ Hd) as (d1 & d2 & ->).
  destruct (field2_chars _ _ Hm) as (m1 & m2 & ->).
  destruct (field4_chars _ _ Hy) as (y1 & y2 & y3 & y4 & ->).
  unfold parse_dmY. cbn [append substring].
  destruct rest; cbn [substring]; now rewrite Vd, Vm, Vy.
Qed.

Lemma parse_YmdHMS_of (wall : Z) (s rest : string) :
  is_YmdHMS_of wall s -> parse_YmdHMS (s ++ rest) = wall.
Proof.
  intros (y & m & d & hh & mi & ss & f1 & f2 & f3 & f4 & f5 & f6 & -> &
          H1 & H2 & H3 & H4 & H5 & H6 & _ & _ & _ & _ & _ & <-).
  pose proof (field_value _ _ _ H1) as V1.
  pose proof (field_value _ _ _ H2) as V2.
  pose proof (field_value _ _ _ H3) as V3.
  pose proof (field_value _ _ _ H4) as V4.
  pose proof (field_value _ _ _ H5) as V5.
  pose proof (field_value _ _ _ H6) as V6.
  destruct (field4_chars _ _ H1) as (a1 & a2 & a3 & a4 & ->).
  destruct (field2_chars _ _ H2) as (b1 & b2 & ->).
  destruct (field2_chars _ _ H3) as (c1 & c2 & ->).
  destruct (field2_chars _ _ H4) as (d1 & d2 & ->).
  destruct (field2_chars _ _ H5) as (e1 & e2 & ->).
  destruct (field2_chars _ _ H6) as (g1 & g2 & ->).
  unfold parse_YmdHMS. cbn [append substring].
  destruct rest; cbn [substring]; now rewrite V1, V2, V3, V4, V5, V6.
Qed.

Lemma append_nil_r (s : string) : (s ++ "")%string = s.
Proof. induction s; simpl; congruence. Qed.

Lemma date_of_url_format (s : string) :
  String.length s = 10%nat -> date_of_url (base_url_format s) = s.
Proof.
  intros L. unfold date_of_url, base_url_format.
  rewrite <- (Nat.add_0_r (String.length base_url_prefix)), substring_skip.
  rewrite <- L. apply substring_prefix.
Qed.

Lemma is_dmY_of_length (day : Z) (s : string) :
  is_dmY_of day s -> String.length s = 10%nat.
Proof.
  intros (y & m & d & dd & mm & yyyy & -> & Hd & Hm & Hy & _).
  destruct (field2_chars _ _ Hd) as (d1 & d2 & ->).
  destruct (field2_chars _ _ Hm) as (m1 & m2 & ->).
  destruct (field4_chars _ _ Hy) as (y1 & y2 & y3 & y4 & ->).
  reflexivity.
Qed.

(** What a successful call of the URL generator returned. *)
Lemma get_api_urls_Ok (clock : nat -> Z) (urls : list string) :
  get_api_urls clock = Ok urls ->
  urls = [base_url_format (strftime_dmY (clock 0%nat));
          base_url_format (strftime_dmY (clock 1%nat + 1));
          base_url_format (strftime_dmY (clock 2%nat + 2))]
  /\ min_day <= clock 0%nat <= max_day
  /\ min_day <= clock 1%nat /\ clock 1%nat + 1 <= max_day
  /\ min_day <= clock 2%nat /\ clock 2%nat + 2 <= max_day.
Proof.
  unfold get_api_urls. cbn [seq mapM]. unfold now_plus_days.
  intros H.
  destruct ((clock 0%nat <? min_day) || (max_day <? clock 0%nat)) eqn:E0;
    [discriminate |].
  destruct (max_day <? clock 0%nat + Z.of_nat 0) eqn:F0; [discriminate |].
  cbn [bind] in H.
  destruct ((clock 1%nat <? min_day) || (max_day <? clock 1%nat)) eqn:E1;
    [discriminate |].
  destruct (max_day <? clock 1%nat + Z.of_nat 1) eqn:F1; [discriminate |].
  cbn [bind] in H.
  destruct ((clock 2%nat <? min_day) || (max_day <? clock 2%nat)) eqn:E2;
    [discriminate |].
  destruct (max_day <? clock 2%nat + Z.of_nat 2) eqn:F2; [discriminate |].
  cbn [bind] in H. injection H as <-.
  apply orb_false_iff in E0 as [A0 B0], E1 as [A1 B1], E2 as [A2 B2].
  change (Z.of_nat 0) with 0 in *. change (Z.of_nat 1) with 1 in *.
  change (Z.of_nat 2) with 2 in *. rewrite Z.add_0_r in *.
  repeat split; try reflexivity; lia.
Qed.

Lemma url_date_round_trip (day : Z) :
  min_day <= day <= max_day ->
  parse_dmY (date_of_url (base_url_format (strftime_dmY day))) = day.
Proof.
  intros R. pose proof (strftime_dmY_encodes day R) as E.
  rewrite date_of_url_format by now apply (is_dmY_of_length day).
  rewrite <- (append_nil_r (strftime_dmY day)). now apply parse_dmY_of.
Qed.


(** X1.  The date of every generated URL can be read back from the URL,
    and it is the date the clock showed in the URL's own turn of the loop of
    line 34, plus the index of the turn: the clock is read once for every
    URL, not once for the call. *)
Theorem url_dates_read_back (clock : nat -> Z) (urls : list string) :
  get_api_urls clock = Ok urls ->
  year_1000_day <= clock 0%nat -> year_1000_day <= clock 1%nat ->
  year_1000_day <= clock 2%nat ->
  map (fun url => parse_dmY (date_of_url url)) urls
  = [clock 0%nat; clock 1%nat + 1; clock 2%nat + 2].
Proof.
  intros H Y0 Y1 Y2.
  destruct (get_api_urls_Ok _ _ H) as (-> & R0 & R1 & R1' & R2 & R2').
  cbn [map]. rewrite !url_date_round_trip; [reflexivity | lia ..].
Qed.

(** X2.  With a clock that does not go backwards between the readings
    the three URLs are pairwise different: no day is fetched twice. *)
Theorem urls_distinct (clock : nat -> Z) (urls : list string) :
  get_api_urls clock = Ok urls ->
  year_1000_day <= clock 0%nat ->
  clock 0%nat <= clock 1%nat -> clock 1%nat <= clock 2%nat ->
  NoDup urls.
Proof.
  intros H _ H01 H12.
  destruct (get_api_urls_Ok _ _ H) as (-> & R0 & R1 & R1' & R2 & R2').
  assert (Hinj : forall a b, min_day <= a <= max_day -> min_day <= b <= max_day ->
             base_url_format (strftime_dmY a) = base_url_format (strftime_dmY b) ->
             a = b).
  { intros a b Ra Rb E.
    rewrite <- (url_date_round_trip a Ra), <- (url_date_round_trip b Rb).
    now rewrite E. }
  repeat constructor; cbn [In]; intros K.
  - destruct K as [K | [K | []]]; apply Hinj in K; lia.
  - destruct K as [K | []]; apply Hinj in K; lia.
  - exact K.
Qed.

Section Properties.

Context {Asia_Dhaka : tzinfo}.

(** Inside the range of [datetime] the formatter returns the wall clock of
    the zone followed by the literal suffix. *)
Lemma format_timestamp_in_range (timestamp : pyval) (t : Z) :
  py_int timestamp = Ok t ->
  min_timestamp <= t <= max_timestamp ->
  min_timestamp <= t + utcoffset t <= max_timestamp ->
  format_timestamp timestamp = Ok (timestamp_attr t).
Proof.
  intros Hint Ht Hwall.
  unfold format_timestamp, fromtimestamp_utc, astimezone, timestamp_attr.
  rewrite Hint. cbn [bind].
  unfold min_timestamp, max_timestamp, gmtime_min, gmtime_max in *.
  destruct (t <? - 2 ^ 63) eqn:E1; [apply Z.ltb_lt in E1; lia |].
  destruct (2 ^ 63 <=? t) eqn:E2; [apply Z.leb_le in E2; lia |].
  destruct (t <? -67768040609740800) eqn:E3; [apply Z.ltb_lt in E3; lia |].
  destruct (67768036191676799 <? t) eqn:E4; [apply Z.ltb_lt in E4; lia |].
  destruct (t <? -62135596800) eqn:E5; [apply Z.ltb_lt in E5; lia |].
  destruct (253402300799 <? t) eqn:E6; [apply Z.ltb_lt in E6; lia |].
  cbn [orb bind].
  destruct (t + utcoffset t <? -62135596800) eqn:E7;
    [apply Z.ltb_lt in E7; lia |].
  destruct (253402300799 <? t + utcoffset t) eqn:E8;
    [apply Z.ltb_lt in E8; lia |].
  reflexivity.
Qed.

(** A year past 9999 is a ValueError of [fromtimestamp], which the
    formatter answers with the empty string. *)
Lemma format_timestamp_past_9999 (timestamp : pyval) (t : Z) :
  py_int timestamp = Ok t ->
  max_timestamp < t <= gmtime_max ->
  format_timestamp timestamp = Ok EmptyString.
Proof.
  intros Hint Ht.
  unfold format_timestamp, fromtimestamp_utc.
  rewrite Hint. cbn [bind].
  unfold min_timestamp, max_timestamp, gmtime_min, gmtime_max in *.
  destruct (t <? - 2 ^ 63) eqn:E1; [apply Z.ltb_lt in E1; lia |].
  destruct (2 ^ 63 <=? t) eqn:E2; [apply Z.leb_le in E2; lia |].
  destruct (t <? -67768040609740800) eqn:E3; [apply Z.ltb_lt in E3; lia |].
  destruct (67768036191676799 <? t) eqn:E4; [apply Z.ltb_lt in E4; lia |].
  destruct (t <? -62135596800) eqn:E5; [apply Z.ltb_lt in E5; lia |].
  destruct (253402300799 <? t) eqn:E6; [| apply Z.ltb_ge in E6; lia].
  reflexivity.
Qed.

(** A string that is no integer literal is answered with the empty
    string. *)
Lemma format_timestamp_malformed (s : string) :
  parse_int s = None -> format_timestamp (PStr s) = Ok EmptyString.
Proof.
  intros H. unfold format_timestamp. simpl. now rewrite H.
Qed.

(** For a value that int() turns into the Unix time t, inside the range of
    datetime (wall clock from year 1000 to 9999-12-31 23:59:59), the
    formatter returns the fourteen digits YYYYMMDDhhmmss of the calendar date
    and time of t shifted by the offset the zone has at t, followed by the
    literal suffix " +0600"; where that offset is six hours, these are the
    date and time of t + 6 hours. *)
Lemma format_timestamp_wall_clock (timestamp : pyval) (t : Z) :
  py_int timestamp = Ok t ->
  min_timestamp <= t <= max_timestamp ->
  year_1000_timestamp <= t + utcoffset t <= max_timestamp ->
  exists local,
    format_timestamp timestamp = Ok (local ++ " +0600")%string
    /\ local = strftime_YmdHMS (t + utcoffset t)
    /\ is_YmdHMS_of (t + utcoffset t) local
    /\ (utcoffset t = 21600 -> is_YmdHMS_of (t + 6 * 3600) local).
Proof.
  intros Hint Ht Hwall.
  assert (Hrange : min_timestamp <= t + utcoffset t <= max_timestamp)
    by (unfold min_timestamp, max_timestamp, year_1000_timestamp in *; lia).
  exists (strftime_YmdHMS (t + utcoffset t)).
  split; [| split; [reflexivity | split]].
  - now rewrite (format_timestamp_in_range timestamp t Hint Ht Hrange).
  - now apply strftime_YmdHMS_encodes.
  - intros Hoff. replace (t + 6 * 3600) with (t + utcoffset t) by lia.
    now apply strftime_YmdHMS_encodes.
Qed.

(** ** Exceptions that cannot be a RequestException *)

Lemma plain_Ok {A : Type} (a : A) : plain (Ok a).
Proof. discriminate. Qed.

Lemma plain_bind {A B : Type} (m : result A) (k : A -> result B) :
  plain m -> (forall a, plain (k a)) -> plain (bind m k).
Proof.
  unfold plain. intros Hm Hk. destruct m as [a | e]; simpl; [apply Hk |].
  intros H. apply Hm. now injection H as ->.
Qed.

Lemma plain_catch {A : Type} (m h : result A) :
  plain m -> plain h -> plain (catch is_ValueError m h).
Proof.
  unfold plain, catch. intros Hm Hh. destruct m as [a | e]; [discriminate |].
  destruct e; simpl; auto.
Qed.

Lemma plain_py_get (obj : pyval) (k : string) (default : pyval) :
  plain (py_get obj k default).
Proof. destruct obj; discriminate. Qed.

Lemma plain_py_iter (obj : pyval) : plain (py_iter obj).
Proof. destruct obj; discriminate. Qed.

Lemma plain_py_int (v : pyval) : plain (py_int v).
Proof.
  destruct v as [| b | z | f | s | l | d]; simpl; try discriminate.
  - destruct f; discriminate.
  - destruct (parse_int s); discriminate.
Qed.

Lemma plain_set_contains (s : list pyval) (x : pyval) : plain (set_contains s x).
Proof. unfold set_contains. destruct (hashable x); discriminate. Qed.

Lemma plain_fromtimestamp_utc (t : Z) : plain (fromtimestamp_utc t).
Proof.
  unfold fromtimestamp_utc.
  destruct (_ || _); [discriminate |].
  destruct (_ || _); [discriminate |].
  destruct (_ || _); discriminate.
Qed.

Lemma plain_astimezone (t : Z) : plain (astimezone t).
Proof. unfold astimezone. destruct (_ || _); discriminate. Qed.

Lemma plain_mapM {A B : Type} (f : A -> result B) (l : list A) :
  (forall a, plain (f a)) -> plain (mapM f l).
Proof.
  intros Hf. induction l as [| a l IH]; simpl; [apply plain_Ok |].
  apply plain_bind; [apply Hf | intros b].
  apply plain_bind; [exact IH | intros bs; apply plain_Ok].
Qed.

Create HintDb plain discriminated.

#[local] Hint Resolve plain_Ok plain_py_get plain_py_iter plain_py_int
  plain_set_contains plain_fromtimestamp_utc plain_astimezone : plain.
#[local] Hint Extern 2 (plain (bind _ _)) =>
  apply plain_bind; [| intro] : plain.
#[local] Hint Extern 2 (plain (catch _ _ _)) => apply plain_catch : plain.
#[local] Hint Extern 2 (plain (mapM _ _)) => apply plain_mapM; intro : plain.
#[local] Hint Extern 3 (plain (if ?b then _ else _)) => destruct b : plain.

Lemma plain_sort_programs (programs : pyval) : plain (sort_programs programs).
Proof.
  destruct programs; try discriminate.
  unfold sort_programs, sort_key. auto 8 with plain.
Qed.

Lemma plain_validate (start end_ : pyval) :
  plain (validate_program_times start end_).
Proof. unfold validate_program_times. auto 8 with plain. Qed.

Lemma plain_format_timestamp (v : pyval) : plain (format_timestamp v).
Proof. unfold format_timestamp. auto 8 with plain. Qed.

#[local] Hint Resolve plain_sort_programs plain_validate
  plain_format_timestamp : plain.

Lemma plain_emit_program (cid p : pyval) : plain (emit_program cid p).
Proof. unfold emit_program. auto 12 with plain. Qed.

Lemma plain_emit_programs (cid : pyval) (ps : list pyval) :
  plain (emit_programs cid ps).
Proof.
  induction ps as [| p ps IH]; simpl; [apply plain_Ok |].
  apply plain_bind; [apply plain_emit_program | intros nodes].
  apply plain_bind; [exact IH | intros; apply plain_Ok].
Qed.

#[local] Hint Resolve plain_emit_programs : plain.

Lemma plain_process_channel (idx : channel_index) (st : state) (ch : pyval) :
  plain (process_channel idx st ch).
Proof. unfold process_channel. auto 12 with plain. Qed.

(** Processing a bundle never raises a RequestException: the handler of
    line 137 only ever answers the three request lines. *)
Lemma plain_process_channels (idx : channel_index) (chs : list pyval) (st : state) :
  plain (process_channels idx st chs).
Proof.
  revert st. induction chs as [| ch chs IH]; intros st; simpl;
    [apply plain_Ok |].
  apply plain_bind; [apply plain_process_channel | intros st1; apply IH].
Qed.

Lemma fetch_json_raises (reply : http_reply) (e : exn) :
  fetch_json reply = Raise e -> e = RequestException.
Proof.
  destruct reply as [| status body]; simpl.
  - now intros [= <-].
  - unfold raise_for_status. destruct (_ && _); simpl; [now intros [= <-] |].
    destruct body; [discriminate | now intros [= <-]].
Qed.

(** ** The formatter, seen from the loop *)

Lemma nonempty_timestamp_attr (t : Z) : nonempty (timestamp_attr t) = true.
Proof.
  unfold timestamp_attr. now destruct (strftime_YmdHMS (t + utcoffset t)).
Qed.

Lemma format_timestamp_Ok (v : pyval) (t : Z) (str : string) :
  py_int v = Ok t ->
  format_timestamp v = Ok str ->
  (min_timestamp <= t <= max_timestamp /\ str = timestamp_attr t)
  \/ ((t < min_timestamp \/ max_timestamp < t) /\ str = EmptyString).
Proof.
  intros Hint. unfold format_timestamp, fromtimestamp_utc, astimezone.
  rewrite Hint. cbn [bind].
  destruct ((t <? - 2 ^ 63) || (2 ^ 63 <=? t)); [discriminate |].
  destruct ((t <? gmtime_min) || (gmtime_max <? t)); [discriminate |].
  destruct ((t <? min_timestamp) || (max_timestamp <? t)) eqn:E.
  - simpl. intros [= <-]. right. split; [| reflexivity].
    apply orb_true_iff in E. rewrite !Z.ltb_lt in E. exact E.
  - cbn [bind].
    apply orb_false_iff in E. rewrite !Z.ltb_ge in E.
    destruct ((t + utcoffset t <? min_timestamp)
              || (max_timestamp <? t + utcoffset t)); [discriminate |].
    simpl. intros [= <-]. left. split; [lia | reflexivity].
Qed.

(** ** One program *)

Lemma well_timed_iff (p : pyval) :
  well_timed p = true <-> emitted_condition p.
Proof.
  unfold well_timed, emitted_condition, valid_times, end_of, int_or_zero.
  destruct (py_int (start_raw p)) as [s | x];
    [destruct (py_int (end_raw p)) as [e | x] |].
  - rewrite !andb_true_iff, !Z.ltb_lt, Z.leb_le. split.
    + intros [[H1 H2] H3]. split; [now exists s, e | exact H3].
    + intros [(s' & e' & [= <-] & [= <-] & H1 & H2) H3]. auto.
  - split; [discriminate |]. intros [(s' & e' & _ & He & _) _]. discriminate He.
  - split; [discriminate |]. intros [(s' & e' & Hs & _) _]. discriminate Hs.
Qed.

(** The loop body of lines 110-135, when it raises nothing: a node for a
    well-timed program, nothing for any other. *)
Lemma emit_program_Ok (cid p : pyval) (nodes : list element) :
  emit_program cid p = Ok nodes ->
  nodes = if well_timed p then [programme_of cid p] else [].
Proof.
  destruct p as [| | | | | | d]; try discriminate.
  unfold emit_program, well_timed, programme_of, start_of, end_of,
    int_or_zero, validate_program_times.
  cbn [py_get bind start_raw end_raw].
  set (sraw := dict_get d "s" (PInt 0)).
  set (eraw := dict_get d "e" (PInt 0)).
  destruct (py_int sraw) as [s | xs] eqn:Es.
  2:{ destruct xs; simpl; intros H; try discriminate H. now injection H as <-. }
  destruct (py_int eraw) as [e | xe] eqn:Ee.
  2:{ destruct xe; simpl; intros H; try discriminate H. now injection H as <-. }
  cbn [bind catch].
  destruct (0 <? s) eqn:E1; [| simpl; now intros [= <-]].
  destruct (s <? e) eqn:E2; [| simpl; now intros [= <-]].
  cbn [andb negb]. intros H.
  inv_bind H. rename a into start_time. inv_bind H. rename a into end_time.
  apply Z.ltb_lt in E1, E2.
  destruct (format_timestamp_Ok _ _ _ Es Hbind) as [[Hs ->] | [Hs ->]];
    destruct (format_timestamp_Ok _ _ _ Ee Hbind0) as [[He ->] | [He ->]].
  - rewrite !nonempty_timestamp_attr in H. cbn [andb] in H.
    replace (e <=? max_timestamp) with true by (symmetry; apply Z.leb_le; lia).
    now injection H as <-.
  - rewrite nonempty_timestamp_attr in H. cbn [andb nonempty] in H.
    replace (e <=? max_timestamp) with false
      by (symmetry; apply Z.leb_gt; unfold min_timestamp in *; lia).
    now injection H as <-.
  - cbn [andb nonempty] in H.
    replace (e <=? max_timestamp) with false
      by (symmetry; apply Z.leb_gt; unfold min_timestamp in *; lia).
    now injection H as <-.
  - cbn [andb nonempty] in H.
    replace (e <=? max_timestamp) with false
      by (symmetry; apply Z.leb_gt; unfold min_timestamp in *; lia).
    now injection H as <-.
Qed.

Lemma emit_programs_Ok (cid : pyval) (ps : list pyval) (nodes : list element) :
  emit_programs cid ps = Ok nodes ->
  nodes = map (programme_of cid) (filter well_timed ps).
Proof.
  revert nodes. induction ps as [| p ps IH]; intros nodes; simpl.
  - now intros [= <-].
  - intros H. inv_bind H. inv_bind H. injection H as <-.
    rewrite (emit_program_Ok _ _ _ Hbind), (IH _ Hbind0).
    now destruct (well_timed p).
Qed.

(** ** The sort *)

Lemma insert_by_key_perm (x : Z * pyval) (l : list (Z * pyval)) :
  Permutation (insert_by_key x l) (x :: l).
Proof.
  induction l as [| y l IH]; simpl; [apply Permutation_refl |].
  destruct (fst x <=? fst y); [apply Permutation_refl |].
  apply Permutation_trans with (y :: x :: l);
    [now apply perm_skip | apply perm_swap].
Qed.

Lemma stable_sort_perm (l : list (Z * pyval)) : Permutation (stable_sort l) l.
Proof.
  induction l as [| x l IH]; simpl; [apply perm_nil |].
  apply Permutation_trans with (x :: stable_sort l);
    [apply insert_by_key_perm | now apply perm_skip].
Qed.

Lemma insert_by_key_sorted (x : Z * pyval) (l : list (Z * pyval)) :
  Sorted key_le l -> Sorted key_le (insert_by_key x l).
Proof.
  induction l as [| y l IH]; intros Hs; simpl.
  - repeat constructor.
  - destruct (fst x <=? fst y) eqn:E.
    + constructor; [exact Hs |]. constructor. apply Z.leb_le. exact E.
    + apply Z.leb_gt in E. inversion Hs as [| ? ? Hl Hy]; subst.
      constructor; [now apply IH |].
      destruct l as [| z l]; simpl.
      * constructor. unfold key_le. lia.
      * destruct (fst x <=? fst z).
        -- constructor. unfold key_le. lia.
        -- constructor. now inversion Hy.
Qed.

Lemma stable_sort_sorted (l : list (Z * pyval)) :
  StronglySorted key_le (stable_sort l).
Proof.
  apply Sorted_StronglySorted.
  - intros a b c. unfold key_le. lia.
  - induction l as [| x l IH]; simpl; [constructor |].
    now apply insert_by_key_sorted.
Qed.

(** Items with equal keys keep their order: the sort is stable. *)
Lemma insert_by_key_filter (k : Z) (x : Z * pyval) (l : list (Z * pyval)) :
  Sorted key_le l ->
  filter (fun y => fst y =? k) (insert_by_key x l)
  = filter (fun y => fst y =? k) (x :: l).
Proof.
  induction l as [| y l IH]; intros Hs; [reflexivity |].
  cbn [insert_by_key]. destruct (fst x <=? fst y) eqn:E; [reflexivity |].
  apply Z.leb_gt in E. inversion Hs as [| ? ? Hl Hy]; subst.
  cbn [filter] in *. rewrite (IH Hl).
  destruct (fst y =? k) eqn:Ey; destruct (fst x =? k) eqn:Ex; try reflexivity.
  apply Z.eqb_eq in Ey, Ex. lia.
Qed.

Lemma stable_sort_stable (k : Z) (l : list (Z * pyval)) :
  filter (fun y => fst y =? k) (stable_sort l) = filter (fun y => fst y =? k) l.
Proof.
  induction l as [| x l IH]; [reflexivity |].
  cbn [stable_sort]. rewrite insert_by_key_filter.
  - cbn [filter]. now rewrite IH.
  - apply StronglySorted_Sorted, stable_sort_sorted.
Qed.

Lemma sort_key_start_of (x : pyval) (k : Z) :
  sort_key x = Ok k -> start_of x = k.
Proof.
  destruct x; try discriminate. unfold sort_key, start_of, int_or_zero.
  cbn [py_get bind start_raw]. now intros ->.
Qed.

Lemma mapM_keyed (l : list pyval) (keyed : list (Z * pyval)) :
  mapM (fun x => k <- sort_key x ;; Ok (k, x)) l = Ok keyed ->
  map snd keyed = l /\ Forall (fun kx => start_of (snd kx) = fst kx) keyed.
Proof.
  revert keyed. induction l as [| x l IH]; intros keyed; simpl.
  - intros [= <-]. split; [reflexivity | constructor].
  - intros H. inv_bind H. inv_bind H. injection H as <-.
    inv_bind Hbind. injection Hbind as <-.
    destruct (IH _ Hbind0) as [Hm Hf].
    split; [simpl; now rewrite Hm |].
    constructor; [now apply sort_key_start_of | exact Hf].
Qed.

Lemma sorted_by_start (keyed : list (Z * pyval)) :
  Forall (fun kx => start_of (snd kx) = fst kx) keyed ->
  StronglySorted key_le keyed ->
  StronglySorted start_le (map snd keyed).
Proof.
  intros Hf Hs. induction Hs as [| a l Hs IH Hall]; simpl; [constructor |].
  inversion Hf as [| ? ? Ha Hl]; subst.
  constructor; [now apply IH |].
  rewrite Forall_map. rewrite Forall_forall in *.
  intros b Hb. unfold start_le. rewrite Ha, (Hl b Hb). now apply Hall.
Qed.

(** What line 107 leaves in the list: the same programs, in non-decreasing
    order of their start. *)
Lemma sort_programs_Ok (programs : pyval) (sorted : list pyval) :
  sort_programs programs = Ok sorted ->
  exists l, programs = PList l /\ Permutation sorted l
            /\ StronglySorted start_le sorted.
Proof.
  destruct programs as [| | | | | l |]; try discriminate.
  simpl. intros H. inv_bind H. injection H as <-. rename a into keyed.
  destruct (mapM_keyed _ _ Hbind) as [Hm Hf].
  exists l. split; [reflexivity |]. split.
  - rewrite <- Hm. apply Permutation_map, stable_sort_perm.
  - apply sorted_by_start; [| apply stable_sort_sorted].
    rewrite Forall_forall in *. intros kx Hin. apply Hf.
    now apply (Permutation_in _ (stable_sort_perm keyed)).
Qed.

(** ** One entry, one bundle, one day *)

Lemma process_channel_step (idx : channel_index) (st st' : state) (ch : pyval) :
  process_channel idx st ch = Ok st' ->
  exists nodes,
    entry_step idx (processed_channels st) ch nodes (processed_channels st')
    /\ tv st' = tv st ++ nodes /\ printed st' = printed st.
Proof.
  destruct ch as [| | | | | | d]; try discriminate.
  unfold process_channel. cbn [py_get bind].
  set (cid := dict_get d "i" (PStr "unknown_id")).
  set (cname := dict_get d "n" (PStr "unknown_name")).
  intros H. inv_bind H. rename a into seen. inv_bind H. rename a into sorted.
  inv_bind H. rename a into nodes. injection H as <-.
  unfold set_contains in Hbind.
  destruct (hashable cid) eqn:Hh; [| discriminate]. injection Hbind as Hseen.
  destruct (sort_programs_Ok _ _ Hbind0) as (l & Hl & Hperm & Hsorted).
  assert (Hprogs : programs_of (PDict d) = l) by (simpl; now rewrite Hl).
  apply emit_programs_Ok in Hbind1. subst nodes.
  destruct seen; cbn [processed_channels tv printed].
  - eexists. split; [| split; reflexivity].
    apply (step_seen idx _ (PDict d) sorted);
      [now rewrite Hprogs | exact Hsorted | exact Hh | now symmetry].
  - eexists. split; [| split; [| reflexivity]].
    + apply (step_new idx _ (PDict d) sorted);
        [now rewrite Hprogs | exact Hsorted | exact Hh | now symmetry].
    + now rewrite <- app_assoc.
Qed.

Lemma process_channels_steps (idx : channel_index) (chs : list pyval)
    (st st' : state) :
  process_channels idx st chs = Ok st' ->
  exists nodes,
    entries_steps idx (processed_channels st) chs nodes (processed_channels st')
    /\ tv st' = tv st ++ nodes /\ printed st' = printed st.
Proof.
  revert st. induction chs as [| ch chs IH]; intros st; simpl.
  - intros [= <-]. exists []. split; [constructor |].
    now rewrite app_nil_r.
  - intros H. inv_bind H. rename a into st1.
    destruct (process_channel_step _ _ _ _ Hbind) as (n1 & Hs1 & Ht1 & Hp1).
    destruct (IH _ H) as (n2 & Hs2 & Ht2 & Hp2).
    exists (n1 ++ n2). split; [econstructor; eassumption |].
    split; [now rewrite Ht2, Ht1, app_assoc | congruence].
Qed.

Lemma entries_steps_app (idx : channel_index) (s0 s1 s2 : list pyval)
    (l1 l2 : list pyval) (n1 n2 : list element) :
  entries_steps idx s0 l1 n1 s1 -> entries_steps idx s1 l2 n2 s2 ->
  entries_steps idx s0 (l1 ++ l2) (n1 ++ n2) s2.
Proof.
  intros H1 H2. induction H1 as [| ? ? ? ? ? ? ? Hstep Hrest IH]; [exact H2 |].
  simpl. rewrite <- app_assoc. econstructor; [exact Hstep | now apply IH].
Qed.

(** A day either fails to fetch, and then only prints, or is fetched and
    processed entry by entry. *)
Lemma process_day_Ok (idx : channel_index) (st st' : state) (api_url : string)
    (reply : http_reply) :
  process_day idx st api_url reply = Ok st' ->
  (exists data chs, fetch_json reply = Ok data /\ py_iter data = Ok chs
                    /\ process_channels idx st chs = Ok st')
  \/ (exists e, fetch_json reply = Raise e
                /\ st' = with_printed
                           (printed st ++ [FailedFetch api_url RequestException]) st).
Proof.
  unfold process_day.
  destruct (fetch_json reply) as [data | e] eqn:Ef.
  - cbn [bind]. destruct (py_iter data) as [chs | e] eqn:Ei.
    + cbn [bind]. pose proof (plain_process_channels idx chs st) as Hplain.
      destruct (process_channels idx st chs) as [s | e] eqn:Ep.
      * simpl. intros [= <-]. left. now exists data, chs.
      * destruct e; simpl; try discriminate. now elim Hplain.
    + pose proof (plain_py_iter data) as Hplain. rewrite Ei in Hplain.
      destruct e; simpl; try discriminate. now elim Hplain.
  - rewrite (fetch_json_raises _ _ Ef). simpl. intros [= <-].
    right. exists RequestException. split; reflexivity.
Qed.

Lemma process_days_steps (idx : channel_index) (days : list (string * http_reply))
    (st st' : state) :
  process_days idx st days = Ok st' ->
  exists nodes,
    entries_steps idx (processed_channels st) (fetched_entries (map snd days))
      nodes (processed_channels st')
    /\ tv st' = tv st ++ nodes
    /\ printed st' = printed st ++ day_messages days.
Proof.
  revert st. induction days as [| [api_url reply] days IH]; intros st.
  - simpl. intros [= <-]. exists []. split; [constructor |].
    now rewrite !app_nil_r.
  - cbn [process_days]. intros H. inv_bind H. rename a into st1.
    destruct (IH _ H) as (n2 & Hs2 & Ht2 & Hp2).
    cbn [map snd fetched_entries flat_map day_messages fst].
    fold (fetched_entries (map snd days)). fold (day_messages days).
    destruct (process_day_Ok _ _ _ _ _ Hbind)
      as [(data & chs & Hf & Hi & Hp) | (e & Hf & ->)].
    + rewrite Hf, Hi.
      destruct (process_channels_steps _ _ _ _ Hp) as (n1 & Hs1 & Ht1 & Hp1).
      exists (n1 ++ n2). split; [eapply entries_steps_app; eassumption |].
      split; [now rewrite Ht2, Ht1, app_assoc |].
      rewrite Hp2, Hp1. reflexivity.
    + rewrite Hf. cbn [with_printed processed_channels tv printed] in *.
      exists n2. split; [exact Hs2 |]. split; [exact Ht2 |].
      rewrite Hp2. now rewrite <- app_assoc.
Qed.

(** ** Nodes and ids *)

Lemma key_eq_str (c : string) (v : pyval) :
  key_eq (PStr c) v = true <-> v = PStr c.
Proof.
  destruct v; simpl; try (split; discriminate).
  rewrite String.eqb_eq. split; [now intros -> | now intros [= ->]].
Qed.

Lemma key_eq_str_r (c : string) (v : pyval) :
  key_eq v (PStr c) = true <-> v = PStr c.
Proof.
  destruct v; simpl; try (split; discriminate).
  rewrite String.eqb_eq. split; [now intros -> | now intros [= ->]].
Qed.

Lemma channel_ids_app (l1 l2 : list element) :
  channel_ids (l1 ++ l2) = channel_ids l1 ++ channel_ids l2.
Proof. unfold channel_ids. now rewrite filter_app, map_app. Qed.

Lemma occurrences_app (c : string) (l1 l2 : list pyval) :
  occurrences c (l1 ++ l2) = (occurrences c l1 + occurrences c l2)%nat.
Proof. unfold occurrences. now rewrite filter_app, length_app. Qed.

Lemma occurrences_In (c : string) (l : list pyval) :
  In (PStr c) l -> (1 <= occurrences c l)%nat.
Proof.
  intros Hin. unfold occurrences.
  assert (H : In (PStr c) (filter (key_eq (PStr c)) l)).
  { apply filter_In. split; [exact Hin | now apply key_eq_str]. }
  destruct (filter (key_eq (PStr c)) l); [destruct H | simpl; lia].
Qed.

Lemma occurrences_unseen (c : string) (seen : list pyval) :
  existsb (key_eq (PStr c)) seen = false -> occurrences c seen = 0%nat.
Proof.
  unfold occurrences. induction seen as [| v seen IH]; simpl; [reflexivity |].
  intros H. apply orb_false_iff in H as [Hv Hs]. rewrite Hv. now apply IH.
Qed.

Lemma channel_nodes_with_id_length (c : string) (nodes : list element) :
  List.length (channel_nodes_with_id c (tv_element nodes))
  = occurrences c (channel_ids nodes).
Proof.
  unfold channel_nodes_with_id, occurrences, channel_ids.
  cbn [tv_element children_of].
  induction nodes as [| e nodes IH]; [reflexivity |].
  cbn [filter]. destruct (is_channel e); cbn [andb map filter]; [| exact IH].
  destruct (key_eq (PStr c) (attr e "id")); cbn [List.length]; now rewrite IH.
Qed.

Lemma dict_get_default (d : list (string * pyval)) (k : string) (v : pyval) :
  has_key d k = false -> dict_get d k v = v.
Proof.
  induction d as [| [k' v'] d IH]; simpl; [reflexivity |].
  intros H. apply orb_false_iff in H as [Hk Hd]. rewrite Hk. now apply IH.
Qed.

Lemma channel_element_is_channel (idx : channel_index) (cid cname : pyval) :
  is_channel (channel_element idx cid cname) = true
  /\ is_programme (channel_element idx cid cname) = false
  /\ attr (channel_element idx cid cname) "id" = cid.
Proof.
  unfold channel_element. now destruct (index_lookup idx cid).
Qed.

(** A value that went into the set and that the serialiser writes as an
    attribute is a str. *)
Lemma hashable_writable (v : pyval) :
  hashable v = true -> attribute_writable v = true -> is_str v = true.
Proof. now destruct v. Qed.

Lemma channel_element_serializable (idx : channel_index) (cid cname : pyval) :
  serializable (channel_element idx cid cname) = true ->
  hashable cid = true -> is_str cid = true.
Proof.
  intros Hs Hh. apply hashable_writable; [exact Hh |]. revert Hs.
  unfold channel_element.
  destruct (index_lookup idx cid); cbn [serializable forallb snd];
    rewrite !andb_true_iff; tauto.
Qed.

Lemma programme_of_is_programme (cid p : pyval) :
  is_programme (programme_of cid p) = true
  /\ is_channel (programme_of cid p) = false.
Proof. now destruct p. Qed.

Lemma programme_of_channel (cid : pyval) (d : list (string * pyval)) :
  attr (programme_of cid (PDict d)) "channel" = cid.
Proof. reflexivity. Qed.

Lemma channel_ids_programme_nodes (ch : pyval) (sorted : list pyval) :
  channel_ids (programme_nodes ch sorted) = [].
Proof.
  unfold channel_ids, programme_nodes.
  induction (filter well_timed sorted) as [| p l IH]; simpl; [reflexivity |].
  destruct (programme_of_is_programme (channel_id_of ch) p) as [_ ->].
  exact IH.
Qed.

Lemma entry_step_ids (idx : channel_index) (seen seen' : list pyval)
    (ch : pyval) (nodes : list element) :
  entry_step idx seen ch nodes seen' -> seen' = seen ++ channel_ids nodes.
Proof.
  intros [sorted _ _ _ _ | sorted _ _ _ _].
  - now rewrite channel_ids_programme_nodes, app_nil_r.
  - change (channel_element idx (channel_id_of ch) (channel_name_of ch)
            :: programme_nodes ch sorted)
      with ([channel_element idx (channel_id_of ch) (channel_name_of ch)]
            ++ programme_nodes ch sorted).
    rewrite channel_ids_app, channel_ids_programme_nodes, app_nil_r.
    unfold channel_ids. simpl.
    destruct (channel_element_is_channel idx (channel_id_of ch)
                (channel_name_of ch)) as (-> & _ & Hid).
    simpl. now rewrite Hid.
Qed.

(** The set of ids is, at every moment, the list of the ids of the channel
    nodes already in the document. *)
Lemma steps_ids (idx : channel_index) (s0 s1 : list pyval) (chs : list pyval)
    (nodes : list element) :
  entries_steps idx s0 chs nodes s1 -> s1 = s0 ++ channel_ids nodes.
Proof.
  induction 1 as [seen | seen seen1 seen2 ch chs nodes rest Hstep _ IH].
  - now rewrite app_nil_r.
  - rewrite IH, (entry_step_ids _ _ _ _ _ Hstep), channel_ids_app.
    now rewrite app_assoc.
Qed.

(** Every entry met has its id in the set afterwards: the id itself, or a
    member the set takes for equal. *)
Lemma steps_cover (idx : channel_index) (s0 s1 : list pyval) (chs : list pyval)
    (nodes : list element) :
  entries_steps idx s0 chs nodes s1 ->
  forall ch, In ch chs ->
    exists v, In v s1 /\ (v = channel_id_of ch \/ key_eq (channel_id_of ch) v = true).
Proof.
  induction 1 as [seen | seen seen1 seen2 ch0 chs nodes rest Hstep Hrest IH];
    intros ch Hin; [destruct Hin |].
  destruct Hin as [-> | Hin]; [| now apply IH].
  assert (Hgrow : forall v, In v seen1 -> In v seen2).
  { intros v Hv. rewrite (steps_ids _ _ _ _ _ Hrest). apply in_or_app. now left. }
  inversion Hstep as [sorted _ _ _ Hseen | sorted _ _ _ Hseen]; subst.
  - apply existsb_exists in Hseen as (v & Hv & Heq).
    exists v. split; [now apply Hgrow | now right].
  - exists (channel_id_of ch). split; [| now left].
    apply Hgrow. apply in_or_app. right. now left.
Qed.

(** Every entry's id went through the set test. *)
Lemma steps_hashable (idx : channel_index) (s0 s1 : list pyval) (chs : list pyval)
    (nodes : list element) :
  entries_steps idx s0 chs nodes s1 ->
  forall ch, In ch chs -> hashable (channel_id_of ch) = true.
Proof.
  induction 1 as [seen | seen seen1 seen2 ch0 chs nodes rest Hstep Hrest IH];
    intros ch Hin; [destruct Hin |].
  destruct Hin as [-> | Hin]; [| now apply IH].
  now destruct Hstep.
Qed.

(** No string id enters the set twice. *)
Lemma steps_unique (idx : channel_index) (s0 s1 : list pyval) (chs : list pyval)
    (nodes : list element) :
  entries_steps idx s0 chs nodes s1 ->
  (forall c, (occurrences c s0 <= 1)%nat) ->
  forall c, (occurrences c s1 <= 1)%nat.
Proof.
  induction 1 as [seen | seen seen1 seen2 ch chs nodes rest Hstep _ IH];
    intros H0; [exact H0 |].
  apply IH. intros c.
  inversion Hstep as [sorted _ _ _ Hseen | sorted _ _ _ Hseen]; subst; [apply H0 |].
  rewrite occurrences_app. unfold occurrences at 2. cbn [filter].
  destruct (key_eq (PStr c) (channel_id_of ch)) eqn:E; cbn [List.length].
  - apply key_eq_str in E. rewrite E in Hseen.
    rewrite (occurrences_unseen _ _ Hseen). lia.
  - specialize (H0 c). lia.
Qed.

(** The programme nodes of one entry stand together in the document, in
    the order the sort left its programs in. *)
Lemma steps_segment (idx : channel_index) (s0 s1 : list pyval) (chs : list pyval)
    (nodes : list element) :
  entries_steps idx s0 chs nodes s1 ->
  forall ch, In ch chs ->
    exists pre sorted post,
      nodes = pre ++ programme_nodes ch sorted ++ post
      /\ Permutation sorted (programs_of ch)
      /\ StronglySorted start_le sorted.
Proof.
  induction 1 as [seen | seen seen1 seen2 ch0 chs nodes rest Hstep _ IH];
    intros ch Hin; [destruct Hin |].
  destruct Hin as [-> | Hin].
  - inversion Hstep as [sorted Hp Hs _ _ | sorted Hp Hs _ _]; subst.
    + exists [], sorted, rest. auto.
    + exists [channel_element idx (channel_id_of ch) (channel_name_of ch)],
        sorted, rest. auto.
  - destruct (IH ch Hin) as (pre & sorted & post & -> & Hp & Hs).
    exists (nodes ++ pre), sorted, post. split; [| auto].
    now rewrite <- app_assoc.
Qed.

Lemma entry_step_origin (idx : channel_index) (seen seen' : list pyval)
    (ch : pyval) (nodes : list element) :
  entry_step idx seen ch nodes seen' ->
  forall node, In node nodes ->
    (is_channel node = true /\ is_programme node = false
     /\ node = channel_element idx (channel_id_of ch) (channel_name_of ch))
    \/ (is_programme node = true /\ is_channel node = false
        /\ exists p, In p (programs_of ch) /\ well_timed p = true
                     /\ node = programme_of (channel_id_of ch) p).
Proof.
  assert (Hprog : forall sorted node,
             Permutation sorted (programs_of ch) ->
             In node (programme_nodes ch sorted) ->
             is_programme node = true /\ is_channel node = false
             /\ exists p, In p (programs_of ch) /\ well_timed p = true
                          /\ node = programme_of (channel_id_of ch) p).
  { intros sorted node Hp Hin. unfold programme_nodes in Hin.
    apply in_map_iff in Hin as (p & <- & Hin).
    apply filter_In in Hin as [Hin Hw].
    destruct (programme_of_is_programme (channel_id_of ch) p) as [H1 H2].
    repeat split; try assumption.
    exists p. split; [now apply (Permutation_in _ Hp) | auto]. }
  intros [sorted Hp _ _ _ | sorted Hp _ _ _] node Hin.
  - right. now apply (Hprog sorted).
  - destruct Hin as [<- | Hin]; [| right; now apply (Hprog sorted)].
    left.
    destruct (channel_element_is_channel idx (channel_id_of ch)
                (channel_name_of ch)) as (H1 & H2 & _).
    auto.
Qed.

(** Where every node of the document comes from. *)
Lemma steps_origin (idx : channel_index) (s0 s1 : list pyval) (chs : list pyval)
    (nodes : list element) :
  entries_steps idx s0 chs nodes s1 ->
  forall node, In node nodes ->
    exists ch, In ch chs /\
      ((is_channel node = true /\ is_programme node = false
        /\ node = channel_element idx (channel_id_of ch) (channel_name_of ch))
       \/ (is_programme node = true /\ is_channel node = false
           /\ exists p, In p (programs_of ch) /\ well_timed p = true
                        /\ node = programme_of (channel_id_of ch) p)).
Proof.
  induction 1 as [seen | seen seen1 seen2 ch0 chs nodes rest Hstep _ IH];
    intros node Hin; [destruct Hin |].
  apply in_app_or in Hin as [Hin | Hin].
  - exists ch0. split; [now left |].
    exact (entry_step_origin _ _ _ _ _ Hstep node Hin).
  - destruct (IH node Hin) as (ch & Hch & H).
    exists ch. split; [now right | exact H].
Qed.

(** Every well-timed program of an entry met has its node in the
    document. *)
Lemma steps_emitted (idx : channel_index) (s0 s1 : list pyval) (chs : list pyval)
    (nodes : list element) :
  entries_steps idx s0 chs nodes s1 ->
  forall ch p, In ch chs -> In p (programs_of ch) -> well_timed p = true ->
    In (programme_of (channel_id_of ch) p) nodes.
Proof.
  intros Hsteps ch p Hch Hp Hw.
  destruct (steps_segment _ _ _ _ _ Hsteps ch Hch)
    as (pre & sorted & post & -> & Hperm & _).
  apply in_or_app. right. apply in_or_app. left.
  unfold programme_nodes. apply in_map. apply filter_In. split; [| exact Hw].
  now apply (Permutation_in _ (Permutation_sym Hperm)).
Qed.

(** ** The whole run *)

Lemma mapM_length {A B : Type} (f : A -> result B) (l : list A) (r : list B) :
  mapM f l = Ok r -> List.length r = List.length l.
Proof.
  revert r. induction l as [| a l IH]; intros r; simpl.
  - now intros [= <-].
  - intros H. inv_bind H. inv_bind H. injection H as <-. simpl.
    now rewrite (IH _ Hbind0).
Qed.

Lemma map_snd_combine {A B : Type} (l1 : list A) (l2 : list B) :
  List.length l1 = List.length l2 -> map snd (combine l1 l2) = l2.
Proof.
  revert l2. induction l1 as [| a l1 IH]; intros [| b l2]; simpl;
    try discriminate; [reflexivity |].
  intros [= H]. now rewrite IH.
Qed.

Lemma assemble_Ok (idx : channel_index) (p0 : list message)
    (days : list (string * http_reply)) (root : element) (out : list message) :
  assemble idx p0 days = Ok (root, out) ->
  exists nodes seen,
    entries_steps idx [] (fetched_entries (map snd days)) nodes seen
    /\ root = tv_element nodes
    /\ forallb serializable nodes = true
    /\ out = p0 ++ day_messages days ++ [Saved].
Proof.
  unfold assemble. intros H. inv_bind H. rename a into st.
  destruct (process_days_steps _ _ _ _ Hbind) as (nodes & Hsteps & Htv & Hpr).
  cbn [initial_state processed_channels tv printed] in *.
  unfold tostring in H.
  destruct (serializable (tv_element (tv st))) eqn:Es; [| discriminate].
  cbn [bind] in H. injection H as <- <-.
  exists nodes, (processed_channels st). rewrite Htv, Hpr. simpl.
  split; [exact Hsteps |]. split; [reflexivity |].
  split; [| now rewrite <- app_assoc].
  rewrite Htv in Es. exact Es.
Qed.

(** A run that writes the file has read the clock, fetched what it could
    of the three days and stepped through the entries; the document is the
    list of nodes these steps appended. *)
Lemma main_Written (clock : nat -> Z) (meta : http_reply)
    (replies : nat -> http_reply) (root : element) (out : list message) :
  main clock meta replies = Written root out ->
  exists urls nodes seen,
    get_api_urls clock = Ok urls
    /\ entries_steps (fst (get_channel_info meta)) []
         (fetched_entries [replies 0%nat; replies 1%nat; replies 2%nat])
         nodes seen
    /\ root = tv_element nodes
    /\ forallb serializable nodes = true
    /\ out = snd (get_channel_info meta)
             ++ day_messages (combine urls [replies 0%nat; replies 1%nat; replies 2%nat])
             ++ [Saved].
Proof.
  unfold main. destruct (get_channel_info meta) as [idx p0]. cbn [fst snd].
  destruct (get_api_urls clock) as [urls | e] eqn:Eu; [| discriminate].
  cbn [bind outcome_of].
  destruct (assemble idx p0 _) as [[root' out'] | e] eqn:Ea; [| discriminate].
  intros [= <- <-].
  destruct (assemble_Ok _ _ _ _ _ Ea) as (nodes & seen & Hs & Hr & Hser & Ho).
  rewrite map_snd_combine in Hs
    by (unfold get_api_urls in Eu; now rewrite (mapM_length _ _ _ Eu)).
  exists urls, nodes, seen. auto.
Qed.

(** The facts about the channel nodes of a written document that the
    claims on ids share. *)
Lemma channel_nodes_of_run (idx : channel_index) (chs : list pyval)
    (nodes : list element) (seen : list pyval) :
  entries_steps idx [] chs nodes seen ->
  forallb serializable nodes = true ->
  (forall node, In node nodes -> is_channel node = true ->
     exists c, attr node "id" = PStr c)
  /\ (forall c, (List.length (channel_nodes_with_id c (tv_element nodes)) <= 1)%nat)
  /\ (forall ch, In ch chs ->
        exists c, channel_id_of ch = PStr c
          /\ List.length (channel_nodes_with_id c (tv_element nodes)) = 1%nat).
Proof.
  intros Hsteps Hser.
  assert (Hstr : forall node, In node nodes -> is_channel node = true ->
                   exists c, attr node "id" = PStr c).
  { intros node Hin Hch.
    destruct (steps_origin _ _ _ _ _ Hsteps node Hin)
      as (ch & Hc & [(_ & _ & Hn) | (_ & Hn & _)]); [| congruence].
    rewrite forallb_forall in Hser. specialize (Hser node Hin).
    rewrite Hn in Hser.
    apply channel_element_serializable in Hser;
      [| exact (steps_hashable _ _ _ _ _ Hsteps ch Hc)].
    rewrite Hn.
    destruct (channel_element_is_channel idx (channel_id_of ch)
                (channel_name_of ch)) as (_ & _ & ->).
    destruct (channel_id_of ch); try discriminate. now eexists. }
  pose proof (steps_ids _ _ _ _ _ Hsteps) as Hids. simpl in Hids.
  assert (Huniq : forall c, (occurrences c (channel_ids nodes) <= 1)%nat).
  { rewrite <- Hids. apply (steps_unique _ _ _ _ _ Hsteps).
    intros c. unfold occurrences. simpl. lia. }
  split; [exact Hstr |]. split.
  - intros c. rewrite channel_nodes_with_id_length. apply Huniq.
  - intros ch Hin.
    destruct (steps_cover _ _ _ _ _ Hsteps ch Hin) as (v & Hv & Hveq).
    rewrite Hids in Hv. unfold channel_ids in Hv.
    apply in_map_iff in Hv as (node & Hnode & Hin').
    apply filter_In in Hin' as [Hin' Hch].
    destruct (Hstr node Hin' Hch) as (c & Hc).
    rewrite Hc in Hnode. subst v.
    assert (Hid : channel_id_of ch = PStr c).
    { destruct Hveq as [H | H]; [now symmetry | now apply key_eq_str_r]. }
    exists c. split; [exact Hid |].
    rewrite channel_nodes_with_id_length.
    specialize (Huniq c).
    assert (1 <= occurrences c (channel_ids nodes))%nat; [| lia].
    apply occurrences_In. unfold channel_ids. apply in_map_iff.
    exists node. split; [exact Hc |]. apply filter_In. auto.
Qed.

(** ** Filtering a sorted list *)

Lemma Permutation_filter {A : Type} (f : A -> bool) (l1 l2 : list A) :
  Permutation l1 l2 -> Permutation (filter f l1) (filter f l2).
Proof.
  induction 1 as [| x l1 l2 _ IH | x y l | l1 l2 l3 _ IH1 _ IH2]; simpl.
  - apply perm_nil.
  - destruct (f x); [now apply perm_skip | exact IH].
  - destruct (f x), (f y); try apply Permutation_refl. apply perm_swap.
  - now apply Permutation_trans with (filter f l2).
Qed.

Lemma StronglySorted_filter {A : Type} (R : A -> A -> Prop) (f : A -> bool)
    (l : list A) :
  StronglySorted R l -> StronglySorted R (filter f l).
Proof.
  induction 1 as [| a l _ IH Hall]; simpl; [constructor |].
  destruct (f a); [| exact IH].
  constructor; [exact IH |].
  rewrite Forall_forall in *. intros x Hx. apply Hall.
  now apply filter_In in Hx as [Hx _].
Qed.

Lemma well_timed_dict (p : pyval) :
  well_timed p = true -> exists d, p = PDict d.
Proof. destruct p; try discriminate. now eexists. Qed.

(** ** What is printed does not steer the run *)

Lemma process_channel_printed (idx : channel_index) (p : list message)
    (st : state) (ch : pyval) :
  process_channel idx (with_printed p st) ch
  = rmap (with_printed p) (process_channel idx st ch).
Proof.
  unfold process_channel. cbn [with_printed processed_channels tv printed].
  destruct (py_get ch "i" (PStr "unknown_id")) as [cid | e]; [| reflexivity].
  cbn [bind]. destruct (py_get ch "n" (PStr "unknown_name")) as [cname | e];
    [| reflexivity].
  cbn [bind]. destruct (set_contains (processed_channels st) cid) as [seen | e];
    [| reflexivity].
  cbn [bind]. destruct (py_get ch "epg" (PList [])) as [programs | e];
    [| reflexivity].
  cbn [bind]. destruct (sort_programs programs) as [sorted | e]; [| reflexivity].
  cbn [bind]. destruct (emit_programs cid sorted) as [nodes | e]; [| reflexivity].
  cbn [bind rmap with_printed]. now destruct seen.
Qed.

Lemma process_channels_printed (idx : channel_index) (p : list message)
    (chs : list pyval) (st : state) :
  process_channels idx (with_printed p st) chs
  = rmap (with_printed p) (process_channels idx st chs).
Proof.
  revert st. induction chs as [| ch chs IH]; intros st; simpl.
  - reflexivity.
  - rewrite process_channel_printed.
    destruct (process_channel idx st ch) as [st1 | e]; simpl; [apply IH | reflexivity].
Qed.

Lemma same_document_refl (r : result state) : same_document r r.
Proof. destruct r; simpl; auto. Qed.

Lemma with_printed_eta (st st' : state) :
  processed_channels st = processed_channels st' -> tv st = tv st' ->
  st' = with_printed (printed st') st.
Proof. destruct st, st'; simpl. now intros -> ->. Qed.

Lemma process_day_same_document (idx : channel_index) (st st' : state)
    (api_url : string) (reply : http_reply) :
  processed_channels st = processed_channels st' -> tv st = tv st' ->
  same_document (process_day idx st api_url reply)
                (process_day idx st' api_url reply).
Proof.
  intros Hp Ht. rewrite (with_printed_eta st st' Hp Ht).
  unfold process_day. cbn [with_printed processed_channels tv printed].
  destruct (fetch_json reply) as [data | e]; cbn [bind].
  - destruct (py_iter data) as [chs | e]; cbn [bind].
    + rewrite process_channels_printed.
      destruct (process_channels idx st chs) as [s | e]; simpl; [auto |].
      now destruct e.
    + now destruct e.
  - now destruct e.
Qed.

Lemma process_days_same_document (idx : channel_index)
    (days : list (string * http_reply)) (st st' : state) :
  processed_channels st = processed_channels st' -> tv st = tv st' ->
  same_document (process_days idx st days) (process_days idx st' days).
Proof.
  revert st st'. induction days as [| [api_url reply] days IH];
    intros st st' Hp Ht; cbn [process_days].
  - simpl. auto.
  - pose proof (process_day_same_document idx st st' api_url reply Hp Ht) as Hd.
    destruct (process_day idx st api_url reply) as [s | e];
      destruct (process_day idx st' api_url reply) as [s' | e'];
      simpl in Hd; try contradiction.
    + destruct Hd as [Hp' Ht']. cbn [bind]. now apply IH.
    + subst e'. simpl. reflexivity.
Qed.

Lemma process_days_app (idx : channel_index) (l1 l2 : list (string * http_reply))
    (st : state) :
  process_days idx st (l1 ++ l2)
  = (s <- process_days idx st l1 ;; process_days idx s l2).
Proof.
  revert st. induction l1 as [| [api_url reply] l1 IH]; intros st; simpl.
  - reflexivity.
  - destruct (process_day idx st api_url reply) as [s | e]; simpl;
      [apply IH | reflexivity].
Qed.

Lemma fetch_failure_raises (reply : http_reply) :
  fetch_failure reply -> fetch_json reply = Raise RequestException.
Proof.
  intros [| status body Hs]; [reflexivity |].
  unfold fetch_json, raise_for_status.
  replace (400 <=? status) with true by (symmetry; apply Z.leb_le; lia).
  replace (status <? 600) with true by (symmetry; apply Z.ltb_lt; lia).
  reflexivity.
Qed.

Lemma day_messages_app (l1 l2 : list (string * http_reply)) :
  day_messages (l1 ++ l2) = day_messages l1 ++ day_messages l2.
Proof. unfold day_messages. apply flat_map_app. Qed.

(** ** The metadata fetch *)

Lemma add_channel_ill_formed (d : channel_index) (ch : pyval) :
  well_formed_record ch = false -> exists e, add_channel d ch = Raise e.
Proof.
  destruct ch as [| | | | | | r]; try (intros _; now eexists).
  unfold well_formed_record, add_channel, py_getitem.
  destruct (has_key r "name"); [| intros _; now eexists].
  destruct (has_key r "categoryName"); [| intros _; now eexists].
  destruct (has_key r "logo"); [| intros _; now eexists].
  destruct (has_key r "id"); [| intros _; now eexists].
  cbn [andb bind]. intros ->. now eexists.
Qed.

Lemma add_channels_ill_formed (l : list pyval) (ch : pyval) (d : channel_index) :
  In ch l -> well_formed_record ch = false ->
  exists e, add_channels d l = Raise e.
Proof.
  revert d. induction l as [| x l IH]; intros d Hin Hill; [destruct Hin |].
  simpl. destruct (add_channel d x) as [d' | e] eqn:E; [| now exists e].
  destruct Hin as [-> | Hin].
  - destruct (add_channel_ill_formed d ch Hill) as (e & He). congruence.
  - cbn [bind]. now apply IH.
Qed.

(** Each of the listed failures makes the body of the [try] raise. *)
Lemma metadata_failure_raises (meta : http_reply) :
  metadata_failure meta -> exists e, channel_info_body meta = Raise e.
Proof.
  intros [| status body Hs | status | status data Hd | status d e He
          | status d l ch Hl Hin Hill]; unfold channel_info_body.
  - now eexists.
  - rewrite (fetch_failure_raises _ (fetch_error_status status body Hs)).
    now eexists.
  - simpl. unfold raise_for_status. destruct (_ && _); now eexists.
  - simpl. unfold raise_for_status. destruct (_ && _); [now eexists |].
    cbn [bind]. destruct data; try (now eexists). now elim (Hd d).
  - simpl. unfold raise_for_status. destruct (_ && _); [now eexists |].
    cbn [bind py_get]. rewrite He. now eexists.
  - simpl. unfold raise_for_status. destruct (_ && _); [now eexists |].
    cbn [bind py_get]. rewrite Hl. cbn [bind].
    exact (add_channels_ill_formed l ch [] Hin Hill).
Qed.

(** C1.  In the document of a run that writes the file, every channel node
    has a string id, no two channel nodes have the same id, and every
    channel entry of a bundle that was fetched, on whichever of the three
    days and however often, has exactly one channel node with its id. *)
Theorem one_channel_node_per_id (clock : nat -> Z) (meta : http_reply)
    (replies : nat -> http_reply) (root : element) (out : list message) :
  main clock meta replies = Written root out ->
  (forall node, In node (children_of root) -> is_channel node = true ->
     exists c, attr node "id" = PStr c)
  /\ (forall c, (List.length (channel_nodes_with_id c root) <= 1)%nat)
  /\ (forall ch,
        In ch (fetched_entries [replies 0%nat; replies 1%nat; replies 2%nat]) ->
        exists c, channel_id_of ch = PStr c
          /\ List.length (channel_nodes_with_id c root) = 1%nat).
Proof.
  intros H.
  destruct (main_Written _ _ _ _ _ H)
    as (urls & nodes & seen & _ & Hsteps & -> & Hser & _).
  exact (channel_nodes_of_run _ _ _ _ Hsteps Hser).
Qed.

(** C2 (amended).  In a run that writes the file, a program record of a
    fetched bundle has its programme node in the document when its start and
    end convert with int(), 0 < start < end, and the end is no later than
    9999-12-31 23:59:59 UTC (so that both timestamps format); and every
    programme node of the document is the node of such a program. *)
Theorem programme_emitted_iff (clock : nat -> Z) (meta : http_reply)
    (replies : nat -> http_reply) (root : element) (out : list message) :
  main clock meta replies = Written root out ->
  (forall ch p,
     In ch (fetched_entries [replies 0%nat; replies 1%nat; replies 2%nat]) ->
     In p (programs_of ch) -> emitted_condition p ->
     In (programme_of (channel_id_of ch) p) (children_of root))
  /\ (forall node, In node (children_of root) -> is_programme node = true ->
        exists ch p,
          In ch (fetched_entries [replies 0%nat; replies 1%nat; replies 2%nat])
          /\ In p (programs_of ch) /\ emitted_condition p
          /\ node = programme_of (channel_id_of ch) p).
Proof.
  intros H.
  destruct (main_Written _ _ _ _ _ H)
    as (urls & nodes & seen & _ & Hsteps & -> & _ & _).
  cbn [tv_element children_of]. split.
  - intros ch p Hch Hp Hc. apply well_timed_iff in Hc.
    exact (steps_emitted _ _ _ _ _ Hsteps ch p Hch Hp Hc).
  - intros node Hin Hprog.
    destruct (steps_origin _ _ _ _ _ Hsteps node Hin)
      as (ch & Hch & [(_ & Hn & _) | (_ & _ & p & Hp & Hw & ->)]);
      [congruence |].
    exists ch, p. rewrite <- well_timed_iff. auto.
Qed.

(** C4 (amended).  In a run that writes the file, the programme nodes that
    one channel entry of one fetched bundle contributes stand together in
    the document, and they are in non-decreasing order of start time. *)
Theorem programmes_sorted_within_entry (clock : nat -> Z) (meta : http_reply)
    (replies : nat -> http_reply) (root : element) (out : list message)
    (ch : pyval) :
  main clock meta replies = Written root out ->
  In ch (fetched_entries [replies 0%nat; replies 1%nat; replies 2%nat]) ->
  exists pre kept post,
    children_of root = pre ++ map (programme_of (channel_id_of ch)) kept ++ post
    /\ Permutation kept (filter well_timed (programs_of ch))
    /\ StronglySorted start_le kept.
Proof.
  intros H Hch.
  destruct (main_Written _ _ _ _ _ H)
    as (urls & nodes & seen & _ & Hsteps & -> & _ & _).
  destruct (steps_segment _ _ _ _ _ Hsteps ch Hch)
    as (pre & sorted & post & -> & Hperm & Hsorted).
  exists pre, (filter well_timed sorted), post.
  split; [reflexivity |]. split.
  - now apply Permutation_filter.
  - now apply StronglySorted_filter.
Qed.

(** C10.  An entry without the key "i" takes the id "unknown_id".  In a
    run that writes the file the document has exactly one channel node with
    that id, whatever the number of such entries and of days, and the
    programme nodes of every such entry carry "unknown_id" as their
    channel. *)
Theorem unknown_id_is_shared (clock : nat -> Z) (meta : http_reply)
    (replies : nat -> http_reply) (root : element) (out : list message)
    (ch : pyval) :
  main clock meta replies = Written root out ->
  In ch (fetched_entries [replies 0%nat; replies 1%nat; replies 2%nat]) ->
  lacks_key ch "i" ->
  channel_id_of ch = PStr "unknown_id"
  /\ List.length (channel_nodes_with_id "unknown_id" root) = 1%nat
  /\ exists pre kept post,
       children_of root
       = pre ++ map (programme_of (PStr "unknown_id")) kept ++ post
       /\ Permutation kept (filter well_timed (programs_of ch))
       /\ Forall (fun node => attr node "channel" = PStr "unknown_id")
            (map (programme_of (PStr "unknown_id")) kept).
Proof.
  intros H Hch (d & -> & Hkey).
  assert (Hid : channel_id_of (PDict d) = PStr "unknown_id")
    by (simpl; now apply dict_get_default).
  destruct (main_Written _ _ _ _ _ H)
    as (urls & nodes & seen & _ & Hsteps & -> & Hser & _).
  split; [exact Hid |]. split.
  - destruct (channel_nodes_of_run _ _ _ _ Hsteps Hser) as (_ & _ & Hone).
    destruct (Hone _ Hch) as (c & Hc & Hlen).
    rewrite Hid in Hc. now injection Hc as <-.
  - destruct (steps_segment _ _ _ _ _ Hsteps _ Hch)
      as (pre & sorted & post & -> & Hperm & _).
    unfold programme_nodes. rewrite Hid.
    exists pre, (filter well_timed sorted), post.
    split; [reflexivity |]. split; [now apply Permutation_filter |].
    rewrite Forall_map, Forall_forall. intros p Hp.
    apply filter_In in Hp as [_ Hw].
    destruct (well_timed_dict p Hw) as (dp & ->). reflexivity.
Qed.

(** C8 (amended).  When the metadata fetch fails (no response, a 4xx or
    5xx status, a body that is not JSON, a document of another shape, a
    record with a field missing), get_channel_info raises nothing: it prints
    the failure and returns the empty dict.  The run goes on as with an empty
    index, and in the document it writes every channel node carries the id of
    a schedule entry and a single child, the display-name with the name that
    entry gave: no category and no icon. *)
Theorem metadata_failure_is_absorbed (clock : nat -> Z) (meta : http_reply)
    (replies : nat -> http_reply) :
  metadata_failure meta ->
  exists e,
    get_channel_info meta = ([], [FailedChannelInfo e])
    /\ main clock meta replies
       = outcome_of
           (urls <- get_api_urls clock ;;
            assemble [] [FailedChannelInfo e]
              (combine urls [replies 0%nat; replies 1%nat; replies 2%nat]))
    /\ forall root out,
         main clock meta replies = Written root out ->
         In (FailedChannelInfo e) out
         /\ forall node, In node (children_of root) -> is_channel node = true ->
              exists ch,
                In ch (fetched_entries
                         [replies 0%nat; replies 1%nat; replies 2%nat])
                /\ node = fallback_channel_element ch.
Proof.
  intros Hfail. destruct (metadata_failure_raises meta Hfail) as (e & He).
  assert (Hinfo : get_channel_info meta = ([], [FailedChannelInfo e]))
    by (unfold get_channel_info; now rewrite He).
  exists e. split; [exact Hinfo |]. split.
  - unfold main. now rewrite Hinfo.
  - intros root out H.
    destruct (main_Written _ _ _ _ _ H)
      as (urls & nodes & seen & _ & Hsteps & -> & _ & ->).
    rewrite Hinfo in *. cbn [fst snd] in *. split.
    + apply in_or_app. left. now left.
    + intros node Hin Hch.
      destruct (steps_origin _ _ _ _ _ Hsteps node Hin)
        as (ch & Hc & [(_ & _ & ->) | (_ & Hn & _)]); [| congruence].
      now exists ch.
Qed.

(** C7 (amended).  A day whose request gets no response, or a response with
    a 4xx or 5xx status, is printed as failed and adds nothing: the run ends
    as the run over the other days does, with the same document when it
    writes one and with the same exception otherwise.  Each URL stands in
    the list of days with the single answer its one GET of line 78 got. *)
Theorem failed_day_is_skipped (idx : channel_index) (p0 : list message)
    (before after : list (string * http_reply)) (api_url : string)
    (reply : http_reply) :
  fetch_failure reply ->
  match assemble idx p0 (before ++ (api_url, reply) :: after),
        assemble idx p0 (before ++ after) with
  | Ok (root1, out1), Ok (root2, out2) =>
      root1 = root2 /\ In (FailedFetch api_url RequestException) out1
  | Raise e1, Raise e2 => e1 = e2
  | _, _ => False
  end.
Proof.
  intros Hfail. apply fetch_failure_raises in Hfail.
  unfold assemble. rewrite !process_days_app.
  destruct (process_days idx (initial_state p0) before) as [s | e] eqn:Eb;
    [| reflexivity].
  cbn [bind process_days]. unfold process_day at 1. rewrite Hfail.
  cbn [bind catch is_RequestException].
  set (s' := {| processed_channels := processed_channels s; tv := tv s;
                printed := printed s ++ [FailedFetch api_url RequestException] |}).
  pose proof (process_days_same_document idx after s' s eq_refl eq_refl) as Hsame.
  destruct (process_days idx s' after) as [s1 | e1] eqn:E1;
    destruct (process_days idx s after) as [s2 | e2];
    simpl in Hsame; try contradiction.
  - destruct Hsame as [_ Htv]. cbn [bind]. rewrite Htv. unfold tostring.
    destruct (serializable (tv_element (tv s2))); cbn [bind]; [| reflexivity].
    split; [reflexivity |].
    destruct (process_days_steps _ _ _ _ E1) as (_ & _ & _ & Hp).
    rewrite Hp. subst s'. cbn [printed].
    apply in_or_app. left. apply in_or_app. left. apply in_or_app. right.
    now left.
  - subst e2. reflexivity.
Qed.

(** ** Further properties *)

(** X3.  A channel that only the metadata knows has no node: every channel node
    of the document carries the id of an entry of a fetched bundle. *)
Theorem channel_nodes_come_from_bundles (clock : nat -> Z) (meta : http_reply)
    (replies : nat -> http_reply) (root : element) (out : list message) :
  main clock meta replies = Written root out ->
  forall node, In node (children_of root) -> is_channel node = true ->
    exists ch,
      In ch (fetched_entries [replies 0%nat; replies 1%nat; replies 2%nat])
      /\ attr node "id" = channel_id_of ch.
Proof.
  intros H node Hin Hch.
  destruct (main_Written _ _ _ _ _ H)
    as (urls & nodes & seen & _ & Hsteps & -> & _ & _).
  destruct (steps_origin _ _ _ _ _ Hsteps node Hin)
    as (ch & Hc & [(_ & _ & ->) | (_ & Hn & _)]); [| congruence].
  exists ch. split; [exact Hc |].
  now destruct (channel_element_is_channel (fst (get_channel_info meta))
                  (channel_id_of ch) (channel_name_of ch)) as (_ & _ & ->).
Qed.

(** X4.  What a run that writes the file has printed: the line of a failed
    metadata fetch if there was one, one line for each day whose fetch
    failed, in the order of the days, and the closing line. *)
Theorem printed_lines (clock : nat -> Z) (meta : http_reply)
    (replies : nat -> http_reply) (root : element) (out : list message) :
  main clock meta replies = Written root out ->
  exists urls,
    get_api_urls clock = Ok urls
    /\ out = snd (get_channel_info meta)
             ++ day_messages
                  (combine urls [replies 0%nat; replies 1%nat; replies 2%nat])
             ++ [Saved].
Proof.
  intros H.
  destruct (main_Written _ _ _ _ _ H)
    as (urls & nodes & seen & Hu & _ & _ & _ & Ho).
  now exists urls.
Qed.

(** *** What the loops got past *)

Lemma format_timestamp_wall (v : pyval) (t : Z) (str : string) :
  py_int v = Ok t -> format_timestamp v = Ok str -> nonempty str = true ->
  min_timestamp <= t <= max_timestamp /\ wall_in_range t
  /\ str = timestamp_attr t.
Proof.
  intros Hint. unfold format_timestamp, fromtimestamp_utc, astimezone.
  rewrite Hint. cbn [bind].
  destruct ((t <? - 2 ^ 63) || (2 ^ 63 <=? t)); [discriminate |].
  destruct ((t <? gmtime_min) || (gmtime_max <? t)); [discriminate |].
  destruct ((t <? min_timestamp) || (max_timestamp <? t)) eqn:E.
  - simpl. intros [= <-]. discriminate.
  - cbn [bind].
    apply orb_false_iff in E. rewrite !Z.ltb_ge in E.
    destruct ((t + utcoffset t <? min_timestamp)
              || (max_timestamp <? t + utcoffset t)) eqn:F; [discriminate |].
    apply orb_false_iff in F. rewrite !Z.ltb_ge in F.
    simpl. intros [= <-] _. unfold wall_in_range. repeat split; lia.
Qed.

(** X6.  A timestamp the formatter did not refuse can be read back: its
    fourteen digits write the wall clock of the zone at the Unix time given,
    and with the offset of six hours the Unix time itself is recovered. *)
Theorem timestamp_reads_back (timestamp : pyval) (t : Z) (str : string) :
  py_int timestamp = Ok t ->
  format_timestamp timestamp = Ok str ->
  nonempty str = true ->
  year_1000_timestamp <= t + utcoffset t ->
  parse_YmdHMS str = t + utcoffset t
  /\ (utcoffset t = 21600 -> parse_YmdHMS str - 6 * 3600 = t).
Proof.
  intros Hint H Hne Hy.
  destruct (format_timestamp_wall _ _ _ Hint H Hne) as (_ & Hw & ->).
  assert (E : parse_YmdHMS (timestamp_attr t) = t + utcoffset t).
  { unfold timestamp_attr. apply parse_YmdHMS_of.
    now apply strftime_YmdHMS_encodes. }
  split; [exact E |]. intros Ho. rewrite E. lia.
Qed.

(** The loop body of lines 110-135, when it raises nothing, for a program
    whose start converts. *)
Lemma emit_program_passable (cid p : pyval) (nodes : list element) (s : Z) :
  emit_program cid p = Ok nodes ->
  sort_key p = Ok s ->
  passable_program p
  /\ (well_timed p = true ->
      wall_in_range (start_of p) /\ wall_in_range (end_of p)).
Proof.
  destruct p as [| | | | | | d]; try discriminate.
  unfold emit_program, sort_key, well_timed, passable_program, start_of, end_of,
    int_or_zero, validate_program_times.
  cbn [py_get bind start_raw end_raw].
  set (sraw := dict_get d "s" (PInt 0)).
  set (eraw := dict_get d "e" (PInt 0)).
  intros H Es. rewrite Es in *.
  destruct (py_int eraw) as [e | xe] eqn:Ee.
  2:{ destruct xe; simpl in H; try discriminate H.
      split; [| discriminate].
      split; [now exists d |]. split; [now exists s | now right]. }
  split; [split; [now exists d |]; split; [now exists s | left; now exists e] |].
  cbn [bind catch] in H.
  destruct (0 <? s) eqn:E1; [| discriminate].
  destruct (s <? e) eqn:E2; [| discriminate].
  cbn [andb negb] in *. intros He.
  inv_bind H. rename a into start_time. inv_bind H. rename a into end_time.
  apply Z.ltb_lt in E1, E2. apply Z.leb_le in He.
  destruct (format_timestamp_Ok _ _ _ Es Hbind) as [[Hs ->] | [Hs ->]];
    [| unfold min_timestamp in *; lia].
  destruct (format_timestamp_Ok _ _ _ Ee Hbind0) as [[He' ->] | [He' ->]];
    [| unfold min_timestamp in *; lia].
  split.
  - now apply (format_timestamp_wall _ _ _ Es Hbind), nonempty_timestamp_attr.
  - now apply (format_timestamp_wall _ _ _ Ee Hbind0), nonempty_timestamp_attr.
Qed.

Lemma mapM_Forall {A B : Type} (f : A -> result B) (l : list A) (r : list B) :
  mapM f l = Ok r -> Forall (fun a => exists b, f a = Ok b) l.
Proof.
  revert r. induction l as [| a l IH]; intros r; [constructor |].
  cbn [mapM]. intros H. inv_bind H. inv_bind H. constructor; eauto.
Qed.

Lemma emit_programs_Forall (cid : pyval) (ps : list pyval) (nodes : list element) :
  emit_programs cid ps = Ok nodes ->
  Forall (fun p => exists n, emit_program cid p = Ok n) ps.
Proof.
  revert nodes. induction ps as [| p ps IH]; intros nodes; [constructor |].
  cbn [emit_programs]. intros H. inv_bind H. inv_bind H. constructor; eauto.
Qed.

Lemma sort_programs_keys (l sorted : list pyval) :
  sort_programs (PList l) = Ok sorted ->
  Forall (fun p => exists s, sort_key p = Ok s) l.
Proof.
  simpl. intros H. inv_bind H. apply mapM_Forall in Hbind.
  rewrite Forall_forall in *. intros p Hp.
  destruct (Hbind p Hp) as ([k x] & Hk). inv_bind Hk. now exists a0.
Qed.

Lemma process_channel_facts (idx : channel_index) (st st' : state) (ch : pyval) :
  process_channel idx st ch = Ok st' -> entry_facts ch.
Proof.
  destruct ch as [| | | | | | d]; try discriminate.
  unfold process_channel. cbn [py_get bind].
  set (cid := dict_get d "i" (PStr "unknown_id")).
  intros H. inv_bind H. rename a into seen. inv_bind H. rename a into sorted.
  inv_bind H. rename a into nodes. clear H.
  unfold set_contains in Hbind.
  destruct (hashable cid) eqn:Hh; [| discriminate]. clear Hbind.
  destruct (sort_programs_Ok _ _ Hbind0) as (l & Hl & Hperm & _).
  rewrite Hl in Hbind0. apply sort_programs_keys in Hbind0.
  apply emit_programs_Forall in Hbind1.
  assert (Hprogs : programs_of (PDict d) = l) by (simpl; now rewrite Hl).
  assert (Hf : Forall program_facts l).
  { rewrite Forall_forall in *. intros p Hp.
    destruct (Hbind0 p Hp) as (s & Hs).
    destruct (Hbind1 p) as (n & Hn);
      [now apply (Permutation_in _ (Permutation_sym Hperm)) |].
    exact (emit_program_passable _ _ _ _ Hn Hs). }
  split.
  - exists d, l. split; [reflexivity |]. split; [exact Hh |].
    split; [exact Hl |].
    eapply Forall_impl; [| exact Hf]. now intros p [Hp _].
  - now rewrite Hprogs.
Qed.

Lemma process_channels_facts (idx : channel_index) (chs : list pyval)
    (st st' : state) :
  process_channels idx st chs = Ok st' -> Forall entry_facts chs.
Proof.
  revert st. induction chs as [| ch chs IH]; intros st; [constructor |].
  cbn [process_channels]. intros H. inv_bind H.
  constructor; [eapply process_channel_facts | eapply IH]; eassumption.
Qed.

Lemma process_days_facts (idx : channel_index) (days : list (string * http_reply))
    (st st' : state) :
  process_days idx st days = Ok st' ->
  Forall entry_facts (fetched_entries (map snd days)).
Proof.
  revert st. induction days as [| [api_url reply] days IH]; intros st.
  - constructor.
  - cbn [process_days]. intros H. inv_bind H. rename a into st1.
    cbn [map snd fetched_entries flat_map].
    fold (fetched_entries (map snd days)).
    apply Forall_app. split; [| eapply IH; eassumption].
    destruct (process_day_Ok _ _ _ _ _ Hbind)
      as [(data & chs & Hf & Hi & Hp) | (e & Hf & ->)].
    + rewrite Hf, Hi. eapply process_channels_facts; eassumption.
    + rewrite Hf. constructor.
Qed.

Lemma main_facts (clock : nat -> Z) (meta : http_reply)
    (replies : nat -> http_reply) (root : element) (out : list message) :
  main clock meta replies = Written root out ->
  Forall entry_facts
    (fetched_entries [replies 0%nat; replies 1%nat; replies 2%nat]).
Proof.
  unfold main. destruct (get_channel_info meta) as [idx p0].
  destruct (get_api_urls clock) as [urls | e] eqn:Hu; [| discriminate].
  cbn [bind]. unfold assemble.
  destruct (process_days idx (initial_state p0) _) as [st | e] eqn:Hd;
    [| discriminate].
  intros _. apply process_days_facts in Hd.
  rewrite map_snd_combine in Hd; [exact Hd |].
  apply mapM_length in Hu. rewrite Hu. reflexivity.
Qed.


(** *** The channel index *)

(** Lookup after assignment. *)
Lemma index_lookup_set (d : channel_index) (k : pyval) (v : channel_entry)
    (c : string) :
  index_lookup (index_set d k v) (PStr c)
  = if key_eq k (PStr c) then Some v else index_lookup d (PStr c).
Proof.
  induction d as [| [k' v'] r IH]; [reflexivity |].
  cbn [index_set index_lookup].
  destruct (key_eq k' k) eqn:Ek; cbn [index_lookup].
  - destruct (key_eq k' (PStr c)) eqn:Ec.
    + apply key_eq_str_r in Ec. subst k'. apply key_eq_str in Ek. subst k.
      now rewrite (proj2 (key_eq_str c (PStr c)) eq_refl).
    + destruct (key_eq k (PStr c)) eqn:Ekc; [| reflexivity].
      apply key_eq_str_r in Ekc. subst k. congruence.
  - rewrite IH. destruct (key_eq k' (PStr c)) eqn:Ec; [| reflexivity].
    apply key_eq_str_r in Ec. subst k'.
    destruct (key_eq k (PStr c)) eqn:Ekc; [| reflexivity].
    apply key_eq_str_r in Ekc. subst k.
    rewrite (proj2 (key_eq_str c (PStr c)) eq_refl) in Ek. discriminate.
Qed.

Lemma add_channel_Ok (d d' : channel_index) (ch : pyval) :
  add_channel d ch = Ok d' ->
  well_formed_record ch = true
  /\ d' = index_set d (record_id ch) (record_entry ch).
Proof.
  destruct ch as [| | | | | | r]; try discriminate.
  unfold add_channel, well_formed_record, record_id, record_entry.
  cbn [py_getitem].
  destruct (has_key r "name"); [| discriminate].
  destruct (has_key r "categoryName"); [| discriminate].
  destruct (has_key r "logo"); [| discriminate].
  destruct (has_key r "id"); [| discriminate].
  cbn [bind andb].
  destruct (hashable (dict_get r "id" PNone)); [| discriminate].
  now intros [= <-].
Qed.

Lemma add_channels_Ok (l : list pyval) (d d' : channel_index) :
  add_channels d l = Ok d' ->
  forallb well_formed_record l = true
  /\ forall c, index_lookup d' (PStr c)
               = match last_record c l with
                 | Some info => Some info
                 | None => index_lookup d (PStr c)
                 end.
Proof.
  revert d. induction l as [| ch l IH]; intros d.
  - simpl. intros [= <-]. now split.
  - cbn [add_channels]. intros H. inv_bind H. rename a into d1.
    destruct (add_channel_Ok _ _ _ Hbind) as [Hw ->].
    destruct (IH _ H) as [Hall Hlook].
    split; [cbn [forallb]; now rewrite Hw, Hall |].
    intros c. rewrite Hlook. cbn [last_record].
    destruct (last_record c l); [reflexivity |].
    rewrite index_lookup_set.
    now destruct (key_eq (record_id ch) (PStr c)).
Qed.

Lemma add_channels_raises (l : list pyval) (d : channel_index) (e : exn) :
  add_channels d l = Raise e ->
  exists ch, In ch l /\ well_formed_record ch = false.
Proof.
  revert d. induction l as [| ch l IH]; intros d; [discriminate |].
  cbn [add_channels]. intros H.
  destruct (well_formed_record ch) eqn:Hw.
  - destruct (add_channel d ch) as [d1 | x] eqn:Ha.
    + cbn [bind] in H. destruct (IH _ H) as (ch' & Hin & Hf).
      exists ch'. split; [now right | exact Hf].
    + exfalso. clear H. destruct ch as [| | | | | | r]; try discriminate.
      unfold add_channel, well_formed_record in *. cbn [py_getitem] in Ha.
      destruct (has_key r "name"); [| discriminate].
      destruct (has_key r "categoryName"); [| discriminate].
      destruct (has_key r "logo"); [| discriminate].
      destruct (has_key r "id"); [| discriminate].
      cbn [bind andb] in *. rewrite Hw in Ha. discriminate.
  - exists ch. split; [now left | exact Hw].
Qed.

Lemma channel_info_body_Ok (reply : http_reply) (idx : channel_index) :
  channel_info_body reply = Ok idx ->
  exists d l,
    fetch_json reply = Ok (PDict d)
    /\ py_iter (dict_get d "channels" (PList [])) = Ok l
    /\ forallb well_formed_record l = true
    /\ forall c, index_lookup idx (PStr c) = last_record c l.
Proof.
  unfold channel_info_body. intros H. inv_bind H. rename a into data.
  inv_bind H. rename a into channels. inv_bind H. rename a into l.
  destruct data as [| | | | | | d]; try discriminate.
  injection Hbind0 as <-.
  destruct (add_channels_Ok _ _ _ H) as [Hall Hlook].
  exists d, l. repeat split; try assumption.
  intros c. rewrite Hlook. now destruct (last_record c l).
Qed.

Lemma channel_info_body_raises (reply : http_reply) (e : exn) :
  channel_info_body reply = Raise e -> metadata_failure reply.
Proof.
  unfold channel_info_body. intros H.
  destruct reply as [| status body]; [constructor |].
  unfold fetch_json, raise_for_status in H.
  destruct ((400 <=? status) && (status <? 600)) eqn:Es.
  - apply andb_true_iff in Es as [E1 E2].
    apply Z.leb_le in E1. apply Z.ltb_lt in E2. now constructor.
  - cbn [bind] in H. destruct body as [data |]; [| apply malformed_json].
    cbn [bind] in H.
    destruct data as [| | | | | | d];
      try (apply not_an_object; intros d'; discriminate).
    cbn [py_get bind] in H.
    destruct (py_iter (dict_get d "channels" (PList []))) as [l | x] eqn:Hi.
    + cbn [bind] in H. destruct (add_channels_raises _ _ _ H) as (ch & Hin & Hf).
      now apply (missing_fields status d l ch).
    + now apply (channels_not_iterable status d x).
Qed.

(** X8.  get_channel_info prints a failure and returns the empty dict
    exactly when the request gets no response or a 4xx or 5xx status, the
    body is not JSON or not an object, "channels" is not iterable, or a
    record lacks one of its four fields or has an unhashable id; in every
    other case it prints nothing. *)
Theorem metadata_failure_iff (meta : http_reply) :
  (metadata_failure meta <->
     exists e, get_channel_info meta = ([], [FailedChannelInfo e]))
  /\ (~ metadata_failure meta -> snd (get_channel_info meta) = []).
Proof.
  unfold get_channel_info. split; [split |].
  - intros Hf. destruct (metadata_failure_raises meta Hf) as (e & ->).
    now exists e.
  - intros (e & H).
    destruct (channel_info_body meta) as [idx | x] eqn:Hb; [discriminate |].
    now apply (channel_info_body_raises meta x).
  - intros Hn.
    destruct (channel_info_body meta) as [idx | x] eqn:Hb; [reflexivity |].
    exfalso. apply Hn. now apply (channel_info_body_raises meta x).
Qed.

(** X9.  When every record of the metadata is well formed the index is
    built and nothing is printed; looking up a string id gives the fields of
    the last record with that id, and nothing for an id no record has. *)
Theorem channel_index_last_record_wins (meta : http_reply)
    (d : list (string * pyval)) (l : list pyval) :
  fetch_json meta = Ok (PDict d) ->
  py_iter (dict_get d "channels" (PList [])) = Ok l ->
  forallb well_formed_record l = true ->
  snd (get_channel_info meta) = []
  /\ forall c, index_lookup (fst (get_channel_info meta)) (PStr c)
               = last_record c l.
Proof.
  intros Hf Hi Hw. unfold get_channel_info.
  destruct (channel_info_body meta) as [idx | x] eqn:Hb.
  - split; [reflexivity |]. cbn [fst].
    destruct (channel_info_body_Ok _ _ Hb) as (d' & l' & Hf' & Hi' & _ & Hl).
    rewrite Hf in Hf'. injection Hf' as <-. rewrite Hi in Hi'.
    injection Hi' as <-. exact Hl.
  - exfalso. unfold channel_info_body in Hb. rewrite Hf in Hb.
    cbn [bind py_get] in Hb. rewrite Hi in Hb. cbn [bind] in Hb.
    destruct (add_channels_raises _ _ _ Hb) as (ch & Hin & Hbad).
    rewrite forallb_forall in Hw. rewrite (Hw ch Hin) in Hbad. discriminate.
Qed.



(** X11.  A run writes the file only if every entry of every fetched
    bundle is an object with a string id whose "epg" is a list of objects,
    each with a start that int() converts and an end that int() converts or
    refuses with a ValueError: one record of another shape on any fetched day
    and the run is aborted. *)
Theorem written_run_needs (clock : nat -> Z) (meta : http_reply)
    (replies : nat -> http_reply) (root : element) (out : list message) :
  main clock meta replies = Written root out ->
  forall ch, In ch (fetched_entries [replies 0%nat; replies 1%nat; replies 2%nat]) ->
    passable_entry ch
    /\ (exists c, channel_id_of ch = PStr c)
    /\ Forall passable_program (programs_of ch).
Proof.
  intros H ch Hch.
  pose proof (main_facts _ _ _ _ _ H) as Hf.
  rewrite Forall_forall in Hf. destruct (Hf ch Hch) as [Hp Hprogs].
  split; [exact Hp |]. split.
  - destruct (main_Written _ _ _ _ _ H)
      as (urls & nodes & seen & _ & Hsteps & -> & Hser & _).
    destruct (channel_nodes_of_run _ _ _ _ Hsteps Hser) as (_ & _ & Hone).
    destruct (Hone _ Hch) as (c & Hc & _). now exists c.
  - eapply Forall_impl; [| exact Hprogs]. now intros p [Hpp _].
Qed.

(** From year 1000 on, where [%Y] has its four digits. *)
Lemma parse_timestamp_attr (t : Z) :
  year_1000_timestamp <= t + utcoffset t -> wall_in_range t ->
  parse_YmdHMS (timestamp_attr t) = t + utcoffset t.
Proof.
  intros _ Hw. unfold timestamp_attr. apply parse_YmdHMS_of.
  now apply strftime_YmdHMS_encodes.
Qed.

(** X12.  In a document that was written, the start and stop of every
    programme node read back as the wall clocks of two Unix times
    [0 < u < v], at most the last second of year 9999; when the zone has the
    same offset at both, start is before stop. *)
Theorem programme_times_read_back (clock : nat -> Z) (meta : http_reply)
    (replies : nat -> http_reply) (root : element) (out : list message) :
  main clock meta replies = Written root out ->
  (forall t, - 86400 <= utcoffset t) ->
  forall node, In node (children_of root) -> is_programme node = true ->
    exists a b u v,
      attr node "start" = PStr a /\ attr node "stop" = PStr b
      /\ 0 < u /\ u < v /\ v <= max_timestamp
      /\ parse_YmdHMS a = u + utcoffset u
      /\ parse_YmdHMS b = v + utcoffset v
      /\ (utcoffset u = utcoffset v -> parse_YmdHMS a < parse_YmdHMS b).
Proof.
  intros H Hoff node Hin Hprog.
  pose proof (main_facts _ _ _ _ _ H) as Hf. rewrite Forall_forall in Hf.
  destruct (main_Written _ _ _ _ _ H)
    as (urls & nodes & seen & _ & Hsteps & -> & _ & _).
  destruct (steps_origin _ _ _ _ _ Hsteps node Hin)
    as (ch & Hc & [(_ & Hn & _) | (_ & _ & p & Hp & Hw & ->)]); [congruence |].
  destruct (Hf ch Hc) as [_ Hprogs]. rewrite Forall_forall in Hprogs.
  destruct (Hprogs p Hp) as [_ Hwalls]. destruct (Hwalls Hw) as [Ws We].
  destruct (well_timed_dict p Hw) as (d & ->).
  apply well_timed_iff in Hw.
  destruct Hw as [(s & e & Hs & He & Hpos & Hlt) Hmax].
  assert (Es : start_of (PDict d) = s)
    by (unfold start_of, int_or_zero; now rewrite Hs).
  assert (Ee : end_of (PDict d) = e)
    by (unfold end_of, int_or_zero; now rewrite He).
  rewrite Es, Ee in *.
  assert (Pa : parse_YmdHMS (timestamp_attr s) = s + utcoffset s).
  { apply parse_timestamp_attr; [| exact Ws].
    specialize (Hoff s). unfold year_1000_timestamp. lia. }
  assert (Pb : parse_YmdHMS (timestamp_attr e) = e + utcoffset e).
  { apply parse_timestamp_attr; [| exact We].
    specialize (Hoff e). unfold year_1000_timestamp. lia. }
  exists (timestamp_attr s), (timestamp_attr e), s, e.
  cbn [programme_of]. rewrite Es, Ee.
  repeat split; try assumption; try reflexivity.
  intros Eo. rewrite Pa, Pb. lia.
Qed.

Lemma filter_all {A : Type} (f : A -> bool) (l : list A) :
  (forall x, In x l -> f x = true) -> filter f l = l.
Proof.
  induction l as [| x l IH]; intros H; [reflexivity |].
  cbn [filter]. rewrite (H x (or_introl eq_refl)). f_equal.
  apply IH. intros y Hy. apply H. now right.
Qed.

Lemma programme_nodes_all (ch : pyval) (sorted : list pyval) :
  filter is_programme (programme_nodes ch sorted) = programme_nodes ch sorted.
Proof.
  apply filter_all. intros x Hx. unfold programme_nodes in Hx.
  apply in_map_iff in Hx as (p & <- & _).
  apply programme_of_is_programme.
Qed.

Lemma entry_step_programmes (idx : channel_index) (seen seen' : list pyval)
    (ch : pyval) (nodes : list element) :
  entry_step idx seen ch nodes seen' ->
  Permutation (filter is_programme nodes)
    (map (programme_of (channel_id_of ch)) (filter well_timed (programs_of ch))).
Proof.
  intros [sorted Hperm _ _ _ | sorted Hperm _ _ _].
  - rewrite programme_nodes_all. unfold programme_nodes.
    now apply Permutation_map, Permutation_filter.
  - cbn [filter].
    destruct (channel_element_is_channel idx (channel_id_of ch)
                (channel_name_of ch)) as (_ & -> & _).
    rewrite programme_nodes_all. unfold programme_nodes.
    now apply Permutation_map, Permutation_filter.
Qed.

Lemma steps_programmes (idx : channel_index) (s0 s1 : list pyval)
    (chs : list pyval) (nodes : list element) :
  entries_steps idx s0 chs nodes s1 ->
  Permutation (filter is_programme nodes)
    (flat_map (fun ch => map (programme_of (channel_id_of ch))
                           (filter well_timed (programs_of ch))) chs).
Proof.
  induction 1 as [| seen seen1 seen2 ch chs nodes rest Hstep Hrest IH].
  - constructor.
  - rewrite filter_app. cbn [flat_map]. apply Permutation_app; [| exact IH].
    now apply (entry_step_programmes idx seen seen1).
Qed.

(** X13.  The programme nodes of the document are, counted with
    repetitions, the nodes of the well-timed programs of the fetched entries:
    a program fetched on two days has two nodes, and the channel index has no
    part in which programmes there are. *)
Theorem programme_nodes_counted (clock : nat -> Z) (meta : http_reply)
    (replies : nat -> http_reply) (root : element) (out : list message) :
  main clock meta replies = Written root out ->
  Permutation (filter is_programme (children_of root))
    (flat_map (fun ch => map (programme_of (channel_id_of ch))
                           (filter well_timed (programs_of ch)))
       (fetched_entries [replies 0%nat; replies 1%nat; replies 2%nat])).
Proof.
  intros H.
  destruct (main_Written _ _ _ _ _ H)
    as (urls & nodes & seen & _ & Hsteps & -> & _ & _).
  exact (steps_programmes _ _ _ _ _ Hsteps).
Qed.

Lemma programme_nodes_channel (ch : pyval) (sorted : list pyval) (n : element) :
  In n (programme_nodes ch sorted) -> attr n "channel" = channel_id_of ch.
Proof.
  unfold programme_nodes. intros Hn.
  apply in_map_iff in Hn as (p & <- & Hp). apply filter_In in Hp as [_ Hw].
  destruct (well_timed_dict p Hw) as (d & ->). apply programme_of_channel.
Qed.

Lemma entry_step_precede (idx : channel_index) (seen seen' : list pyval)
    (ch : pyval) (nodes : list element) :
  entry_step idx seen ch nodes seen' ->
  forall pre n post, nodes = pre ++ n :: post -> is_programme n = true ->
    exists v, In v (seen ++ channel_ids pre)
              /\ (v = attr n "channel" \/ key_eq (attr n "channel") v = true).
Proof.
  intros [sorted _ _ _ Hseen | sorted _ _ _ _] pre n post E Hn.
  - assert (Hin : In n (programme_nodes ch sorted))
      by (rewrite E; apply in_or_app; right; now left).
    rewrite (programme_nodes_channel _ _ _ Hin).
    apply existsb_exists in Hseen as (v & Hv & Hk).
    exists v. split; [apply in_or_app; now left | now right].
  - destruct (channel_element_is_channel idx (channel_id_of ch)
                (channel_name_of ch)) as (Hc & Hp & Hid).
    destruct pre as [| m pre]; cbn [app] in E; injection E as E1 E2.
    + subst n. congruence.
    + subst m. assert (Hin : In n (programme_nodes ch sorted))
        by (rewrite E2; apply in_or_app; right; now left).
      rewrite (programme_nodes_channel _ _ _ Hin).
      exists (channel_id_of ch). split; [| now left].
      apply in_or_app. right. unfold channel_ids. cbn [filter].
      rewrite Hc. cbn [map]. left. exact Hid.
Qed.

(** The id of a programme node is among the ids seen before the day or put
    earlier in the document. *)
Lemma steps_precede (idx : channel_index) (s0 s1 : list pyval)
    (chs : list pyval) (nodes : list element) :
  entries_steps idx s0 chs nodes s1 ->
  forall pre n post, nodes = pre ++ n :: post -> is_programme n = true ->
    exists v, In v (s0 ++ channel_ids pre)
              /\ (v = attr n "channel" \/ key_eq (attr n "channel") v = true).
Proof.
  induction 1 as [| seen seen1 seen2 ch chs nodes rest Hstep Hrest IH];
    intros pre n post E Hn.
  - now destruct pre.
  - pose proof (entry_step_ids _ _ _ _ _ Hstep) as Hids.
    apply app_eq_app in E as (l & [[E1 E2] | [E1 E2]]).
    + destruct l as [| x l].
      * cbn [app] in E2. rewrite app_nil_r in E1. subst pre.
        destruct (IH [] n post (eq_sym E2) Hn) as (v & Hv & Hk).
        exists v. split; [| exact Hk].
        cbn [channel_ids filter map] in Hv. rewrite app_nil_r in Hv.
        now rewrite <- Hids.
      * cbn [app] in E2. injection E2 as <- E2.
        exact (entry_step_precede _ _ _ _ _ Hstep pre n l E1 Hn).
    + subst pre.
      destruct (IH l n post E2 Hn) as (v & Hv & Hk).
      exists v. split; [| exact Hk].
      rewrite channel_ids_app, app_assoc, <- Hids. exact Hv.
Qed.

Lemma programme_of_serializable (cid : pyval) (d : list (string * pyval)) :
  serializable (programme_of cid (PDict d)) = true ->
  attribute_writable cid = true
  /\ writable_text (dict_get d "n" (PStr "Unknown Program")) = true
  /\ writable_text (dict_get d "d" (PStr "No description available")) = true.
Proof.
  cbn [programme_of programme_element serializable forallb snd is_str truthy
       attribute_writable negb orb andb].
  unfold writable_text.
  rewrite !andb_true_r. rewrite !andb_true_iff. tauto.
Qed.

(** X14.  In document order every programme node comes after a channel
    node with the id the programme refers to. *)
Theorem channel_node_precedes_programmes (clock : nat -> Z) (meta : http_reply)
    (replies : nat -> http_reply) (root : element) (out : list message) :
  main clock meta replies = Written root out ->
  forall pre node post,
    children_of root = pre ++ node :: post -> is_programme node = true ->
    exists m c, In m pre /\ is_channel m = true
                /\ attr m "id" = PStr c /\ attr node "channel" = PStr c.
Proof.
  intros H pre node post E Hn.
  destruct (main_Written _ _ _ _ _ H)
    as (urls & nodes & seen & _ & Hsteps & -> & Hser & _).
  cbn [children_of tv_element] in E.
  assert (Hin : In node nodes) by (rewrite E; apply in_or_app; right; now left).
  destruct (steps_origin _ _ _ _ _ Hsteps node Hin)
    as (ch & Hc & [(_ & Hn' & _) | (_ & _ & p & Hp & Hw & Hnode)]);
    [congruence |].
  destruct (well_timed_dict p Hw) as (d & ->).
  rewrite forallb_forall in Hser. pose proof (Hser node Hin) as Hs.
  rewrite Hnode in Hs. apply programme_of_serializable in Hs as (Hstr & _).
  apply hashable_writable in Hstr;
    [| exact (steps_hashable _ _ _ _ _ Hsteps ch Hc)].
  destruct (channel_id_of ch) as [| | | | c | |] eqn:Hcid; try discriminate.
  assert (Hattr : attr node "channel" = PStr c)
    by (rewrite Hnode; apply programme_of_channel).
  destruct (steps_precede _ _ _ _ _ Hsteps pre node post E Hn) as (v & Hv & Hk).
  cbn [app] in Hv. rewrite Hattr in Hk.
  assert (v = PStr c) as ->.
  { destruct Hk as [-> | Hk]; [reflexivity | now apply key_eq_str]. }
  unfold channel_ids in Hv. apply in_map_iff in Hv as (m & Hm & Hf).
  apply filter_In in Hf as [Hmin Hmc].
  now exists m, c.
Qed.


Lemma channel_element_cases (idx : channel_index) (c : string) (cname : pyval) :
  channel_element idx (PStr c) cname
  = match index_lookup idx (PStr c) with
    | Some info => enriched_channel_element c info
    | None => Element "channel" [("id", PStr c)] PNone
                [Element "display-name" [] cname []]
    end.
Proof. unfold channel_element. now destruct (index_lookup idx (PStr c)). Qed.

(** X15.  The shape of a document that was written: the root is [tv]; a
    child is a channel node with a string id and a display-name alone, or a
    channel node with display-name, category and icon from the index, or a
    programme node with string attributes and a title and a desc in the
    language "bn"; every text is a str or is falsy. *)
Theorem document_schema (clock : nat -> Z) (meta : http_reply)
    (replies : nat -> http_reply) (root : element) (out : list message) :
  main clock meta replies = Written root out ->
  tag_of root = "tv"
  /\ forall node, In node (children_of root) ->
       (exists c display_name,
          node = Element "channel" [("id", PStr c)] PNone
                   [Element "display-name" [] display_name []]
          /\ writable_text display_name = true)
       \/ (exists c info,
             node = enriched_channel_element c info
             /\ writable_text (name info) = true
             /\ writable_text (category info) = true
             /\ attribute_writable (logo info) = true)
       \/ (exists c start_time end_time title desc,
             node = programme_element (PStr c) start_time end_time title desc
             /\ writable_text title = true /\ writable_text desc = true).
Proof.
  intros H.
  destruct (main_Written _ _ _ _ _ H)
    as (urls & nodes & seen & _ & Hsteps & -> & Hser & _).
  split; [reflexivity |]. intros node Hin. cbn [children_of tv_element] in Hin.
  rewrite forallb_forall in Hser. pose proof (Hser node Hin) as Hs.
  destruct (steps_origin _ _ _ _ _ Hsteps node Hin)
    as (ch & Hc & [(_ & _ & ->) | (_ & _ & p & Hp & Hw & ->)]).
  - pose proof (channel_element_serializable _ _ _ Hs
                  (steps_hashable _ _ _ _ _ Hsteps ch Hc)) as Hstr.
    destruct (channel_id_of ch) as [| | | | c | |]; try discriminate.
    rewrite channel_element_cases in *.
    destruct (index_lookup (fst (get_channel_info meta)) (PStr c)) as [info |].
    + right. left. exists c, info. split; [reflexivity |].
      cbn [enriched_channel_element serializable forallb snd attribute_writable
           andb] in Hs.
      unfold writable_text. rewrite !andb_true_r in Hs.
      rewrite !andb_true_iff in Hs. tauto.
    + left. exists c, (channel_name_of ch). split; [reflexivity |].
      cbn [serializable forallb snd attribute_writable andb] in Hs.
      unfold writable_text. rewrite !andb_true_r in Hs.
      rewrite !andb_true_iff in Hs. tauto.
  - destruct (well_timed_dict p Hw) as (d & ->).
    apply programme_of_serializable in Hs as (Hstr & Ht & Hd).
    apply hashable_writable in Hstr;
      [| exact (steps_hashable _ _ _ _ _ Hsteps ch Hc)].
    destruct (channel_id_of ch) as [| | | | c | |]; try discriminate.
    right. right. cbn [programme_of]. eauto 10.
Qed.

(** X10.  With the metadata fetched, the one channel node of an id takes
    its display-name, category and icon from the last metadata record with
    that id, whatever name the schedule gives; for an id the metadata does
    not have it is the node with the name of a schedule entry with that
    id. *)
Theorem known_channel_is_enriched (clock : nat -> Z) (meta : http_reply)
    (replies : nat -> http_reply) (root : element) (out : list message)
    (d : list (string * pyval)) (l : list pyval) (ch : pyval) (c : string) :
  main clock meta replies = Written root out ->
  fetch_json meta = Ok (PDict d) ->
  py_iter (dict_get d "channels" (PList [])) = Ok l ->
  forallb well_formed_record l = true ->
  In ch (fetched_entries [replies 0%nat; replies 1%nat; replies 2%nat]) ->
  channel_id_of ch = PStr c ->
  match last_record c l with
  | Some info => channel_nodes_with_id c root = [enriched_channel_element c info]
  | None =>
      exists ch',
        In ch' (fetched_entries [replies 0%nat; replies 1%nat; replies 2%nat])
        /\ channel_id_of ch' = PStr c
        /\ channel_nodes_with_id c root = [fallback_channel_element ch']
  end.
Proof.
  intros H Hf Hi Hw Hch Hc.
  assert (Hidx : forall c, index_lookup (fst (get_channel_info meta)) (PStr c)
                           = last_record c l).
  { unfold get_channel_info.
    destruct (channel_info_body meta) as [idx | x] eqn:Hb.
    - cbn [fst].
      destruct (channel_info_body_Ok _ _ Hb) as (d' & l' & Hf' & Hi' & _ & Hl).
      rewrite Hf in Hf'. injection Hf' as <-. rewrite Hi in Hi'.
      injection Hi' as <-. exact Hl.
    - exfalso. unfold channel_info_body in Hb. rewrite Hf in Hb.
      cbn [bind py_get] in Hb. rewrite Hi in Hb. cbn [bind] in Hb.
      destruct (add_channels_raises _ _ _ Hb) as (r & Hin & Hbad).
      rewrite forallb_forall in Hw. rewrite (Hw r Hin) in Hbad. discriminate. }
  destruct (main_Written _ _ _ _ _ H)
    as (urls & nodes & seen & _ & Hsteps & -> & Hser & _).
  destruct (channel_nodes_of_run _ _ _ _ Hsteps Hser) as (_ & _ & Hone).
  destruct (Hone _ Hch) as (c' & Hc' & Hlen).
  rewrite Hc in Hc'. injection Hc' as <-.
  destruct (channel_nodes_with_id c (tv_element nodes)) as [| m [| m' r]] eqn:E;
    try discriminate. clear Hlen.
  assert (Hm : In m (channel_nodes_with_id c (tv_element nodes)))
    by (rewrite E; now left).
  unfold channel_nodes_with_id in Hm. cbn [children_of tv_element] in Hm.
  apply filter_In in Hm as [Hin Hm]. apply andb_true_iff in Hm as [Hmc Hmk].
  apply key_eq_str in Hmk.
  destruct (steps_origin _ _ _ _ _ Hsteps m Hin)
    as (ch' & Hc' & [(_ & _ & Hnode) | (_ & Hn & _)]); [| congruence].
  destruct (channel_element_is_channel (fst (get_channel_info meta))
              (channel_id_of ch') (channel_name_of ch')) as (_ & _ & Hid).
  rewrite <- Hnode, Hmk in Hid.
  rewrite <- Hid, channel_element_cases, Hidx in Hnode.
  destruct (last_record c l) as [info |].
  - now rewrite Hnode.
  - exists ch'. split; [exact Hc' |]. split; [now symmetry |].
    rewrite Hnode. unfold fallback_channel_element. now rewrite <- Hid.
Qed.

(** Days that all fail only print. *)
Lemma process_days_all_failed (idx : channel_index)
    (days : list (string * http_reply)) (st : state) :
  (forall day, In day days -> exists e, fetch_json (snd day) = Raise e) ->
  process_days idx st days
  = Ok (with_printed
          (printed st
           ++ map (fun day => FailedFetch (fst day) RequestException) days) st).
Proof.
  revert st. induction days as [| [api_url reply] days IH]; intros st Hall.
  - cbn [process_days map]. rewrite app_nil_r. now destruct st.
  - cbn [process_days]. unfold process_day.
    destruct (Hall (api_url, reply) (or_introl eq_refl)) as (e & He).
    cbn [snd] in He. rewrite He, (fetch_json_raises _ _ He).
    cbn [bind catch is_RequestException].
    rewrite IH by (intros day Hd; apply Hall; now right).
    unfold with_printed. cbn [processed_channels tv printed map fst].
    now rewrite <- app_assoc.
Qed.

(** X16.  When the request of each of the three days fails the run still
    writes the file: a [tv] element without children, after one failure line
    for every URL. *)
Theorem all_days_failed_writes_empty_guide (clock : nat -> Z) (meta : http_reply)
    (replies : nat -> http_reply) (urls : list string) :
  get_api_urls clock = Ok urls ->
  (forall i, (i < 3)%nat -> fetch_json (replies i) = Raise RequestException) ->
  main clock meta replies
  = Written (tv_element [])
      (snd (get_channel_info meta)
       ++ map (fun api_url => FailedFetch api_url RequestException) urls
       ++ [Saved]).
Proof.
  intros Hu Hall. unfold main.
  destruct (get_channel_info meta) as [idx p0]. rewrite Hu. cbn [bind snd].
  pose proof (mapM_length _ _ _ Hu) as Hlen.
  destruct urls as [| u0 [| u1 [| u2 [| u3 r]]]]; try discriminate. clear Hlen.
  unfold assemble. rewrite process_days_all_failed.
  - cbn [seq map combine fst bind with_printed initial_state tv printed
         tostring tv_element serializable forallb snd attribute_writable truthy
         negb orb andb outcome_of].
    now rewrite <- app_assoc.
  - cbn [seq map combine In]. intros day [<- | [<- | [<- | []]]];
      cbn [snd]; exists RequestException; apply Hall; lia.
Qed.

(** X17.  Days only append: when the run over a list of days gets as far
    as writing, so does the run over any first part of the list, and its
    document is the beginning of the longer one. *)
Theorem document_grows_by_day (idx : channel_index) (p0 : list message)
    (days more_days : list (string * http_reply)) (root : element)
    (out : list message) :
  assemble idx p0 (days ++ more_days) = Ok (root, out) ->
  exists root1 out1 nodes,
    assemble idx p0 days = Ok (root1, out1)
    /\ children_of root = children_of root1 ++ nodes.
Proof.
  unfold assemble. rewrite process_days_app. intros H.
  inv_bind H. rename a into st2. inv_bind Hbind. rename a into st1.
  rewrite Hbind0. cbn [bind].
  destruct (process_days_steps _ _ _ _ Hbind) as (nodes & _ & Htv & _).
  inv_bind H. injection H as <- _. unfold tostring in *.
  destruct (serializable (tv_element (tv st2))) eqn:Hs; [| discriminate].
  injection Hbind1 as <-.
  assert (Hs1 : serializable (tv_element (tv st1)) = true).
  { cbn [tv_element serializable forallb snd attribute_writable truthy negb
         orb andb] in *.
    rewrite Htv, forallb_app in Hs. now apply andb_true_iff in Hs as [Hs _]. }
  rewrite Hs1. cbn [bind]. do 3 eexists. split; [reflexivity |].
  cbn [children_of tv_element]. exact Htv.
Qed.

(** X7.  What the formatter does with every value.  It returns the empty
    string exactly when int() refuses the value with a ValueError or the
    integer is a time outside the years 1 to 9999 that the platform can still
    break down; it returns a non-empty string exactly when the time and its
    wall clock in the zone are inside that range, and the string is then the
    timestamp of the time; it raises exactly the exceptions other than
    ValueError that int(), fromtimestamp or astimezone raise (TypeError,
    OverflowError, OSError), and never a ValueError. *)
Theorem format_timestamp_outcomes (timestamp : pyval) :
  (format_timestamp timestamp = Ok EmptyString <->
     py_int timestamp = Raise ValueError
     \/ exists t, py_int timestamp = Ok t
                  /\ gmtime_min <= t <= gmtime_max
                  /\ (t < min_timestamp \/ max_timestamp < t))
  /\ (forall str, nonempty str = true ->
        (format_timestamp timestamp = Ok str <->
           exists t, py_int timestamp = Ok t
                     /\ min_timestamp <= t <= max_timestamp
                     /\ min_timestamp <= t + utcoffset t <= max_timestamp
                     /\ str = timestamp_attr t))
  /\ (forall x,
        format_timestamp timestamp = Raise x <->
          x <> ValueError
          /\ (py_int timestamp = Raise x
              \/ exists t, py_int timestamp = Ok t
                   /\ ((x = OverflowError /\ (t < - 2 ^ 63 \/ 2 ^ 63 <= t))
                       \/ (x = OSError /\ - 2 ^ 63 <= t < 2 ^ 63
                           /\ (t < gmtime_min \/ gmtime_max < t))
                       \/ (x = OverflowError
                           /\ min_timestamp <= t <= max_timestamp
                           /\ (t + utcoffset t < min_timestamp
                               \/ max_timestamp < t + utcoffset t))))).
Proof.
  assert (Hne : forall t, timestamp_attr t <> EmptyString).
  { intros t. unfold timestamp_attr.
    destruct (strftime_YmdHMS (t + utcoffset t)); discriminate. }
  unfold format_timestamp, fromtimestamp_utc, astimezone.
  destruct (py_int timestamp) as [t | x0] eqn:Hint; cbn [bind].
  2:{ split; [| split].
      - split.
        + destruct x0; try discriminate. now left.
        + intros [[= ->] | (t & Ht & _)]; [reflexivity | discriminate].
      - intros str Hs. split.
        + destruct x0; cbn [catch is_ValueError]; try discriminate.
          intros [= <-]. discriminate.
        + intros (t & Ht & _). discriminate.
      - intros x. split.
        + destruct x0; cbn [catch is_ValueError]; try discriminate;
            intros [= <-]; (split; [discriminate | now left]).
        + intros [Hx [[= ->] | (t & Ht & _)]]; [| discriminate].
          destruct x; cbn [catch is_ValueError]; try reflexivity. now elim Hx. }
  pose proof (eq_refl : - 2 ^ 63 = -9223372036854775808) as P63.
  pose proof (eq_refl : 2 ^ 63 = 9223372036854775808) as Q63.
  unfold gmtime_min, gmtime_max, min_timestamp, max_timestamp in *.
  rewrite P63, Q63.
  destruct ((t <? -9223372036854775808) || (9223372036854775808 <=? t)) eqn:E0.
  { apply orb_true_iff in E0. rewrite Z.ltb_lt, Z.leb_le in E0.
    cbn [bind catch is_ValueError]. split; [| split].
    - split; [discriminate |].
      intros [K | (t' & [= <-] & Hg & _)]; [discriminate | lia].
    - intros str _. split; [discriminate |]. intros (t' & [= <-] & Hr & _). lia.
    - intros x. split.
      + intros [= <-]. split; [discriminate |]. right. exists t.
        split; [reflexivity |]. left. now split.
      + intros [_ [K | (t' & [= <-] & [[-> _] | [(_ & Hr & _) | (_ & Hr & _)]])]];
          [discriminate | reflexivity | lia | lia]. }
  apply orb_false_iff in E0. rewrite Z.ltb_ge, Z.leb_gt in E0.
  destruct ((t <? -67768040609740800) || (67768036191676799 <? t)) eqn:E1.
  { apply orb_true_iff in E1. rewrite !Z.ltb_lt in E1.
    cbn [bind catch is_ValueError]. split; [| split].
    - split; [discriminate |].
      intros [K | (t' & [= <-] & Hg & _)]; [discriminate | lia].
    - intros str _. split; [discriminate |]. intros (t' & [= <-] & Hr & _). lia.
    - intros x. split.
      + intros [= <-]. split; [discriminate |]. right. exists t.
        split; [reflexivity |]. right. left. repeat split; lia.
      + intros [_ [K | (t' & [= <-] & [[_ Hr] | [(-> & _) | (_ & Hr & _)]])]];
          [discriminate | lia | reflexivity | lia]. }
  apply orb_false_iff in E1. rewrite !Z.ltb_ge in E1.
  destruct ((t <? -62135596800) || (253402300799 <? t)) eqn:E2.
  { apply orb_true_iff in E2. rewrite !Z.ltb_lt in E2.
    cbn [bind catch is_ValueError]. split; [| split].
    - split; [| reflexivity]. intros _. right. exists t.
      split; [reflexivity |]. split; [lia | exact E2].
    - intros str Hs. split.
      + intros [= <-]. discriminate.
      + intros (t' & [= <-] & Hr & _). lia.
    - intros x. split; [discriminate |].
      intros [Hx [K | (t' & [= <-] & [[_ Hr] | [(_ & _ & Hr) | (_ & Hr & _)]])]];
        [discriminate | lia | lia | lia]. }
  apply orb_false_iff in E2. rewrite !Z.ltb_ge in E2. cbn [bind].
  destruct ((t + utcoffset t <? -62135596800)
            || (253402300799 <? t + utcoffset t)) eqn:E3.
  { apply orb_true_iff in E3. rewrite !Z.ltb_lt in E3.
    cbn [bind catch is_ValueError]. split; [| split].
    - split; [discriminate |].
      intros [K | (t' & [= <-] & _ & Hr)]; [discriminate | lia].
    - intros str _. split; [discriminate |].
      intros (t' & [= <-] & _ & Hr & _). lia.
    - intros x. split.
      + intros [= <-]. split; [discriminate |]. right. exists t.
        split; [reflexivity |]. right. right. repeat split; lia.
      + intros [_ [K | (t' & [= <-] & [[_ Hr] | [(_ & _ & Hr) | (-> & _)]])]];
          [discriminate | lia | lia | reflexivity]. }
  apply orb_false_iff in E3. rewrite !Z.ltb_ge in E3.
  cbn [bind catch]. fold (timestamp_attr t). split; [| split].
  - split.
    + intros K. exfalso. injection K as K. exact (Hne t K).
    + intros [K | (t' & [= <-] & _ & Hr)]; [discriminate | lia].
  - intros str _. split.
    + intros [= <-]. exists t. repeat split; try lia.
    + intros (t' & [= <-] & _ & _ & ->). reflexivity.
  - intros x. split; [discriminate |].
    intros [_ [K | (t' & [= <-] & [[_ Hr] | [(_ & _ & Hr) | (_ & _ & Hr)]])]];
      [discriminate | lia | lia | lia].
Qed.

Lemma lacks_time_not_well_timed (p : pyval) :
  lacks_key p "s" \/ lacks_key p "e" -> well_timed p = false.
Proof.
  unfold well_timed.
  intros [(d & -> & Hk) | (d & -> & Hk)]; cbn [start_raw end_raw];
    rewrite (dict_get_default _ _ _ Hk); cbn [py_int].
  - now destruct (py_int (dict_get d "e" (PInt 0))).
  - destruct (py_int (dict_get d "s" (PInt 0))) as [s | x]; [| reflexivity].
    destruct (0 <? s) eqn:E1; [| reflexivity].
    destruct (s <? 0) eqn:E2; [| reflexivity].
    apply Z.ltb_lt in E1, E2. lia.
Qed.

(** X18.  A program record without the key "s" or without the key "e"
    never becomes a node, since the missing time counts as 0; without "e"
    and with a start that converts, the record is skipped and nothing is
    raised. *)
Theorem program_without_times_is_dropped (channel_id program : pyval) :
  lacks_key program "s" \/ lacks_key program "e" ->
  (forall nodes, emit_program channel_id program = Ok nodes -> nodes = [])
  /\ (lacks_key program "e" ->
      (exists s, py_int (start_raw program) = Ok s) ->
      emit_program channel_id program = Ok []).
Proof.
  intros Hl. split.
  - intros nodes H. apply emit_program_Ok in H.
    now rewrite (lacks_time_not_well_timed _ Hl) in H.
  - intros (d & -> & Hk) (s & Hs). unfold emit_program. cbn [py_get bind].
    cbn [start_raw] in Hs. rewrite (dict_get_default _ _ _ Hk).
    unfold validate_program_times. rewrite Hs. cbn [py_int bind catch].
    destruct (0 <? s) eqn:E1; [| reflexivity].
    destruct (s <? 0) eqn:E2; [| reflexivity].
    apply Z.ltb_lt in E1, E2. lia.
Qed.

(** X19.  An emitted program without the keys "n" and "d" gets the title
    "Unknown Program" and the description "No description available". *)
Theorem missing_texts_get_defaults (clock : nat -> Z) (meta : http_reply)
    (replies : nat -> http_reply) (root : element) (out : list message)
    (ch p : pyval) :
  main clock meta replies = Written root out ->
  In ch (fetched_entries [replies 0%nat; replies 1%nat; replies 2%nat]) ->
  In p (programs_of ch) -> emitted_condition p ->
  lacks_key p "n" -> lacks_key p "d" ->
  In (programme_element (channel_id_of ch)
        (timestamp_attr (start_of p)) (timestamp_attr (end_of p))
        (PStr "Unknown Program") (PStr "No description available"))
     (children_of root).
Proof.
  intros H Hch Hp Hw (d & -> & Hn) (d' & [= <-] & Hd).
  destruct (main_Written _ _ _ _ _ H)
    as (urls & nodes & seen & _ & Hsteps & -> & _ & _).
  apply well_timed_iff in Hw.
  pose proof (steps_emitted _ _ _ _ _ Hsteps ch _ Hch Hp Hw) as Hin.
  cbn [programme_of] in Hin.
  now rewrite (dict_get_default _ _ _ Hn), (dict_get_default _ _ _ Hd) in Hin.
Qed.


(** The first entry with an id not seen before puts the channel node. *)
Lemma steps_first (idx : channel_index) (s0 s1 : list pyval)
    (chs : list pyval) (nodes : list element) :
  entries_steps idx s0 chs nodes s1 ->
  forall pre ch post c,
    chs = pre ++ ch :: post -> channel_id_of ch = PStr c ->
    existsb (key_eq (PStr c)) s0 = false ->
    (forall x, In x pre -> channel_id_of x <> PStr c) ->
    In (channel_element idx (PStr c) (channel_name_of ch)) nodes.
Proof.
  induction 1 as [| seen seen1 seen2 channel channels nodes rest Hstep Hrest IH];
    intros pre ch post c E Hc Hs0 Hpre.
  - now destruct pre.
  - apply in_or_app. destruct pre as [| x pre]; cbn [app] in E;
      injection E as E1 E2.
    + subst channel. left.
      destruct Hstep as [sorted _ _ _ Hseen | sorted _ _ _ _].
      * rewrite Hc in Hseen. congruence.
      * rewrite Hc. now left.
    + subst channel. right. apply (IH pre ch post c E2 Hc).
      * assert (Hx : key_eq (PStr c) (channel_id_of x) = false).
        { destruct (key_eq (PStr c) (channel_id_of x)) eqn:K; [| reflexivity].
          apply key_eq_str in K. exfalso.
          exact (Hpre x (or_introl eq_refl) K). }
        destruct Hstep as [sorted _ _ _ _ | sorted _ _ _ _]; [exact Hs0 |].
        rewrite existsb_app, Hs0. cbn [existsb orb]. now rewrite Hx.
      * intros y Hy. apply Hpre. now right.
Qed.

(** X20.  For an id the index does not have, the channel node carries the
    name of the first fetched entry with that id; the names later entries
    give for it are not used. *)
Theorem first_entry_names_channel (clock : nat -> Z) (meta : http_reply)
    (replies : nat -> http_reply) (root : element) (out : list message)
    (pre post : list pyval) (ch : pyval) (c : string) :
  main clock meta replies = Written root out ->
  fetched_entries [replies 0%nat; replies 1%nat; replies 2%nat]
  = pre ++ ch :: post ->
  channel_id_of ch = PStr c ->
  (forall x, In x pre -> channel_id_of x <> PStr c) ->
  index_lookup (fst (get_channel_info meta)) (PStr c) = None ->
  channel_nodes_with_id c root = [fallback_channel_element ch].
Proof.
  intros H E Hc Hpre Hidx.
  destruct (main_Written _ _ _ _ _ H)
    as (urls & nodes & seen & _ & Hsteps & -> & Hser & _).
  pose proof (steps_first _ _ _ _ _ Hsteps pre ch post c E Hc eq_refl Hpre)
    as Hin.
  rewrite channel_element_cases, Hidx in Hin.
  assert (Hnode : fallback_channel_element ch
                  = Element "channel" [("id", PStr c)] PNone
                      [Element "display-name" [] (channel_name_of ch) []])
    by (unfold fallback_channel_element; now rewrite Hc).
  rewrite <- Hnode in Hin.
  assert (Hch : In ch (fetched_entries [replies 0%nat; replies 1%nat;
                                        replies 2%nat]))
    by (rewrite E; apply in_or_app; right; now left).
  destruct (channel_nodes_of_run _ _ _ _ Hsteps Hser) as (_ & _ & Hone).
  destruct (Hone _ Hch) as (c' & Hc' & Hlen).
  rewrite Hc in Hc'. injection Hc' as <-.
  assert (Hf : In (fallback_channel_element ch)
                  (channel_nodes_with_id c (tv_element nodes))).
  { unfold channel_nodes_with_id. cbn [children_of tv_element].
    apply filter_In. split; [exact Hin |]. rewrite Hnode.
    apply andb_true_iff. split; [reflexivity |]. now apply key_eq_str. }
  destruct (channel_nodes_with_id c (tv_element nodes)) as [| m [| m' r]];
    try discriminate.
  destruct Hf as [-> | []]. reflexivity.
Qed.

(** The sort of line 107 leaves programs with the same start in the order
    they had. *)
Lemma sort_programs_keeps_ties (l sorted : list pyval) (k : Z) :
  sort_programs (PList l) = Ok sorted ->
  filter (fun p => start_of p =? k) sorted
  = filter (fun p => start_of p =? k) l.
Proof.
  simpl. intros H. inv_bind H. injection H as <-. rename a into keyed.
  destruct (mapM_keyed _ _ Hbind) as [<- Hf].
  assert (Hmap : forall L : list (Z * pyval),
             Forall (fun kx => start_of (snd kx) = fst kx) L ->
             filter (fun p => start_of p =? k) (map snd L)
             = map snd (filter (fun y => fst y =? k) L)).
  { induction L as [| kx L IH]; intros HL; [reflexivity |].
    inversion HL as [| ? ? Hkx HL']; subst. cbn [map filter].
    rewrite Hkx, (IH HL'). now destruct (fst kx =? k). }
  rewrite (Hmap keyed Hf), Hmap.
  - now rewrite stable_sort_stable.
  - rewrite Forall_forall in *. intros kx Hin. apply Hf.
    now apply (Permutation_in _ (stable_sort_perm keyed)).
Qed.

Lemma filter_comm {A : Type} (f g : A -> bool) (l : list A) :
  filter f (filter g l) = filter g (filter f l).
Proof.
  induction l as [| x l IH]; [reflexivity |]. cbn [filter].
  destruct (f x) eqn:Ef; destruct (g x) eqn:Eg; cbn [filter];
    rewrite ?Ef, ?Eg, IH; reflexivity.
Qed.

(** What one entry appends: perhaps its channel node, then the nodes of its
    programs in the order the sort left them in. *)
Lemma process_channel_segment (idx : channel_index) (st st' : state) (ch : pyval) :
  process_channel idx st ch = Ok st' ->
  exists pre sorted,
    tv st' = tv st ++ pre ++ programme_nodes ch sorted
    /\ sort_programs (PList (programs_of ch)) = Ok sorted.
Proof.
  destruct ch as [| | | | | | d]; try discriminate.
  unfold process_channel. cbn [py_get bind].
  set (cid := dict_get d "i" (PStr "unknown_id")).
  set (cname := dict_get d "n" (PStr "unknown_name")).
  intros H. inv_bind H. rename a into seen. inv_bind H. rename a into sorted.
  inv_bind H. rename a into nodes. injection H as <-.
  destruct (sort_programs_Ok _ _ Hbind0) as (l & Hl & _ & _).
  assert (Hprogs : programs_of (PDict d) = l) by (simpl; now rewrite Hl).
  rewrite Hl in Hbind0. rewrite Hprogs.
  apply emit_programs_Ok in Hbind1. subst nodes.
  destruct seen; cbn [processed_channels tv printed].
  - exists [], sorted. now split.
  - exists [channel_element idx cid cname], sorted. split; [| exact Hbind0].
    now rewrite <- app_assoc.
Qed.

Lemma process_channels_segment (idx : channel_index) (chs : list pyval)
    (st st' : state) :
  process_channels idx st chs = Ok st' ->
  forall ch, In ch chs ->
    exists pre sorted post,
      tv st' = pre ++ programme_nodes ch sorted ++ post
      /\ sort_programs (PList (programs_of ch)) = Ok sorted.
Proof.
  revert st. induction chs as [| c chs IH]; intros st H ch Hin; [destruct Hin |].
  cbn [process_channels] in H. inv_bind H. rename a into st1.
  destruct Hin as [-> | Hin]; [| exact (IH _ H ch Hin)].
  destruct (process_channel_segment _ _ _ _ Hbind) as (pre & sorted & Htv & Hs).
  destruct (process_channels_steps _ _ _ _ H) as (nodes & _ & Htv' & _).
  exists (tv st ++ pre), sorted, nodes. split; [| exact Hs].
  rewrite Htv', Htv. now rewrite <- !app_assoc.
Qed.

Lemma process_days_segment (idx : channel_index)
    (days : list (string * http_reply)) (st st' : state) :
  process_days idx st days = Ok st' ->
  forall ch, In ch (fetched_entries (map snd days)) ->
    exists pre sorted post,
      tv st' = pre ++ programme_nodes ch sorted ++ post
      /\ sort_programs (PList (programs_of ch)) = Ok sorted.
Proof.
  revert st. induction days as [| [api_url reply] days IH]; intros st H ch Hin;
    [destruct Hin |].
  cbn [process_days] in H. inv_bind H. rename a into st1.
  cbn [map snd fetched_entries flat_map] in Hin.
  fold (fetched_entries (map snd days)) in Hin.
  apply in_app_or in Hin as [Hin | Hin]; [| exact (IH _ H ch Hin)].
  destruct (process_day_Ok _ _ _ _ _ Hbind)
    as [(data & chs & Hf & Hi & Hp) | (e & Hf & ->)].
  - rewrite Hf, Hi in Hin.
    destruct (process_channels_segment _ _ _ _ Hp ch Hin)
      as (pre & sorted & post & Htv & Hs).
    destruct (process_days_steps _ _ _ _ H) as (nodes & _ & Htv' & _).
    exists pre, sorted, (post ++ nodes). split; [| exact Hs].
    rewrite Htv', Htv. now rewrite <- !app_assoc.
  - rewrite Hf in Hin. destruct Hin.
Qed.

(** X5.  In the document the programmes of an entry that have the same
    start stand in the order the bundle had their records in: the sort of
    line 107 does not reorder equal starts. *)
Theorem equal_starts_keep_bundle_order (clock : nat -> Z) (meta : http_reply)
    (replies : nat -> http_reply) (root : element) (out : list message)
    (ch : pyval) :
  main clock meta replies = Written root out ->
  In ch (fetched_entries [replies 0%nat; replies 1%nat; replies 2%nat]) ->
  exists pre kept post,
    children_of root = pre ++ map (programme_of (channel_id_of ch)) kept ++ post
    /\ forall k,
         filter (fun p => start_of p =? k) kept
         = filter (fun p => start_of p =? k)
             (filter well_timed (programs_of ch)).
Proof.
  unfold main. destruct (get_channel_info meta) as [idx p0].
  destruct (get_api_urls clock) as [urls | e] eqn:Hu; [| discriminate].
  cbn [bind]. unfold assemble.
  destruct (process_days idx (initial_state p0) _) as [st | e] eqn:Hd;
    [| discriminate].
  cbn [bind]. unfold tostring.
  destruct (serializable (tv_element (tv st))); [| discriminate].
  cbn [bind outcome_of]. intros [= <- _] Hch.
  assert (Hsnd : map snd (combine urls (map replies (seq 0 3)))
                 = [replies 0%nat; replies 1%nat; replies 2%nat]).
  { rewrite map_snd_combine; [reflexivity |].
    apply mapM_length in Hu. now rewrite Hu. }
  rewrite <- Hsnd in Hch.
  destruct (process_days_segment _ _ _ _ Hd ch Hch)
    as (pre & sorted & post & Htv & Hs).
  exists pre, (filter well_timed sorted), post. split; [exact Htv |].
  intros k. rewrite filter_comm, (sort_programs_keeps_ties _ _ k Hs).
  apply filter_comm.
Qed.

(** X21.  The loop keeps the set of ids in step with the document: when
    the ids seen are the ids of the channel nodes before a list of days, they
    are so after it, and the days have only appended nodes. *)
Theorem processed_channels_invariant (idx : channel_index)
    (days : list (string * http_reply)) (st st' : state) :
  processed_channels st = channel_ids (tv st) ->
  process_days idx st days = Ok st' ->
  processed_channels st' = channel_ids (tv st')
  /\ exists nodes, tv st' = tv st ++ nodes.
Proof.
  intros Hinv H.
  destruct (process_days_steps _ _ _ _ H) as (nodes & Hsteps & Htv & _).
  split; [| now exists nodes].
  rewrite Htv, channel_ids_app, <- Hinv. exact (steps_ids _ _ _ _ _ Hsteps).
Qed.

(** X22.  The handler of line 137 catches the failures of the request and
    nothing else: a day whose fetch fails is printed and leaves the document
    as it was; once the bundle is fetched the day runs as if there were no
    handler, and prints nothing. *)
Theorem day_handler_catches_only_the_fetch (idx : channel_index) (st : state)
    (api_url : string) (reply : http_reply) :
  (forall e, fetch_json reply = Raise e ->
     process_day idx st api_url reply
     = Ok (with_printed
             (printed st ++ [FailedFetch api_url RequestException]) st))
  /\ (forall data, fetch_json reply = Ok data ->
        process_day idx st api_url reply
        = (channels <- py_iter data ;; process_channels idx st channels)
        /\ forall st', process_day idx st api_url reply = Ok st' ->
             printed st' = printed st).
Proof.
  unfold process_day. split.
  - intros e He. rewrite He, (fetch_json_raises _ _ He). reflexivity.
  - intros data Hd. rewrite Hd. cbn [bind].
    assert (E : catch is_RequestException
                  (channels <- py_iter data ;; process_channels idx st channels)
                  (Ok {| processed_channels := processed_channels st;
                         tv := tv st;
                         printed := printed st
                                    ++ [FailedFetch api_url RequestException] |})
                = (channels <- py_iter data ;; process_channels idx st channels)).
    { destruct (py_iter data) as [chs | x] eqn:Hi; cbn [bind].
      - pose proof (plain_process_channels idx chs st) as Hp.
        destruct (process_channels idx st chs) as [s | x]; [reflexivity |].
        destruct x; try reflexivity. now elim Hp.
      - pose proof (plain_py_iter data) as Hp. rewrite Hi in Hp.
        destruct x; try reflexivity. now elim Hp. }
    rewrite E. split; [reflexivity |].
    intros st' H. inv_bind H.
    now destruct (process_channels_steps _ _ _ _ H) as (_ & _ & _ & Hp).
Qed.

End Properties.

(** ** The claims at sample inputs *)

(** The sample run: three days from 2024-01-01, the second day without a
    response. *)
Lemma sample_run :
  main (Asia_Dhaka := fixed_plus6) sample_clock sample_metadata sample_replies
  = Written sample_document sample_printed.
Proof. vm_compute. reflexivity. Qed.

Lemma day_one_entry_fetched :
  In (entry "c1" [film; backwards; news])
     (fetched_entries [sample_replies 0%nat; sample_replies 1%nat;
                       sample_replies 2%nat]).
Proof. simpl. left. reflexivity. Qed.

Lemma anonymous_entry_fetched :
  In (anonymous_entry [news])
     (fetched_entries [sample_replies 0%nat; sample_replies 1%nat;
                       sample_replies 2%nat]).
Proof. simpl. right. left. reflexivity. Qed.

Lemma one_channel_node_per_id_witness :
  main (Asia_Dhaka := fixed_plus6) sample_clock sample_metadata sample_replies
  = Written sample_document sample_printed
  /\ ((forall node, In node (children_of sample_document) ->
         is_channel node = true -> exists c, attr node "id" = PStr c)
      /\ (forall c,
            (List.length (channel_nodes_with_id c sample_document) <= 1)%nat)
      /\ (forall ch,
            In ch (fetched_entries [sample_replies 0%nat; sample_replies 1%nat;
                                    sample_replies 2%nat]) ->
            exists c, channel_id_of ch = PStr c
              /\ List.length (channel_nodes_with_id c sample_document) = 1%nat)).
Proof.
  split; [exact sample_run |].
  exact (one_channel_node_per_id (Asia_Dhaka := fixed_plus6) _ _ _ _ _ sample_run).
Defined.

Lemma programme_emitted_iff_witness :
  main (Asia_Dhaka := fixed_plus6) sample_clock sample_metadata sample_replies
  = Written sample_document sample_printed
  /\ ((forall ch p,
         In ch (fetched_entries [sample_replies 0%nat; sample_replies 1%nat;
                                 sample_replies 2%nat]) ->
         In p (programs_of ch) -> emitted_condition p ->
         In (programme_of (Asia_Dhaka := fixed_plus6) (channel_id_of ch) p)
            (children_of sample_document))
      /\ (forall node, In node (children_of sample_document) ->
            is_programme node = true ->
            exists ch p,
              In ch (fetched_entries [sample_replies 0%nat; sample_replies 1%nat;
                                      sample_replies 2%nat])
              /\ In p (programs_of ch) /\ emitted_condition p
              /\ node = programme_of (Asia_Dhaka := fixed_plus6)
                          (channel_id_of ch) p)).
Proof.
  split; [exact sample_run |].
  exact (programme_emitted_iff (Asia_Dhaka := fixed_plus6) _ _ _ _ _ sample_run).
Defined.

Lemma programmes_sorted_within_entry_witness :
  main (Asia_Dhaka := fixed_plus6) sample_clock sample_metadata sample_replies
  = Written sample_document sample_printed
  /\ In (entry "c1" [film; backwards; news])
        (fetched_entries [sample_replies 0%nat; sample_replies 1%nat;
                          sample_replies 2%nat])
  /\ exists pre kept post,
       children_of sample_document
       = pre ++ map (programme_of (Asia_Dhaka := fixed_plus6)
                       (channel_id_of (entry "c1" [film; backwards; news])))
                    kept ++ post
       /\ Permutation kept
            (filter well_timed (programs_of (entry "c1" [film; backwards; news])))
       /\ StronglySorted start_le kept.
Proof.
  split; [exact sample_run |]. split; [exact day_one_entry_fetched |].
  exact (programmes_sorted_within_entry (Asia_Dhaka := fixed_plus6) _ _ _ _ _ _
           sample_run day_one_entry_fetched).
Defined.

Lemma unknown_id_is_shared_witness :
  main (Asia_Dhaka := fixed_plus6) sample_clock sample_metadata sample_replies
  = Written sample_document sample_printed
  /\ In (anonymous_entry [news])
        (fetched_entries [sample_replies 0%nat; sample_replies 1%nat;
                          sample_replies 2%nat])
  /\ lacks_key (anonymous_entry [news]) "i"
  /\ (channel_id_of (anonymous_entry [news]) = PStr "unknown_id"
      /\ List.length (channel_nodes_with_id "unknown_id" sample_document) = 1%nat
      /\ exists pre kept post,
           children_of sample_document
           = pre ++ map (programme_of (Asia_Dhaka := fixed_plus6)
                           (PStr "unknown_id")) kept ++ post
           /\ Permutation kept
                (filter well_timed (programs_of (anonymous_entry [news])))
           /\ Forall (fun node => attr node "channel" = PStr "unknown_id")
                (map (programme_of (Asia_Dhaka := fixed_plus6)
                        (PStr "unknown_id")) kept)).
Proof.
  assert (Hkey : lacks_key (anonymous_entry [news]) "i")
    by (eexists; split; reflexivity).
  split; [exact sample_run |]. split; [exact anonymous_entry_fetched |].
  split; [exact Hkey |].
  exact (unknown_id_is_shared (Asia_Dhaka := fixed_plus6) _ _ _ _ _ _
           sample_run anonymous_entry_fetched Hkey).
Defined.

Lemma failed_day_is_skipped_witness :
  fetch_failure NoResponse
  /\ match assemble (Asia_Dhaka := fixed_plus6) [] []
             ([("day1", day_one)] ++ ("day2", NoResponse) :: [("day3", day_three)]),
           assemble (Asia_Dhaka := fixed_plus6) [] []
             ([("day1", day_one)] ++ [("day3", day_three)]) with
     | Ok (root1, out1), Ok (root2, out2) =>
         root1 = root2 /\ In (FailedFetch "day2" RequestException) out1
     | Raise e1, Raise e2 => e1 = e2
     | _, _ => False
     end.
Proof.
  split; [exact fetch_no_response |].
  exact (failed_day_is_skipped (Asia_Dhaka := fixed_plus6) [] []
           [("day1", day_one)] [("day3", day_three)] "day2" NoResponse
           fetch_no_response).
Defined.

Lemma metadata_failure_is_absorbed_witness :
  metadata_failure (Response 500 None)
  /\ exists e,
       get_channel_info (Response 500 None) = ([], [FailedChannelInfo e])
       /\ main (Asia_Dhaka := fixed_plus6) sample_clock (Response 500 None)
            sample_replies
          = outcome_of
              (urls <- get_api_urls sample_clock ;;
               assemble (Asia_Dhaka := fixed_plus6) [] [FailedChannelInfo e]
                 (combine urls [sample_replies 0%nat; sample_replies 1%nat;
                                sample_replies 2%nat]))
       /\ forall root out,
            main (Asia_Dhaka := fixed_plus6) sample_clock (Response 500 None)
              sample_replies = Written root out ->
            In (FailedChannelInfo e) out
            /\ forall node, In node (children_of root) ->
                 is_channel node = true ->
                 exists ch,
                   In ch (fetched_entries
                            [sample_replies 0%nat; sample_replies 1%nat;
                             sample_replies 2%nat])
                   /\ node = fallback_channel_element ch.
Proof.
  assert (H : metadata_failure (Response 500 None))
    by (apply error_status; lia).
  split; [exact H |].
  exact (metadata_failure_is_absorbed (Asia_Dhaka := fixed_plus6) sample_clock
           (Response 500 None) sample_replies H).
Defined.

(** ** Where the code leaves the claims as stated *)

(** C2 as stated fails: a program whose times are valid, in milliseconds,
    is in a fetched bundle of a run that writes the file, and the document
    has no programme node. *)
Lemma valid_program_not_emitted :
  In milliseconds (programs_of (entry "c1" [milliseconds]))
  /\ valid_times milliseconds
  /\ validate_program_times (start_raw milliseconds) (end_raw milliseconds)
     = Ok true
  /\ main (Asia_Dhaka := fixed_plus6) sample_clock sample_metadata
       (three_days (bundle [entry "c1" [milliseconds]]) (bundle []) (bundle []))
     = Written (tv_element [c1_node]) [Saved].
Proof.
  split; [now left |]. split.
  - exists 1700000000000, 1700003600000. repeat split; reflexivity.
  - split; vm_compute; reflexivity.
Qed.

(** C3 as stated fails: a null start does not convert, and the validator
    raises instead of returning false. *)
Lemma validator_raises_on_null :
  validate_program_times PNone (PInt 100) = Raise TypeError
  /\ validate_program_times PNone (PInt 100) <> Ok false.
Proof. split; [reflexivity | discriminate]. Qed.

(** C4 as stated fails: the channel "c1" has a programme starting at 2000
    in the first day's bundle and one starting at 1000 in the second day's;
    the document lists them in that order. *)
Lemma later_day_earlier_start :
  main (Asia_Dhaka := fixed_plus6) sample_clock sample_metadata
    (three_days (bundle [entry "c1" [late]]) (bundle [entry "c1" [early]])
       (bundle []))
  = Written
      (tv_element
         [ c1_node;
           programme_of (Asia_Dhaka := fixed_plus6) (PStr "c1") late;
           programme_of (Asia_Dhaka := fixed_plus6) (PStr "c1") early ])
      [Saved]
  /\ start_of late = 2000 /\ start_of early = 1000
  /\ ~ start_le late early.
Proof.
  split; [vm_compute; reflexivity |].
  split; [reflexivity |]. split; [reflexivity |].
  unfold start_le. vm_compute. intros H. now apply H.
Qed.

(** C7 as stated fails: a day answered with status 300, which is not 2xx,
    is not skipped; its bundle is processed and nothing is printed. *)
Lemma redirect_status_day_is_processed :
  main (Asia_Dhaka := fixed_plus6) sample_clock sample_metadata
    (three_days (multiple_choices (PList [entry "c9" []])) (bundle [])
       (bundle []))
  = Written (tv_element [plain_node "c9" "Channel"]) [Saved].
Proof. vm_compute. reflexivity. Qed.

(** C8 as stated fails: a metadata response with status 300, which is not
    2xx, is no failure for get_channel_info; the index is built from its body
    and nothing is printed. *)
Lemma redirect_status_metadata_is_used :
  get_channel_info (multiple_choices sample_channels)
  = ([(PStr "c1", {| name := PStr "Channel One"; category := PStr "News";
                     logo := PStr "http://logo/c1.png" |})], []).
Proof. vm_compute. reflexivity. Qed.

(** C6: a start that is no number.  The formatter answers it with the empty
    string and the validator with false, but the sort of line 107 converts
    it first, outside both: the ValueError leaves the loops, the run ends in
    the top-level handler and no file is written, although the bundle holds a
    well-formed program too. *)
Theorem malformed_start_aborts_run :
  format_timestamp (Asia_Dhaka := fixed_plus6) (start_raw malformed_start)
  = Ok EmptyString
  /\ validate_program_times (start_raw malformed_start) (end_raw malformed_start)
     = Ok false
  /\ sort_programs (PList [malformed_start; news]) = Raise ValueError
  /\ main (Asia_Dhaka := fixed_plus6) sample_clock sample_metadata
       (three_days (bundle [entry "c1" [malformed_start; news]]) (bundle [])
          (bundle []))
     = Aborted ValueError.
Proof. repeat split; vm_compute; reflexivity. Qed.

(** ** Further properties at sample inputs *)

(** C5 (defect).  The suffix is the literal " +0600", not the offset of
    the conversion of line 13.  At 1250000000 (2009-08-11 14:13:20 UTC)
    Asia/Dhaka was on summer time, seven hours from UTC: the formatter
    returns the UTC+7 wall clock 20090811211320 with the suffix " +0600",
    where the date and time of t + 6 hours are 20090811201320; read with its
    suffix, the string names an instant one hour after t. *)
Theorem summer_time_keeps_literal_suffix :
  utcoffset (tzinfo := dhaka_2009) 1250000000 = 7 * 3600
  /\ format_timestamp (Asia_Dhaka := dhaka_2009) (PInt 1250000000)
     = Ok "20090811211320 +0600"
  /\ strftime_YmdHMS (1250000000 + 6 * 3600) = "20090811201320"
  /\ parse_YmdHMS "20090811211320 +0600" - 6 * 3600 = 1250000000 + 3600.
Proof. repeat split; vm_compute; reflexivity. Qed.

(** C9 (defect).  The clock is read in every turn of the loop of line 34,
    not once for the call: when midnight passes between the first reading
    (2024-01-01) and the second (2024-01-02), the URLs are those of
    01-01-2024, 03-01-2024 and 04-01-2024, and the URL of 02-01-2024 is
    missing. *)
Theorem midnight_between_readings_skips_a_day :
  midnight_clock 0%nat = days_from_civil 2024 1 1
  /\ midnight_clock 1%nat = days_from_civil 2024 1 2
  /\ midnight_clock 2%nat = days_from_civil 2024 1 2
  /\ get_api_urls midnight_clock
     = Ok ["https://cloudtv.akamaized.net/AynaOTT/BDcontent/channels/epg/652fcf82a2649538da6fc6e3_01-01-2024_minified_bundle.json";
           "https://cloudtv.akamaized.net/AynaOTT/BDcontent/channels/epg/652fcf82a2649538da6fc6e3_03-01-2024_minified_bundle.json";
           "https://cloudtv.akamaized.net/AynaOTT/BDcontent/channels/epg/652fcf82a2649538da6fc6e3_04-01-2024_minified_bundle.json"].
Proof. repeat split; vm_compute; reflexivity. Qed.

Lemma channel_nodes_come_from_bundles_witness :
  main (Asia_Dhaka := fixed_plus6) sample_clock sample_metadata sample_replies
  = Written sample_document sample_printed
  /\ forall node, In node (children_of sample_document) ->
       is_channel node = true ->
       exists ch,
         In ch (fetched_entries [sample_replies 0%nat; sample_replies 1%nat;
                                 sample_replies 2%nat])
         /\ attr node "id" = channel_id_of ch.
Proof.
  split; [exact sample_run |].
  exact (channel_nodes_come_from_bundles (Asia_Dhaka := fixed_plus6)
           _ _ _ _ _ sample_run).
Defined.

Lemma printed_lines_witness :
  main (Asia_Dhaka := fixed_plus6) sample_clock sample_metadata sample_replies
  = Written sample_document sample_printed
  /\ exists urls,
       get_api_urls sample_clock = Ok urls
       /\ sample_printed
          = snd (get_channel_info sample_metadata)
            ++ day_messages
                 (combine urls [sample_replies 0%nat; sample_replies 1%nat;
                                sample_replies 2%nat])
            ++ [Saved].
Proof.
  split; [exact sample_run |].
  exact (printed_lines (Asia_Dhaka := fixed_plus6) _ _ _ _ _ sample_run).
Defined.

(** *** More sample runs *)

Lemma untitled_run :
  main (Asia_Dhaka := fixed_plus6) sample_clock sample_metadata untitled_replies
  = Written untitled_document untitled_printed.
Proof. vm_compute. reflexivity. Qed.

Lemma sample_urls_generated : get_api_urls sample_clock = Ok sample_urls.
Proof. vm_compute. reflexivity. Qed.

Lemma url_dates_read_back_witness :
  get_api_urls midnight_clock
  = Ok [sample_url "01-01-2024"; sample_url "03-01-2024"; sample_url "04-01-2024"]
  /\ map (fun url => parse_dmY (date_of_url url))
       [sample_url "01-01-2024"; sample_url "03-01-2024"; sample_url "04-01-2024"]
     = [19723; 19725; 19726].
Proof.
  assert (H : get_api_urls midnight_clock
              = Ok [sample_url "01-01-2024"; sample_url "03-01-2024";
                    sample_url "04-01-2024"]) by (vm_compute; reflexivity).
  split; [exact H |].
  apply (url_dates_read_back midnight_clock _ H);
    unfold year_1000_day, midnight_clock; lia.
Defined.

Lemma urls_distinct_witness :
  get_api_urls sample_clock = Ok sample_urls /\ NoDup sample_urls.
Proof.
  split; [exact sample_urls_generated |].
  apply (urls_distinct sample_clock _ sample_urls_generated);
    unfold year_1000_day, sample_clock; lia.
Defined.

Lemma timestamp_reads_back_witness :
  format_timestamp (Asia_Dhaka := fixed_plus6) (PStr "1700000000")
  = Ok "20231115041320 +0600"
  /\ parse_YmdHMS "20231115041320 +0600" = 1700000000 + 21600
  /\ (utcoffset (tzinfo := fixed_plus6) 1700000000 = 21600 ->
      parse_YmdHMS "20231115041320 +0600" - 6 * 3600 = 1700000000).
Proof.
  assert (H : format_timestamp (Asia_Dhaka := fixed_plus6) (PStr "1700000000")
              = Ok "20231115041320 +0600") by (vm_compute; reflexivity).
  split; [exact H |].
  apply (timestamp_reads_back (Asia_Dhaka := fixed_plus6) (PStr "1700000000")
           1700000000 _ eq_refl H eq_refl).
  unfold year_1000_timestamp, utcoffset, fixed_plus6. lia.
Defined.

Lemma known_channel_is_enriched_witness :
  main (Asia_Dhaka := fixed_plus6) sample_clock sample_metadata sample_replies
  = Written sample_document sample_printed
  /\ channel_nodes_with_id "c1" sample_document
     = [enriched_channel_element "c1" (record_entry sample_record)].
Proof.
  split; [exact sample_run |].
  exact (known_channel_is_enriched (Asia_Dhaka := fixed_plus6) _ _ _ _ _ _
           [sample_record] _ "c1" sample_run eq_refl eq_refl eq_refl
           day_one_entry_fetched eq_refl).
Defined.

Lemma written_run_needs_witness :
  main (Asia_Dhaka := fixed_plus6) sample_clock sample_metadata sample_replies
  = Written sample_document sample_printed
  /\ forall ch,
       In ch (fetched_entries [sample_replies 0%nat; sample_replies 1%nat;
                               sample_replies 2%nat]) ->
       passable_entry ch
       /\ (exists c, channel_id_of ch = PStr c)
       /\ Forall passable_program (programs_of ch).
Proof.
  split; [exact sample_run |].
  exact (written_run_needs (Asia_Dhaka := fixed_plus6) _ _ _ _ _ sample_run).
Defined.

Lemma programme_times_read_back_witness :
  main (Asia_Dhaka := fixed_plus6) sample_clock sample_metadata sample_replies
  = Written sample_document sample_printed
  /\ (forall t, - 86400 <= utcoffset (tzinfo := fixed_plus6) t)
  /\ forall node, In node (children_of sample_document) ->
       is_programme node = true ->
       exists a b u v,
         attr node "start" = PStr a /\ attr node "stop" = PStr b
         /\ 0 < u /\ u < v /\ v <= max_timestamp
         /\ parse_YmdHMS a = u + utcoffset (tzinfo := fixed_plus6) u
         /\ parse_YmdHMS b = v + utcoffset (tzinfo := fixed_plus6) v
         /\ (utcoffset (tzinfo := fixed_plus6) u
             = utcoffset (tzinfo := fixed_plus6) v ->
             parse_YmdHMS a < parse_YmdHMS b).
Proof.
  assert (Hoff : forall t, - 86400 <= utcoffset (tzinfo := fixed_plus6) t)
    by (intros t; unfold utcoffset, fixed_plus6; lia).
  split; [exact sample_run |]. split; [exact Hoff |].
  exact (programme_times_read_back (Asia_Dhaka := fixed_plus6) _ _ _ _ _
           sample_run Hoff).
Defined.

Lemma programme_nodes_counted_witness :
  main (Asia_Dhaka := fixed_plus6) sample_clock sample_metadata sample_replies
  = Written sample_document sample_printed
  /\ Permutation (filter is_programme (children_of sample_document))
       (flat_map (fun ch => map (programme_of (Asia_Dhaka := fixed_plus6)
                                   (channel_id_of ch))
                              (filter well_timed (programs_of ch)))
          (fetched_entries [sample_replies 0%nat; sample_replies 1%nat;
                            sample_replies 2%nat])).
Proof.
  split; [exact sample_run |].
  exact (programme_nodes_counted (Asia_Dhaka := fixed_plus6) _ _ _ _ _ sample_run).
Defined.

Lemma channel_node_precedes_programmes_witness :
  main (Asia_Dhaka := fixed_plus6) sample_clock sample_metadata sample_replies
  = Written sample_document sample_printed
  /\ forall pre node post,
       children_of sample_document = pre ++ node :: post ->
       is_programme node = true ->
       exists m c, In m pre /\ is_channel m = true
                   /\ attr m "id" = PStr c /\ attr node "channel" = PStr c.
Proof.
  split; [exact sample_run |].
  exact (channel_node_precedes_programmes (Asia_Dhaka := fixed_plus6) _ _ _ _ _
           sample_run).
Defined.

Lemma document_schema_witness :
  main (Asia_Dhaka := fixed_plus6) sample_clock sample_metadata sample_replies
  = Written sample_document sample_printed
  /\ tag_of sample_document = "tv"
  /\ forall node, In node (children_of sample_document) ->
       (exists c display_name,
          node = Element "channel" [("id", PStr c)] PNone
                   [Element "display-name" [] display_name []]
          /\ writable_text display_name = true)
       \/ (exists c info,
             node = enriched_channel_element c info
             /\ writable_text (name info) = true
             /\ writable_text (category info) = true
             /\ attribute_writable (logo info) = true)
       \/ (exists c start_time end_time title desc,
             node = programme_element (PStr c) start_time end_time title desc
             /\ writable_text title = true /\ writable_text desc = true).
Proof.
  split; [exact sample_run |].
  exact (document_schema (Asia_Dhaka := fixed_plus6) _ _ _ _ _ sample_run).
Defined.

Lemma all_days_failed_writes_empty_guide_witness :
  get_api_urls sample_clock = Ok sample_urls
  /\ (forall i, (i < 3)%nat -> fetch_json (silent i) = Raise RequestException)
  /\ main (Asia_Dhaka := fixed_plus6) sample_clock sample_metadata silent
     = Written (tv_element [])
         (snd (get_channel_info sample_metadata)
          ++ map (fun api_url => FailedFetch api_url RequestException) sample_urls
          ++ [Saved]).
Proof.
  assert (Hs : forall i, (i < 3)%nat -> fetch_json (silent i) = Raise RequestException)
    by (intros i _; reflexivity).
  split; [exact sample_urls_generated |]. split; [exact Hs |].
  exact (all_days_failed_writes_empty_guide (Asia_Dhaka := fixed_plus6) _ _ _ _
           sample_urls_generated Hs).
Defined.

Lemma document_grows_by_day_witness :
  assemble (Asia_Dhaka := fixed_plus6) (fst (get_channel_info sample_metadata)) []
    ([(sample_url "01-01-2024", day_one)]
     ++ [(sample_url "02-01-2024", NoResponse);
         (sample_url "03-01-2024", day_three)])
  = Ok (sample_document, sample_printed)
  /\ exists root1 out1 nodes,
       assemble (Asia_Dhaka := fixed_plus6)
         (fst (get_channel_info sample_metadata)) []
         [(sample_url "01-01-2024", day_one)] = Ok (root1, out1)
       /\ children_of sample_document = children_of root1 ++ nodes.
Proof.
  assert (H : assemble (Asia_Dhaka := fixed_plus6)
                (fst (get_channel_info sample_metadata)) []
                ([(sample_url "01-01-2024", day_one)]
                 ++ [(sample_url "02-01-2024", NoResponse);
                     (sample_url "03-01-2024", day_three)])
              = Ok (sample_document, sample_printed))
    by (vm_compute; reflexivity).
  split; [exact H |].
  exact (document_grows_by_day (Asia_Dhaka := fixed_plus6) _ _ _ _ _ _ H).
Defined.

Lemma program_without_times_is_dropped_witness :
  (lacks_key endless "s" \/ lacks_key endless "e")
  /\ (forall nodes,
        emit_program (Asia_Dhaka := fixed_plus6) (PStr "c2") endless = Ok nodes ->
        nodes = [])
  /\ (lacks_key endless "e" ->
      (exists s, py_int (start_raw endless) = Ok s) ->
      emit_program (Asia_Dhaka := fixed_plus6) (PStr "c2") endless = Ok []).
Proof.
  assert (H : lacks_key endless "s" \/ lacks_key endless "e").
  { right. exists [("s", PInt 1700000000); ("n", PStr "Endless")].
    split; reflexivity. }
  split; [exact H |].
  exact (program_without_times_is_dropped (Asia_Dhaka := fixed_plus6)
           (PStr "c2") endless H).
Defined.

Lemma missing_texts_get_defaults_witness :
  main (Asia_Dhaka := fixed_plus6) sample_clock sample_metadata untitled_replies
  = Written untitled_document untitled_printed
  /\ In (programme_element (PStr "c2")
           (timestamp_attr (Asia_Dhaka := fixed_plus6) 1700000000)
           (timestamp_attr (Asia_Dhaka := fixed_plus6) 1700003600)
           (PStr "Unknown Program") (PStr "No description available"))
        (children_of untitled_document).
Proof.
  split; [exact untitled_run |].
  apply (missing_texts_get_defaults (Asia_Dhaka := fixed_plus6) _ _ _ _ _
           (entry "c2" [untitled; endless]) untitled untitled_run).
  - simpl. left. reflexivity.
  - simpl. left. reflexivity.
  - split.
    + exists 1700000000, 1700003600. repeat split; try reflexivity; lia.
    + unfold max_timestamp. vm_compute. discriminate.
  - exists [("s", PInt 1700000000); ("e", PInt 1700003600)]. split; reflexivity.
  - exists [("s", PInt 1700000000); ("e", PInt 1700003600)]. split; reflexivity.
Defined.

Lemma first_entry_names_channel_witness :
  main (Asia_Dhaka := fixed_plus6) sample_clock sample_metadata sample_replies
  = Written sample_document sample_printed
  /\ channel_nodes_with_id "c2" sample_document
     = [fallback_channel_element (entry "c2" [news])].
Proof.
  split; [exact sample_run |].
  apply (first_entry_names_channel (Asia_Dhaka := fixed_plus6) _ _ _ _ _
           [entry "c1" [film; backwards; news]; anonymous_entry [news];
            entry "c1" []; anonymous_entry []] [] _ "c2" sample_run).
  - reflexivity.
  - reflexivity.
  - simpl. intros x [<- | [<- | [<- | [<- | []]]]]; discriminate.
  - reflexivity.
Defined.

Lemma processed_channels_invariant_witness :
  process_days (Asia_Dhaka := fixed_plus6) (fst (get_channel_info sample_metadata))
    (initial_state [])
    [(sample_url "01-01-2024", day_one); (sample_url "02-01-2024", NoResponse);
     (sample_url "03-01-2024", day_three)]
  = Ok sample_state
  /\ processed_channels sample_state = channel_ids (tv sample_state)
  /\ exists nodes, tv sample_state = tv (initial_state []) ++ nodes.
Proof.
  assert (H : process_days (Asia_Dhaka := fixed_plus6)
                (fst (get_channel_info sample_metadata)) (initial_state [])
                [(sample_url "01-01-2024", day_one);
                 (sample_url "02-01-2024", NoResponse);
                 (sample_url "03-01-2024", day_three)]
              = Ok sample_state) by (vm_compute; reflexivity).
  split; [exact H |].
  exact (processed_channels_invariant (Asia_Dhaka := fixed_plus6) _ _
           (initial_state []) _ eq_refl H).
Defined.

Lemma ties_run :
  main (Asia_Dhaka := fixed_plus6) sample_clock sample_metadata ties_replies
  = Written ties_document untitled_printed.
Proof. vm_compute. reflexivity. Qed.

Lemma equal_starts_keep_bundle_order_witness :
  main (Asia_Dhaka := fixed_plus6) sample_clock sample_metadata ties_replies
  = Written ties_document untitled_printed
  /\ start_of news_again = start_of news
  /\ exists pre kept post,
       children_of ties_document
       = pre ++ map (programme_of (Asia_Dhaka := fixed_plus6)
                       (channel_id_of (entry "c2" [film; news_again; backwards; news])))
                  kept ++ post
       /\ forall k,
            filter (fun p => start_of p =? k) kept
            = filter (fun p => start_of p =? k)
                (filter well_timed
                   (programs_of (entry "c2" [film; news_again; backwards; news]))).
Proof.
  split; [exact ties_run |]. split; [reflexivity |].
  apply (equal_starts_keep_bundle_order (Asia_Dhaka := fixed_plus6) _ _ _ _ _
           (entry "c2" [film; news_again; backwards; news]) ties_run).
  simpl. left. reflexivity.
Defined.

Lemma channel_index_last_record_wins_witness :
  fetch_json repeated_metadata
  = Ok (PDict [("channels", PList [sample_old_record; sample_record])])
  /\ last_record "c1" [sample_old_record; sample_record]
     = Some (record_entry sample_record)
  /\ snd (get_channel_info repeated_metadata) = []
  /\ forall c, index_lookup (fst (get_channel_info repeated_metadata)) (PStr c)
               = last_record c [sample_old_record; sample_record].
Proof.
  split; [reflexivity |]. split; [reflexivity |].
  exact (channel_index_last_record_wins repeated_metadata _
           [sample_old_record; sample_record] eq_refl eq_refl eq_refl).
Defined.
